(** * Room lifecycle of the quiz backend (src/server.js, last revision)

    A shallow embedding of the Socket.IO handlers of [src/server.js]
    (lines 1020-1619, the revision that supersedes the two earlier ones in
    the same file) and the properties of the room state machine.

    Modelling conventions.
    - A JavaScript number is an IEEE-754 binary64 value: the kernel's
      primitive [float], with the operators of [PrimFloat].  Counters that
      the server itself only ever initialises to 0 and increments
      ([currentQuestion]) are integers in [Z].
    - A JavaScript string is a [string]; the embedding covers ASCII text
      (room codes are drawn from [0-9A-Z]).
    - [Map] objects are [gmap]s; arrays are lists.
    - The handlers mutate room objects in place; every room object in the
      store is reachable through exactly one key of [rooms], so the store
      holds the rooms by value and a mutation is an insertion under the
      room's key.  A suspended call (below) holds on to its room object:
      through that key while the object is in the store, by value once
      [rooms.delete] has dropped it.
    - Each handler returns the new server state together with the list of
      events it emitted, in emission order.
    - Handlers run to completion one after the other, except at the one
      [await], in the ['generateQuestions'] handler: the call is suspended
      there, other events are handled meanwhile, and it resumes later on
      the room object it captured.  [World] keeps the suspended calls next
      to the server state; what the external generator answered is part of
      the step that resumes the call. *)

From Stdlib Require Import ZArith List Bool.
From Stdlib Require Import Floats.FloatClass Floats.PrimFloat.
From Stdlib Require Import Numbers.Cyclic.Int63.Uint63.
From Stdlib Require Floats.SpecFloat Floats.FloatOps Floats.FloatAxioms.
From stdpp Require Import gmap strings list.

Local Open Scope string_scope.

(** ** JavaScript numbers *)

Module JsNum.

(** [!x] for a number: [0], [-0] and [NaN] are falsy. *)
Definition falsy (x : float) : bool :=
  negb (PrimFloat.ltb 0 x || PrimFloat.ltb x 0).

(** [x || d] on numbers. *)
Definition or_else (x d : float) : float := if falsy x then d else x.

Definition two52 : float := 4503599627370496%float.

(** Nearest integer of [0 <= y < 2^52], ties to even. *)
Definition round_small (y : float) : float :=
  PrimFloat.sub (PrimFloat.add y two52) two52.

(** [Math.floor]. Values of magnitude at least [2^52], infinities and
    [NaN] are returned as they are; so are the two zeros. *)
Definition floor (x : float) : float :=
  if PrimFloat.eqb x 0 then x
  else if PrimFloat.ltb (PrimFloat.abs x) two52 then
    if PrimFloat.ltb 0 x then
      let r := round_small x in
      if PrimFloat.ltb x r then PrimFloat.sub r 1 else r
    else
      let y := PrimFloat.opp x in
      let r := round_small y in
      PrimFloat.opp (if PrimFloat.ltb r y then PrimFloat.add r 1 else r)
  else x.

Definition is_neg_zero (x : float) : bool :=
  match PrimFloat.classify x with NZero => true | _ => false end.

(** [Math.min(a, b)] and [Math.max(a, b)]: [NaN] is contagious and [-0]
    is below [+0]. *)
Definition min (a b : float) : float :=
  if PrimFloat.is_nan a || PrimFloat.is_nan b then PrimFloat.nan
  else if PrimFloat.ltb a b then a
  else if PrimFloat.ltb b a then b
  else if is_neg_zero a then a else b.

Definition max (a b : float) : float :=
  if PrimFloat.is_nan a || PrimFloat.is_nan b then PrimFloat.nan
  else if PrimFloat.ltb a b then b
  else if PrimFloat.ltb b a then a
  else if is_neg_zero a then b else a.

(** The number of an array length. *)
Definition of_nat (n : nat) : float :=
  PrimFloat.of_uint63 (Uint63.of_Z (Z.of_nat n)).

End JsNum.

(** ** JavaScript strings *)

Module JsStr.

Definition upper_ascii (c : Ascii.ascii) : Ascii.ascii :=
  let n := Ascii.nat_of_ascii c in
  if (97 <=? n)%nat && (n <=? 122)%nat then Ascii.ascii_of_nat (n - 32) else c.

(** [s.toUpperCase()] on ASCII text. *)
Fixpoint toUpperCase (s : string) : string :=
  match s with
  | EmptyString => EmptyString
  | String c s' => String (upper_ascii c) (toUpperCase s')
  end.


(** [!s]: only the empty string is falsy. *)
Definition falsy (s : string) : bool :=
  match s with EmptyString => true | _ => false end.

(** [o || d] where [o] is a string or [undefined]. *)
Definition or_else (o : option string) (d : string) : string :=
  match o with
  | Some s => if falsy s then d else s
  | None => d
  end.

(** A string-or-undefined value that is truthy. *)
Definition truthy (o : option string) : option string :=
  match o with
  | Some s => if falsy s then None else Some s
  | None => None
  end.

End JsStr.

(** ** JavaScript values that cross the wire untyped *)

Inductive JsVal :=
| JUndefined
| JNull
| JBool (b : bool)
| JNum (x : float)
| JStr (s : string).

(** [v === n] for a number [n]. *)
Definition strict_eq_num (v : JsVal) (n : float) : bool :=
  match v with
  | JNum x => PrimFloat.eqb x n
  | _ => false
  end.

(** ** Data model *)

(** The player object literal of [createRoom], [joinRoom] and [rejoinRoom].
    [id] is the socket id of the connection the player is bound to. *)
Module Player.

Record t := mk {
  id : string;
  clientId : string;
  name : string;
  score : float;
  answered : bool;
  selectedAnswer : JsVal;
  answerTime : option float;
  roundPoints : float;
  ready : bool;
}.

(** [{ id, clientId, name, score: 0, answered: false, selectedAnswer: null,
      answerTime: null, roundPoints: 0, ready: false }] *)
Definition fresh (playerId cid nm : string) : t :=
  mk playerId cid nm 0%float false JNull None 0%float false.

(** [existing.id = socket.id] *)
Definition set_id (sid : string) (p : t) : t :=
  mk sid (clientId p) (name p) (score p) (answered p) (selectedAnswer p)
     (answerTime p) (roundPoints p) (ready p).

(** [player.ready = true] *)
Definition set_ready (p : t) : t :=
  mk (id p) (clientId p) (name p) (score p) (answered p) (selectedAnswer p)
     (answerTime p) (roundPoints p) true.

(** The [forEach] body of [startQuiz]. *)
Definition reset_match (p : t) : t :=
  mk (id p) (clientId p) (name p) 0%float false JNull None 0%float false.

(** The [forEach] body of [nextQuestion]. *)
Definition reset_round (p : t) : t :=
  mk (id p) (clientId p) (name p) (score p) false JNull None 0%float (ready p).

(** The [forEach] body of the timer callback. *)
Definition expire (p : t) : t :=
  if answered p then p
  else mk (id p) (clientId p) (name p) (score p) true (JNum (-1)%float)
          (answerTime p) 0%float (ready p).

(** The three assignments of [selectAnswer] that precede the lookup of
    the current question. *)
Definition submit (answer : JsVal) (elapsed : float) (p : t) : t :=
  mk (id p) (clientId p) (name p) (score p) true answer (Some elapsed)
     (roundPoints p) (ready p).

(** [player.roundPoints = isCorrect ? totalPoints : 0;
     if (isCorrect) player.score += totalPoints;] *)
Definition grade (isCorrect : bool) (totalPoints : float) (p : t) : t :=
  mk (id p) (clientId p) (name p)
     (if isCorrect then PrimFloat.add (score p) totalPoints else score p)
     (answered p) (selectedAnswer p) (answerTime p)
     (if isCorrect then totalPoints else 0%float) (ready p).

Definition has_id (sid : string) (p : t) : bool := String.eqb (id p) sid.
Definition has_clientId (cid : string) (p : t) : bool := String.eqb (clientId p) cid.

End Player.

(** A generated question, as [generateQuestions] maps it from the model's
    JSON answer. *)
Module Question.

Record t := mk {
  id : string;
  question : string;
  options : list string;
  correctAnswer : float;
  difficulty : string;
}.

End Question.

Inductive Status := waiting | quiz | finished.

Module Room.

(** The room object literal of [createRoom]. The fields [questionTimer]
    (always [null]) and [createdAt] are never read and are left out. *)
Record t := mk {
  id : string;
  code : string;
  adminId : string;
  players : list Player.t;
  status : Status;
  currentQuestion : Z;
  totalQuestions : float;
  questions : list Question.t;
  topic : string;
  difficulty : string;
  questionCount : float;
  questionTime : float;
  questionsReady : bool;
  rematch : bool;
}.

Definition set_adminId (a : string) (r : t) : t :=
  mk (id r) (code r) a (players r) (status r) (currentQuestion r)
     (totalQuestions r) (questions r) (topic r) (difficulty r)
     (questionCount r) (questionTime r) (questionsReady r) (rematch r).

Definition set_players (ps : list Player.t) (r : t) : t :=
  mk (id r) (code r) (adminId r) ps (status r) (currentQuestion r)
     (totalQuestions r) (questions r) (topic r) (difficulty r)
     (questionCount r) (questionTime r) (questionsReady r) (rematch r).

Definition set_status (st : Status) (r : t) : t :=
  mk (id r) (code r) (adminId r) (players r) st (currentQuestion r)
     (totalQuestions r) (questions r) (topic r) (difficulty r)
     (questionCount r) (questionTime r) (questionsReady r) (rematch r).

Definition set_currentQuestion (n : Z) (r : t) : t :=
  mk (id r) (code r) (adminId r) (players r) (status r) n
     (totalQuestions r) (questions r) (topic r) (difficulty r)
     (questionCount r) (questionTime r) (questionsReady r) (rematch r).

Definition set_totalQuestions (n : float) (r : t) : t :=
  mk (id r) (code r) (adminId r) (players r) (status r) (currentQuestion r)
     n (questions r) (topic r) (difficulty r)
     (questionCount r) (questionTime r) (questionsReady r) (rematch r).

Definition set_questions (qs : list Question.t) (r : t) : t :=
  mk (id r) (code r) (adminId r) (players r) (status r) (currentQuestion r)
     (totalQuestions r) qs (topic r) (difficulty r)
     (questionCount r) (questionTime r) (questionsReady r) (rematch r).

Definition set_topic (x : string) (r : t) : t :=
  mk (id r) (code r) (adminId r) (players r) (status r) (currentQuestion r)
     (totalQuestions r) (questions r) x (difficulty r)
     (questionCount r) (questionTime r) (questionsReady r) (rematch r).

Definition set_difficulty (x : string) (r : t) : t :=
  mk (id r) (code r) (adminId r) (players r) (status r) (currentQuestion r)
     (totalQuestions r) (questions r) (topic r) x
     (questionCount r) (questionTime r) (questionsReady r) (rematch r).

Definition set_questionCount (n : float) (r : t) : t :=
  mk (id r) (code r) (adminId r) (players r) (status r) (currentQuestion r)
     (totalQuestions r) (questions r) (topic r) (difficulty r)
     n (questionTime r) (questionsReady r) (rematch r).

Definition set_questionTime (n : float) (r : t) : t :=
  mk (id r) (code r) (adminId r) (players r) (status r) (currentQuestion r)
     (totalQuestions r) (questions r) (topic r) (difficulty r)
     (questionCount r) n (questionsReady r) (rematch r).

Definition set_questionsReady (b : bool) (r : t) : t :=
  mk (id r) (code r) (adminId r) (players r) (status r) (currentQuestion r)
     (totalQuestions r) (questions r) (topic r) (difficulty r)
     (questionCount r) (questionTime r) b (rematch r).

Definition set_rematch (b : bool) (r : t) : t :=
  mk (id r) (code r) (adminId r) (players r) (status r) (currentQuestion r)
     (totalQuestions r) (questions r) (topic r) (difficulty r)
     (questionCount r) (questionTime r) (questionsReady r) b.

(** [room.status === 'waiting' ||
     (room.status === 'finished' && room.rematch === true)] *)
Definition lobbyLike (r : t) : bool :=
  match status r with
  | waiting => true
  | finished => rematch r
  | quiz => false
  end.

(** [room.questions[room.currentQuestion]]; [None] is [undefined]. *)
Definition questionAt (r : t) : option Question.t :=
  if (currentQuestion r <? 0)%Z then None
  else nth_error (questions r) (Z.to_nat (currentQuestion r)).

End Room.

(** An entry of [questionTimers]: the handle [setTimeout] returned.
    [pending] is false once the callback has run; the handle stays in the
    map until [clearQuestionTimer] deletes it. *)
Record Timer := mkTimer {
  delay : float;
  pending : bool;
}.

(** The module-level maps of the server, and for every socket the rooms
    it joined through [socket.join], in joining order ([socket.rooms]
    without the socket's own id, which comes first in that set). *)
Record Server := mkServer {
  rooms : gmap string Room.t;
  socketRoomMap : gmap string string;
  questionTimers : gmap string Timer;
  socketRooms : gmap string (list string);
}.

Definition set_rooms (m : gmap string Room.t) (s : Server) : Server :=
  mkServer m (socketRoomMap s) (questionTimers s) (socketRooms s).
Definition set_socketRoomMap (m : gmap string string) (s : Server) : Server :=
  mkServer (rooms s) m (questionTimers s) (socketRooms s).
Definition set_questionTimers (m : gmap string Timer) (s : Server) : Server :=
  mkServer (rooms s) (socketRoomMap s) m (socketRooms s).
Definition set_socketRooms (m : gmap string (list string)) (s : Server) : Server :=
  mkServer (rooms s) (socketRoomMap s) (questionTimers s) m.

Definition initial : Server := mkServer ∅ ∅ ∅ ∅.

(** ** Emitted events *)

Inductive Payload :=
| ERoom (room : Room.t)                                (* room *)
| ERoomJoined (room : Room.t) (playerId : string)      (* { room, playerId } *)
| ERoomCreated (room : Room.t) (playerId clientId : string)
| ERoomCode (roomCode : string)                        (* { roomCode } *)
| ESubmitted (playerId playerName : string)            (* { playerId, playerName } *)
| EMessage (message : string).                         (* { message } *)

Inductive Emit :=
| ToSocket (sid : string) (event : string) (p : Payload)   (* socket.emit *)
| ToRoom (rc : string) (event : string) (p : Payload).     (* io.to(rc).emit *)

Inductive Completion :=
| Returned
| Threw (error : string).

Record Result := mkResult {
  post : Server;
  sent : list Emit;
  completion : Completion;
}.

Definition ret (s : Server) (out : list Emit) : Result := mkResult s out Returned.

(** A bare [return;]. *)
Definition silent (s : Server) : Result := ret s [].

(** [socket.emit('error', { message }); return;] *)
Definition reject (sid msg : string) (s : Server) : Result :=
  ret s [ToSocket sid "error" (EMessage msg)].

(** ** Event payloads received from clients

    A destructured field that the client left out is [None]
    ([undefined]); [data || {}] makes a missing payload the payload with
    every field left out.  Fields that the handlers test with [typeof], or
    compare with [===] only, are untyped [JsVal]s.  Names, topics, client
    ids and room codes are taken as strings and [timeRemaining] as a
    number, [None] standing for every falsy value.  A [roomCode] that is
    neither falsy nor a string has its own actions, [JoinRoomBadCode] and
    [RejoinRoomBadCode]. *)

(** What [createRoom] sees of the [questionCount] it is sent, which it
    reads through [Number(questionCount || 5)] only: whether the value is
    falsy and, when it is not, the number that [Number] makes of it: the
    value itself for a number, 1 for [true], the numeric reading of a
    string (0 for ['0'], [NaN] for ['abc']), 0 for [[]]. *)
Inductive CountArg :=
| CountFalsy
| CountTruthy (number : float).

Module CreateRoomData.
Record t := mk {
  playerName : option string;
  topic : option string;
  difficulty : option string;
  questionCount : CountArg;
  clientId : option string;
}.
End CreateRoomData.

Module JoinRoomData.
Record t := mk {
  roomCode : option string;
  playerName : option string;
  clientId : option string;
}.
End JoinRoomData.

Module SettingsData.
Record t := mk {
  topic : JsVal;
  difficulty : JsVal;
  questionCount : JsVal;
  questionTime : JsVal;
}.
End SettingsData.

Module AnswerData.
Record t := mk {
  answer : JsVal;
  timeRemaining : option float;
}.
End AnswerData.

(** ** Array helpers *)

(** [l.findIndex(f)]; [None] is [-1]. *)
Fixpoint findIndex {A} (f : A -> bool) (l : list A) : option nat :=
  match l with
  | [] => None
  | x :: l' => if f x then Some 0%nat else S <$> findIndex f l'
  end.

(** [const x = l.find(f); if (x) { mutate x by g }]: the first element
    that satisfies [f] is updated where it stands. *)
Fixpoint update_first {A} (f : A -> bool) (g : A -> A) (l : list A) : list A :=
  match l with
  | [] => []
  | x :: l' => if f x then g x :: l' else x :: update_first f g l'
  end.

(** ** Transport and store primitives *)

(** [socket.join(rc)]: [socket.rooms] is a set that keeps insertion order. *)
Definition socket_join (sid rc : string) (s : Server) : Server :=
  let cur := default [] (socketRooms s !! sid) in
  set_socketRooms
    (<[sid := if bool_decide (rc ∈ cur) then cur else (cur ++ [rc])%list]> (socketRooms s)) s.

(** [socket.leave(rc)] *)
Definition socket_leave (sid rc : string) (s : Server) : Server :=
  match socketRooms s !! sid with
  | Some cur =>
      set_socketRooms
        (<[sid := filter (fun x => x ≠ rc) cur]> (socketRooms s)) s
  | None => s
  end.

(** [socketRoomMap.get(socket.id) || Array.from(socket.rooms)[1]] *)
Definition currentRoomCode (sid : string) (s : Server) : option string :=
  match JsStr.truthy (socketRoomMap s !! sid) with
  | Some rc => Some rc
  | None => head (default [] (socketRooms s !! sid))
  end.

(** [(roomCode || '').toUpperCase()] for that room code. *)
Definition roomKey (sid : string) (s : Server) : string :=
  JsStr.toUpperCase (JsStr.or_else (currentRoomCode sid s) "").

(** The room object found under [key] after it was mutated to [room]. *)
Definition put (key : string) (room : Room.t) (s : Server) : Server :=
  set_rooms (<[key := room]> (rooms s)) s.

(** ** Timer management *)

Definition clearQuestionTimer (roomCode : string) (s : Server) : Server :=
  match questionTimers s !! roomCode with
  | Some _ => set_questionTimers (delete roomCode (questionTimers s)) s
  | None => s
  end.

Definition startQuestionTimer (roomCode : string) (room : Room.t) (s : Server) : Server :=
  let s1 := clearQuestionTimer roomCode s in
  let timer :=
    mkTimer (PrimFloat.mul (JsNum.or_else (Room.questionTime room) 30) 1000) true in
  set_questionTimers (<[roomCode := timer]> (questionTimers s1)) s1.

(** The [setTimeout] callback of the timer stored under [roomCode]. It runs
    at most once, and only while the handle is still in [questionTimers]
    (both places that drop a room clear its timer first).  The closure
    holds the room object that was current when the timer was started; that
    object is the one stored under its own code. *)
Definition onTimeout (roomCode : string) (s : Server) : Result :=
  match questionTimers s !! roomCode with
  | Some timer =>
      if pending timer then
        let s1 :=
          set_questionTimers
            (<[roomCode := mkTimer (delay timer) false]> (questionTimers s)) s in
        match rooms s !! roomCode with
        | Some room =>
            let room' := Room.set_players (map Player.expire (Room.players room)) room in
            ret (put roomCode room' s1)
                [ToRoom roomCode "timeUp" (ERoom room);
                 ToRoom roomCode "allAnswered" (ERoom room')]
        | None => silent s1
        end
      else silent s
  | None => silent s
  end.

(** ** Scoring, as [selectAnswer] computes it *)

(** [Number(room.questionTime || 30)] *)
Definition maxTimeOf (room : Room.t) : float :=
  JsNum.or_else (Room.questionTime room) 30.

(** [Number(timeRemaining || 0)] *)
Definition secondsLeft (timeRemaining : option float) : float :=
  match timeRemaining with
  | Some x => JsNum.or_else x 0
  | None => 0%float
  end.

(** [Math.floor((Number(timeRemaining || 0) / maxTime) * 10)] *)
Definition timeBonus (timeRemaining : option float) (maxTime : float) : float :=
  JsNum.floor (PrimFloat.mul (PrimFloat.div (secondsLeft timeRemaining) maxTime) 10).

Definition basePoints : float := 10%float.

Definition totalPoints (timeRemaining : option float) (maxTime : float) : float :=
  PrimFloat.add basePoints (timeBonus timeRemaining maxTime).

(** ** Socket.IO handlers

    [sid] is [socket.id] of the connection the event arrived on. *)

(** The [do ... while (rooms.has(roomCode))] loop of [createRoom] over the
    successive values of [Math.random().toString(36).substring(2, 8)];
    [None] when every supplied draw is taken (the loop is still running). *)
Fixpoint pickCode (draws : list string) (rs : gmap string Room.t) : option string :=
  match draws with
  | [] => None
  | d :: ds =>
      let roomCode := JsStr.toUpperCase d in
      match rs !! roomCode with
      | Some _ => pickCode ds rs
      | None => Some roomCode
      end
  end.

(** [now] is the decimal text of [Date.now()]. *)
Definition createRoom (sid : string) (draws : list string) (now : string)
    (data : CreateRoomData.t) (s : Server) : option Result :=
  match pickCode draws (rooms s) with
  | None => None
  | Some roomCode =>
      let playerId := sid in
      let stableClientId :=
        JsStr.or_else (CreateRoomData.clientId data) (sid ++ "-" ++ now) in
      let player :=
        Player.fresh playerId stableClientId
          (JsStr.or_else (CreateRoomData.playerName data) "Player") in
      let count :=
        match CreateRoomData.questionCount data with
        | CountTruthy n => n
        | CountFalsy => 5%float
        end in
      let room :=
        Room.mk roomCode roomCode playerId [player] waiting 0 count []
          (JsStr.or_else (CreateRoomData.topic data) "General Knowledge")
          (JsStr.or_else (CreateRoomData.difficulty data) "medium")
          count 30 false false in
      let s1 := put roomCode room s in
      let s2 := socket_join sid roomCode s1 in
      let s3 := set_socketRoomMap (<[sid := roomCode]> (socketRoomMap s2)) s2 in
      Some (ret s3 [ToSocket sid "roomCreated" (ERoomCreated room playerId stableClientId)])
  end.

(** The tail shared by every successful join: [socket.join(rc);
    socketRoomMap.set(socket.id, rc); io.to(rc).emit('roomUpdated', room);
    socket.emit('roomJoined', { room, playerId })]. *)
Definition enter (sid rc : string) (room : Room.t) (s : Server) : Result :=
  let s1 := put rc room s in
  let s2 := socket_join sid rc s1 in
  let s3 := set_socketRoomMap (<[sid := rc]> (socketRoomMap s2)) s2 in
  ret s3 [ToRoom rc "roomUpdated" (ERoom room);
          ToSocket sid "roomJoined" (ERoomJoined room sid)].

Definition joinRoom (sid : string) (now : string) (data : JoinRoomData.t)
    (s : Server) : Result :=
  let rc := JsStr.toUpperCase (JsStr.or_else (JoinRoomData.roomCode data) "") in
  match rooms s !! rc with
  | None => reject sid "Room not found" s
  | Some room =>
      let canJoin := Room.lobbyLike room in
      if negb canJoin then
        match JsStr.truthy (JoinRoomData.clientId data) with
        | Some clientId =>
            match find (Player.has_clientId clientId) (Room.players room) with
            | Some _ =>
                let room' :=
                  Room.set_players
                    (update_first (Player.has_clientId clientId) (Player.set_id sid)
                       (Room.players room)) room in
                enter sid rc room' s
            | None => reject sid "Game has already started" s
            end
        | None => reject sid "Game has already started" s
        end
      else if (10 <=? length (Room.players room))%nat then
        reject sid "Room is full" s
      else
        let player :=
          Player.fresh sid
            (JsStr.or_else (JoinRoomData.clientId data) (sid ++ "-" ++ now))
            (JsStr.or_else (JoinRoomData.playerName data) "Player") in
        let room' := Room.set_players (Room.players room ++ [player])%list room in
        enter sid rc room' s
  end.

Definition rejoinRoom (sid : string) (data : JoinRoomData.t) (s : Server) : Result :=
  let rc := JsStr.toUpperCase (JsStr.or_else (JoinRoomData.roomCode data) "") in
  match JsStr.falsy rc, JsStr.truthy (JoinRoomData.clientId data) with
  | false, Some clientId =>
      match rooms s !! rc with
      | None => reject sid "Room not found" s
      | Some room =>
          match find (Player.has_clientId clientId) (Room.players room) with
          | None =>
              let canJoin := Room.lobbyLike room in
              if negb canJoin then reject sid "Game already in progress" s
              else
                let player :=
                  Player.fresh sid clientId
                    (JsStr.or_else (JoinRoomData.playerName data) "Player") in
                let room' := Room.set_players (Room.players room ++ [player])%list room in
                enter sid rc room' s
          | Some _ =>
              let room' :=
                Room.set_players
                  (update_first (Player.has_clientId clientId) (Player.set_id sid)
                     (Room.players room)) room in
              enter sid rc room' s
          end
      end
  | _, _ => reject sid "Invalid rejoin payload" s
  end.

(** [allowed.includes(questionTime)] for [allowed = [10, 15, 20, 25, 30]]. *)
Definition allowedQuestionTime (x : float) : bool :=
  existsb (fun a => PrimFloat.eqb a x) [10; 15; 20; 25; 30]%float.

(** The four conditional assignments of [updateSettings]. *)
Definition applySettings (data : SettingsData.t) (room : Room.t) : Room.t :=
  let r1 :=
    match SettingsData.topic data with
    | JStr x => Room.set_topic x room
    | _ => room
    end in
  let r2 :=
    match SettingsData.difficulty data with
    | JStr x => Room.set_difficulty x r1
    | _ => r1
    end in
  let r3 :=
    match SettingsData.questionCount data with
    | JNum n =>
        let r := Room.set_questionCount (JsNum.max 1 (JsNum.min 20 n)) r2 in
        Room.set_totalQuestions (Room.questionCount r) r
    | _ => r2
    end in
  match SettingsData.questionTime data with
  | JNum n => Room.set_questionTime (if allowedQuestionTime n then n else 30%float) r3
  | _ => r3
  end.

Definition updateSettings (sid : string) (data : SettingsData.t) (s : Server) : Result :=
  let key := roomKey sid s in
  match rooms s !! key with
  | None => silent s
  | Some room =>
      if negb (String.eqb (Room.adminId room) sid) then silent s
      else
        let inLobby := Room.lobbyLike room in
        if negb inLobby then silent s
        else
          let room' :=
            Room.set_questionsReady false
              (Room.set_questions [] (applySettings data room)) in
          ret (put key room' s) [ToRoom (Room.code room') "roomUpdated" (ERoom room')]
  end.

(** The ['generateQuestions'] handler when nothing else is handled between
    its two halves.  [outcome] is what [await generateQuestions(topic,
    difficulty, questionCount)] produced: the mapped question list, or
    [None] when the call threw.  The halves on their own are
    [generateQuestionsBegin] and [generateQuestionsEnd] below. *)
Definition generateQuestions (sid : string) (outcome : option (list Question.t))
    (s : Server) : Result :=
  let key := roomKey sid s in
  match rooms s !! key with
  | None => silent s
  | Some room =>
      if negb (String.eqb (Room.adminId room) sid) then silent s
      else
        let inLobby := Room.lobbyLike room in
        if negb inLobby then silent s
        else
          let announce :=
            ToRoom (Room.code room) "generatingQuestions" (ERoomCode (Room.code room)) in
          match outcome with
          | Some qs =>
              let room' := Room.set_questionsReady true (Room.set_questions qs room) in
              ret (put key room' s)
                  [announce;
                   ToRoom (Room.code room') "questionsGenerated" (ERoom room');
                   ToRoom (Room.code room') "roomUpdated" (ERoom room')]
          | None =>
              ret s [announce;
                     ToSocket sid "error" (EMessage "Failed to generate questions")]
          end
  end.

Definition startQuiz (sid : string) (s : Server) : Result :=
  let key := roomKey sid s in
  match rooms s !! key with
  | None => reject sid "Not authorized" s
  | Some room =>
      if negb (String.eqb (Room.adminId room) sid) then reject sid "Not authorized" s
      else if (length (Room.questions room) =? 0)%nat || negb (Room.questionsReady room)
      then reject sid "Generate questions first" s
      else if match Room.status room with finished => Room.rematch room | _ => false end
              && negb (forallb Player.ready (Room.players room))
      then reject sid "All players must press Play Again to be ready" s
      else
        let room' :=
          Room.set_currentQuestion 0
            (Room.set_status quiz
               (Room.set_rematch false
                  (Room.set_players (map Player.reset_match (Room.players room)) room))) in
        ret (startQuestionTimer (Room.code room') room' (put key room' s))
            [ToRoom (Room.code room') "quizStarted" (ERoom room')]
  end.

Definition selectAnswer (sid : string) (data : AnswerData.t) (s : Server) : Result :=
  let answer := AnswerData.answer data in
  let timeRemaining := AnswerData.timeRemaining data in
  let key := roomKey sid s in
  match rooms s !! key with
  | None => silent s
  | Some room =>
      match Room.status room with
      | quiz =>
          match find (Player.has_id sid) (Room.players room) with
          | None => silent s
          | Some player =>
              if Player.answered player then silent s
              else
                let maxTime := maxTimeOf room in
                let total := totalPoints timeRemaining maxTime in
                let elapsed := PrimFloat.sub maxTime (secondsLeft timeRemaining) in
                match Room.questionAt room with
                | None =>
                    (* room.questions[room.currentQuestion] is undefined *)
                    let room1 :=
                      Room.set_players
                        (update_first (Player.has_id sid) (Player.submit answer elapsed)
                           (Room.players room)) room in
                    mkResult (put key room1 s) [] (Threw "TypeError")
                | Some q =>
                    let isCorrect := strict_eq_num answer (Question.correctAnswer q) in
                    let room1 :=
                      Room.set_players
                        (update_first (Player.has_id sid)
                           (fun p => Player.grade isCorrect total
                                       (Player.submit answer elapsed p))
                           (Room.players room)) room in
                    let submitted :=
                      ToRoom (Room.code room1) "playerSubmitted"
                        (ESubmitted sid (Player.name player)) in
                    let updated := ToRoom (Room.code room1) "roomUpdated" (ERoom room1) in
                    if forallb Player.answered (Room.players room1) then
                      ret (clearQuestionTimer (Room.code room1) (put key room1 s))
                          [submitted;
                           ToRoom (Room.code room1) "allAnswered" (ERoom room1);
                           updated]
                    else ret (put key room1 s) [submitted; updated]
                end
          end
      | _ => silent s
      end
  end.

Definition nextQuestion (sid : string) (s : Server) : Result :=
  let key := roomKey sid s in
  match rooms s !! key with
  | None => silent s
  | Some room =>
      if negb (String.eqb (Room.adminId room) sid) then silent s
      else
        match Room.status room with
        | quiz =>
            let room1 :=
              Room.set_currentQuestion (Room.currentQuestion room + 1)
                (Room.set_players (map Player.reset_round (Room.players room)) room) in
            if (Room.currentQuestion room1 >=? Z.of_nat (length (Room.questions room1)))%Z
            then
              let room2 := Room.set_status finished room1 in
              ret (put key room2 s) [ToRoom (Room.code room2) "quizFinished" (ERoom room2)]
            else
              ret (startQuestionTimer (Room.code room1) room1 (put key room1 s))
                  [ToRoom (Room.code room1) "questionUpdated" (ERoom room1)]
        | _ => silent s
        end
  end.

Definition playAgain (sid : string) (s : Server) : Result :=
  let key := roomKey sid s in
  match rooms s !! key with
  | None => silent s
  | Some room =>
      match find (Player.has_id sid) (Room.players room) with
      | None => silent s
      | Some _ =>
          let room' :=
            Room.set_questionsReady false
              (Room.set_players
                 (update_first (Player.has_id sid) Player.set_ready (Room.players room))
                 (Room.set_rematch true room)) in
          ret (put key room' s)
              [ToRoom (Room.code room') "roomUpdated" (ERoom room');
               ToSocket sid "goToLobby" (ERoom room')]
      end
  end.

(** What [leaveRoom] and [disconnect] do once the room is found: remove the
    player, then drop the emptied room or hand the admin role on.
    [wasAdmin] is computed by the caller before the removal. *)
Definition removePlayer (roomCode : string) (room : Room.t) (idx : nat)
    (wasAdmin : bool) (s : Server) : Result :=
  match delete idx (Room.players room) with
  | [] => silent (clearQuestionTimer roomCode (set_rooms (delete roomCode (rooms s)) s))
  | first :: rest =>
      let room1 := Room.set_players (first :: rest) room in
      let room2 := if wasAdmin then Room.set_adminId (Player.id first) room1 else room1 in
      ret (put roomCode room2 s) [ToRoom roomCode "roomUpdated" (ERoom room2)]
  end.

Definition leaveRoom (sid : string) (s : Server) : Result :=
  match JsStr.truthy (socketRoomMap s !! sid) with
  | None => silent s
  | Some roomCode =>
      let room := rooms s !! roomCode in
      let s1 := socket_leave sid roomCode s in
      let s2 := set_socketRoomMap (delete sid (socketRoomMap s1)) s1 in
      match room with
      | None => silent s2
      | Some room =>
          match findIndex (Player.has_id sid) (Room.players room) with
          | None => silent s2
          | Some idx =>
              let leavingWasAdmin :=
                match Room.players room !! idx with
                | Some p => String.eqb (Player.id p) (Room.adminId room)
                | None => false
                end in
              removePlayer roomCode room idx leavingWasAdmin s2
          end
      end
  end.

(** Socket.IO empties [socket.rooms] before it fires ['disconnect']. *)
Definition disconnect (sid : string) (s : Server) : Result :=
  let s0 := set_socketRooms (delete sid (socketRooms s)) s in
  match JsStr.truthy (socketRoomMap s0 !! sid) with
  | None => silent s0
  | Some roomCode =>
      let room := rooms s0 !! roomCode in
      let s1 := set_socketRoomMap (delete sid (socketRoomMap s0)) s0 in
      match room with
      | None => silent s1
      | Some room =>
          match findIndex (Player.has_id sid) (Room.players room) with
          | None => silent s1
          | Some idx =>
              removePlayer roomCode room idx (String.eqb (Room.adminId room) sid) s1
          end
      end
  end.

(** ** The two halves of ['generateQuestions']

    The handler stops at [await generateQuestions(...)] and goes on when
    the promise settles, with the variables it had: [socket] and [room],
    the room object it found before the [await].  [rooms.delete] is the
    only thing that takes a room object out of the store: until then the
    object is the one stored under its code, afterwards it is an object of
    its own that nothing else can reach. *)

Inductive RoomRef :=
| Stored (key : string)
| Dropped (room : Room.t).

(** A call suspended at the [await]. *)
Record Suspended := mkSuspended {
  caller : string;
  held : RoomRef;
}.

(** Up to the [await]: the guards, the ['generatingQuestions'] broadcast
    and the call of the generator.  The store is not written. *)
Definition generateQuestionsBegin (sid : string) (s : Server) :
    Result * option Suspended :=
  let key := roomKey sid s in
  match rooms s !! key with
  | None => (silent s, None)
  | Some room =>
      if negb (String.eqb (Room.adminId room) sid) then (silent s, None)
      else
        let inLobby := Room.lobbyLike room in
        if negb inLobby then (silent s, None)
        else
          (ret s [ToRoom (Room.code room) "generatingQuestions"
                    (ERoomCode (Room.code room))],
           Some (mkSuspended sid (Stored key)))
  end.

(** [room.questions = questions; room.questionsReady = true] *)
Definition withQuestions (qs : list Question.t) (room : Room.t) : Room.t :=
  Room.set_questionsReady true (Room.set_questions qs room).

(** From the [await] on.  Nothing is checked again: the questions are
    written to the captured room in whatever state it is by now, and the
    two events go to whoever is in the Socket.IO room of its code.  [None]
    is a call that holds a stored room which is not in the store; no such
    call exists (see [held_rooms_are_stored]). *)
Definition generateQuestionsEnd (c : Suspended) (outcome : option (list Question.t))
    (s : Server) : option Result :=
  match outcome with
  | None =>
      Some (ret s [ToSocket (caller c) "error"
                     (EMessage "Failed to generate questions")])
  | Some qs =>
      match held c with
      | Stored key =>
          match rooms s !! key with
          | Some room =>
              let room' := withQuestions qs room in
              Some (ret (put key room' s)
                      [ToRoom (Room.code room') "questionsGenerated" (ERoom room');
                       ToRoom (Room.code room') "roomUpdated" (ERoom room')])
          | None => None
          end
      | Dropped room =>
          let room' := withQuestions qs room in
          Some (ret s [ToRoom (Room.code room') "questionsGenerated" (ERoom room');
                       ToRoom (Room.code room') "roomUpdated" (ERoom room')])
      end
  end.

(** ** A room code that is not text

    [(roomCode || '').toUpperCase()] with a [roomCode] that is neither
    falsy nor a string (a number, [true], an array, an object): the value
    has no [toUpperCase] and the call throws a [TypeError]. *)

(** In [joinRoom] it is the first statement after the destructuring, and
    nothing catches the exception. *)
Definition joinRoomBadCode (s : Server) : Result :=
  mkResult s [] (Threw "TypeError").

(** In [rejoinRoom] the statement is inside the [try]. *)
Definition rejoinRoomBadCode (sid : string) (s : Server) : Result :=
  reject sid "Failed to rejoin" s.

(** ** The server as a transition system *)

(** The events a socket can send.  [GenerateQuestions outcome] is a
    ['generateQuestions'] event whose generator call settles before
    anything else is handled; [Suspend] and [Resume] below are the same
    event with other events in between. *)
Inductive Action :=
| CreateRoom (draws : list string) (now : string) (data : CreateRoomData.t)
| JoinRoom (now : string) (data : JoinRoomData.t)
| RejoinRoom (data : JoinRoomData.t)
| UpdateSettings (data : SettingsData.t)
| GenerateQuestions (outcome : option (list Question.t))
| StartQuiz
| SelectAnswer (data : AnswerData.t)
| NextQuestion
| PlayAgain
| LeaveRoom
| Disconnect
| JoinRoomBadCode
| RejoinRoomBadCode.

Inductive Event :=
| FromSocket (sid : string) (a : Action)
| TimerExpired (roomCode : string).

Definition handle (sid : string) (a : Action) (s : Server) : option Result :=
  match a with
  | CreateRoom draws now data => createRoom sid draws now data s
  | JoinRoom now data => Some (joinRoom sid now data s)
  | RejoinRoom data => Some (rejoinRoom sid data s)
  | UpdateSettings data => Some (updateSettings sid data s)
  | GenerateQuestions outcome => Some (generateQuestions sid outcome s)
  | StartQuiz => Some (startQuiz sid s)
  | SelectAnswer data => Some (selectAnswer sid data s)
  | NextQuestion => Some (nextQuestion sid s)
  | PlayAgain => Some (playAgain sid s)
  | LeaveRoom => Some (leaveRoom sid s)
  | Disconnect => Some (disconnect sid s)
  | JoinRoomBadCode => Some (joinRoomBadCode s)
  | RejoinRoomBadCode => Some (rejoinRoomBadCode sid s)
  end.

Definition dispatch (e : Event) (s : Server) : option Result :=
  match e with
  | FromSocket sid a => handle sid a s
  | TimerExpired roomCode => Some (onTimeout roomCode s)
  end.

(** [questions.length == count] *)
Definition countMatches (qs : list Question.t) (count : float) : bool :=
  PrimFloat.eqb (JsNum.of_nat (length qs)) count.

(** Running a list of events, for concrete scenarios; [None] when
    [createRoom] runs out of draws. *)
Fixpoint run (es : list Event) (s : Server) : option Server :=
  match es with
  | [] => Some s
  | e :: es' =>
      match dispatch e s with
      | Some r => run es' (post r)
      | None => None
      end
  end.

(** ** The server with its suspended calls *)

Record World := mkWorld {
  server : Server;
  awaiting : list Suspended;
}.

Inductive Step :=
| Handle (e : Event)
| Suspend (sid : string)
| Resume (i : nat) (outcome : option (list Question.t)).

(** What an event handled meanwhile does to a suspended call: when the
    room it holds leaves the store, the call is left with the object,
    which [leaveRoom] or [disconnect] has just emptied of its last
    player (see [dropped_rooms_were_emptied]). *)
Definition detach (before after : gmap string Room.t) (c : Suspended) : Suspended :=
  match held c with
  | Stored key =>
      match before !! key, after !! key with
      | Some room, None => mkSuspended (caller c) (Dropped (Room.set_players [] room))
      | _, _ => c
      end
  | Dropped _ => c
  end.

(** One step of the server: an event handled to completion, a
    ['generateQuestions'] event handled up to its [await], or the [i]-th
    suspended call resuming with what the generator answered; calls may
    resume in any order. *)
Definition step (st : Step) (w : World) : option (World * list Emit) :=
  match st with
  | Handle e =>
      match dispatch e (server w) with
      | Some r =>
          Some (mkWorld (post r)
                  (map (detach (rooms (server w)) (rooms (post r))) (awaiting w)),
                sent r)
      | None => None
      end
  | Suspend sid =>
      let (r, c) := generateQuestionsBegin sid (server w) in
      Some (mkWorld (post r)
              (awaiting w ++ match c with Some c => [c] | None => [] end)%list,
            sent r)
  | Resume i outcome =>
      match awaiting w !! i with
      | Some c =>
          match generateQuestionsEnd c outcome (server w) with
          | Some r => Some (mkWorld (post r) (delete i (awaiting w)), sent r)
          | None => None
          end
      | None => None
      end
  end.

(** Worlds reached from the empty server by steps that [ok] lets through. *)
Inductive reachableBy (ok : Step -> World -> bool) : World -> Prop :=
| reach_start : reachableBy ok (mkWorld initial [])
| reach_next w st w' out :
    reachableBy ok w -> ok st w = true -> step st w = Some (w', out) ->
    reachableBy ok w'.

Definition anyStep (st : Step) (w : World) : bool := true.

(** The states the server reaches, whatever the clients send, whenever the
    timers fire and whatever the generator answers, at any time. *)
Definition reachable (s : Server) : Prop :=
  exists calls, reachableBy anyStep (mkWorld s calls).

(** Running a list of steps, for concrete scenarios. *)
Fixpoint play (ok : Step -> World -> bool) (sts : list Step) (w : World) : option World :=
  match sts with
  | [] => Some w
  | st :: sts' =>
      if ok st w then
        match step st w with
        | Some (w', _) => play ok sts' w'
        | None => None
        end
      else None
  end.

(** The room that the [i]-th suspended call will write to, if that room
    is still in the store. *)
Definition resumesOn (i : nat) (w : World) : option Room.t :=
  match awaiting w !! i with
  | Some c =>
      match held c with
      | Stored key => rooms (server w) !! key
      | Dropped _ => None
      end
  | None => None
  end.

(** A successful generation resumes while its room is still lobby-like,
    or after its room has left the store. *)
Definition timely (st : Step) (w : World) : bool :=
  match st with
  | Resume i (Some _) =>
      match resumesOn i w with
      | Some room => Room.lobbyLike room
      | None => true
      end
  | _ => true
  end.

(** A successful generation delivers as many questions as the room's
    [questionCount] is when they are stored in it (none are stored once
    the room has left the store). *)
Definition exactCount (st : Step) (w : World) : bool :=
  match st with
  | Resume i (Some qs) =>
      match resumesOn i w with
      | Some room => countMatches qs (Room.questionCount room)
      | None => true
      end
  | Handle (FromSocket sid (GenerateQuestions (Some qs))) =>
      match rooms (server w) !! roomKey sid (server w) with
      | Some room => countMatches qs (Room.questionCount room)
      | None => true
      end
  | _ => true
  end.

Definition timelyAndExact (st : Step) (w : World) : bool := timely st w && exactCount st w.

(** The same as a condition [G] on the questions a step stores and the
    room as it is when they are stored. *)
Definition storesOnly (G : list Question.t -> Room.t -> Prop) (st : Step) (w : World) :
    Prop :=
  match st with
  | Resume i (Some qs) =>
      forall room, resumesOn i w = Some room -> G qs room
  | Handle (FromSocket sid (GenerateQuestions (Some qs))) =>
      forall room,
        rooms (server w) !! roomKey sid (server w) = Some room ->
        Room.lobbyLike room = true -> G qs room
  | _ => True
  end.

(** ** Guards

    When an action is unauthorized or violates its precondition, action by
    action as the transition table has it: for [joinRoom] the room exists,
    is lobby-like and has fewer than ten players; for [rejoinRoom] a room
    code and a client id are supplied and the room exists, and a client id
    that is not listed needs a lobby-like room; the admin actions need the
    caller to be the admin and the room lobby-like ([updateSettings],
    [generateQuestions]), ready with questions ([startQuiz]) or in [quiz]
    ([nextQuestion]); [selectAnswer] needs a quiz and a known player who
    has not answered; [playAgain] a known player.  A room code that is not
    text names no room. *)
Definition violates (sid : string) (a : Action) (s : Server) : Prop :=
  match a with
  | CreateRoom _ _ _ | LeaveRoom | Disconnect => False
  | JoinRoomBadCode | RejoinRoomBadCode => True
  | JoinRoom _ data =>
      match rooms s !! JsStr.toUpperCase (JsStr.or_else (JoinRoomData.roomCode data) "") with
      | None => True
      | Some room =>
          Room.lobbyLike room = false \/ (10 <= length (Room.players room))%nat
      end
  | RejoinRoom data =>
      let rc := JsStr.toUpperCase (JsStr.or_else (JoinRoomData.roomCode data) "") in
      match JsStr.truthy (JoinRoomData.clientId data) with
      | None => True
      | Some clientId =>
          rc = "" \/
          match rooms s !! rc with
          | None => True
          | Some room =>
              Room.lobbyLike room = false /\
              find (Player.has_clientId clientId) (Room.players room) = None
          end
      end
  | UpdateSettings _ | GenerateQuestions _ =>
      match rooms s !! roomKey sid s with
      | None => True
      | Some room => Room.adminId room <> sid \/ Room.lobbyLike room = false
      end
  | StartQuiz =>
      match rooms s !! roomKey sid s with
      | None => True
      | Some room =>
          Room.adminId room <> sid \/
          Room.questions room = [] \/
          Room.questionsReady room = false \/
          (Room.status room = finished /\ Room.rematch room = true /\
           forallb Player.ready (Room.players room) = false)
      end
  | SelectAnswer _ =>
      match rooms s !! roomKey sid s with
      | None => True
      | Some room =>
          Room.status room <> quiz \/
          match find (Player.has_id sid) (Room.players room) with
          | None => True
          | Some player => Player.answered player = true
          end
      end
  | NextQuestion =>
      match rooms s !! roomKey sid s with
      | None => True
      | Some room => Room.adminId room <> sid \/ Room.status room <> quiz
      end
  | PlayAgain =>
      match rooms s !! roomKey sid s with
      | None => True
      | Some room => find (Player.has_id sid) (Room.players room) = None
      end
  end.





(** ** Room invariants *)

(** [P] holds of every room in the store. *)
Definition allRooms (P : Room.t -> Prop) (s : Server) : Prop :=
  forall rc room, rooms s !! rc = Some room -> P room.

(** [0 <= currentQuestion <= questions.length] *)
Definition indexInRange (r : Room.t) : Prop :=
  (0 <= Room.currentQuestion r <= Z.of_nat (length (Room.questions r)))%Z.

(** [questions.length == questionCount] once [questionsReady] is true. *)
Definition countAgrees (r : Room.t) : Prop :=
  Room.questionsReady r = true ->
  countMatches (Room.questions r) (Room.questionCount r) = true.

(** What every step maintains: the index never goes below 0 and is 0
    until the first match starts. *)
Definition indexStarts (r : Room.t) : Prop :=
  (0 <= Room.currentQuestion r)%Z /\
  (Room.status r = waiting -> Room.currentQuestion r = 0%Z).

(** What the handlers maintain between them, by status, as long as no one
    swaps the questions of a match under way: a waiting room is at index
    0, a running quiz points at one of its questions, and a finished room
    keeps the index within range until the rematch lobby opens. *)
Definition indexInv (r : Room.t) : Prop :=
  match Room.status r with
  | waiting => Room.currentQuestion r = 0%Z
  | quiz => (0 <= Room.currentQuestion r < Z.of_nat (length (Room.questions r)))%Z
  | finished =>
      (0 <= Room.currentQuestion r)%Z /\
      (Room.rematch r = false ->
       (Room.currentQuestion r <= Z.of_nat (length (Room.questions r)))%Z)
  end.

(** Every suspended call that holds a stored room holds one that is in
    the store. *)
Definition heldInv (w : World) : Prop :=
  forall i c key, awaiting w !! i = Some c -> held c = Stored key ->
                  is_Some (rooms (server w) !! key).

(** What the three maps maintain together: a room is stored under its own
    code and has at least one player, and only stored rooms have a timer
    entry. *)
Definition storeInv (s : Server) : Prop :=
  (forall rc room, rooms s !! rc = Some room ->
                   Room.code room = rc /\ Room.players room <> []) /\
  (forall rc, is_Some (questionTimers s !! rc) -> is_Some (rooms s !! rc)).

(** ** Further invariants *)

(** The settings a room can hold: one of the allowed question times, the
    two copies of the question count in step, and [id] equal to [code]. *)
Definition settingsInv (r : Room.t) : Prop :=
  In (Room.questionTime r) [10; 15; 20; 25; 30]%float /\
  Room.totalQuestions r = Room.questionCount r /\
  Room.id r = Room.code r.

(** [Q] holds of every handle in [questionTimers]. *)
Definition allTimers (Q : Timer -> Prop) (s : Server) : Prop :=
  forall rc t, questionTimers s !! rc = Some t -> Q t.

(** A timer that runs for one of the allowed question times. *)
Definition allowedDelay (t : Timer) : Prop :=
  In (delay t) [10000; 15000; 20000; 25000; 30000]%float.

(** ** Which room an event is about *)



(** ** Connection rate limiting

    The middleware registered with [io.use] (lines 1060-1083).  A header
    value is a string or an array of strings, so nothing in its body
    throws and the [catch] branch is never taken.  [Date.now()] is an
    integer number of milliseconds; [count] starts at 0 and is only ever
    incremented. *)

Module RateLimit.

(** [socket.handshake.headers['x-forwarded-for']] *)
Inductive Header :=
| Absent
| Single (v : string)
| Many (vs : list string).

Record Handshake := mkHandshake {
  xfwd : Header;
  address : option string;
}.

(** [v.split(',')[0]]: the text before the first comma. *)
Fixpoint firstField (v : string) : string :=
  match v with
  | EmptyString => EmptyString
  | String c v' =>
      if Ascii.eqb c (Ascii.ascii_of_nat 44) then EmptyString else String c (firstField v')
  end.

(** White space and line terminators, within ASCII. *)
Definition isSpace (c : Ascii.ascii) : bool :=
  let n := Ascii.nat_of_ascii c in
  ((9 <=? n)%nat && (n <=? 13)%nat) || (n =? 32)%nat.

Fixpoint trimStart (v : string) : string :=
  match v with
  | EmptyString => EmptyString
  | String c v' => if isSpace c then trimStart v' else v
  end.

Fixpoint trimEnd (v : string) : string :=
  match v with
  | EmptyString => EmptyString
  | String c v' =>
      match trimEnd v' with
      | EmptyString => if isSpace c then EmptyString else String c EmptyString
      | rest => String c rest
      end
  end.

(** [v.trim()] *)
Definition trim (v : string) : string := trimEnd (trimStart v).

(** The key the connection is counted under; [None] is [undefined], the
    first element of an empty array. *)
Definition clientIp (h : Handshake) : option string :=
  match xfwd h with
  | Many vs => head vs
  | Single v =>
      if JsStr.falsy v then Some (JsStr.or_else (address h) "unknown")
      else Some (trim (firstField v))
  | Absent => Some (JsStr.or_else (address h) "unknown")
  end.

(** An entry of [connectionTracker], a map from keys to entries. *)
Record Entry := mkEntry {
  count : nat;
  resetAt : Z;
}.

(** [next()] and [next(new Error(message))]. *)
Inductive Verdict :=
| Next
| NextError (message : string).

Definition limiter (h : Handshake) (now : Z) (t : gmap (option string) Entry) :
    gmap (option string) Entry * Verdict :=
  let ip := clientIp h in
  let entry := default (mkEntry 0 (now + 60000)) (t !! ip) in
  let entry :=
    if (resetAt entry <? now)%Z then mkEntry 0 (now + 60000) else entry in
  let entry := mkEntry (count entry + 1) (resetAt entry) in
  let t' := <[ip := entry]> t in
  if (20 <? count entry)%nat then (t', NextError "Rate limit exceeded")
  else (t', Next).

(** Connection attempts handled one after the other, each with the value
    [Date.now()] had when it was handled. *)
Fixpoint serve (attempts : list (Handshake * Z)) (t : gmap (option string) Entry) :
    gmap (option string) Entry :=
  match attempts with
  | [] => t
  | (h, now) :: rest => serve rest (fst (limiter h now t))
  end.

(** The verdicts handed, in order, to the attempts counted under [ip]. *)
Fixpoint verdictsFor (ip : option string) (attempts : list (Handshake * Z))
    (t : gmap (option string) Entry) : list Verdict :=
  match attempts with
  | [] => []
  | (h, now) :: rest =>
      let (t', v) := limiter h now t in
      if decide (clientIp h = ip) then v :: verdictsFor ip rest t'
      else verdictsFor ip rest t'
  end.

(** How many of the verdicts are [next()]. *)
Fixpoint passes (vs : list Verdict) : nat :=
  match vs with
  | [] => 0
  | Next :: vs' => S (passes vs')
  | NextError _ :: vs' => passes vs'
  end.

(** The verdict of the [k]-th attempt (from 0) of a window. *)
Definition nth_verdict (k : nat) : Verdict :=
  if (k <? 20)%nat then Next else NextError "Rate limit exceeded".

End RateLimit.

(** ** Sample states used to exercise the statements below *)

Module Sample.

Definition q1 : Question.t :=
  Question.mk "q1" "Which planet is red?" ["Venus"; "Earth"; "Mars"; "Jupiter"] 2 "easy".
Definition q2 : Question.t :=
  Question.mk "q2" "How many moons has Earth?" ["1"; "2"; "3"; "4"] 0 "easy".

Definition ann : Player.t := Player.fresh "s1" "cA" "Ann".
Definition bob : Player.t := Player.fresh "s2" "cB" "Bob".

Definition lobbyRoom : Room.t :=
  Room.mk "ABC123" "ABC123" "s1" [ann; bob] waiting 0 2 [] "Space" "easy" 2 30 false false.

Definition readyRoom : Room.t :=
  Room.mk "ABC123" "ABC123" "s1" [ann; bob] waiting 0 2 [q1; q2] "Space" "easy" 2 30 true false.

Definition quizRoom : Room.t :=
  Room.mk "ABC123" "ABC123" "s1" [ann; bob] quiz 0 2 [q1; q2] "Space" "easy" 2 30 true false.

(** Both sockets joined "ABC123"; [room] is stored under that code. *)
Definition serverWith (room : Room.t) (timers : gmap string Timer) : Server :=
  mkServer {[ "ABC123" := room ]}
           {[ "s1" := "ABC123"; "s2" := "ABC123" ]}
           timers
           {[ "s1" := ["ABC123"]; "s2" := ["ABC123"] ]}.

Definition inLobby : Server := serverWith lobbyRoom ∅.
Definition inLobbyReady : Server := serverWith readyRoom ∅.
Definition inQuiz : Server :=
  serverWith quizRoom {[ "ABC123" := mkTimer 30000 true ]}.

(** A running quiz whose only player is Ann. *)
Definition soloRoom : Room.t :=
  Room.mk "ABC123" "ABC123" "s1" [ann] quiz 0 2 [q1; q2] "Space" "easy" 2 30 true false.

Definition solo : Server :=
  mkServer {[ "ABC123" := soloRoom ]} {[ "s1" := "ABC123" ]}
           {[ "ABC123" := mkTimer 30000 true ]} {[ "s1" := ["ABC123"] ]}.

(** A lobby that already holds ten players. *)
Definition crowd : list Player.t :=
  [ Player.fresh "s1" "c1" "P1"; Player.fresh "s2" "c2" "P2";
    Player.fresh "s3" "c3" "P3"; Player.fresh "s4" "c4" "P4";
    Player.fresh "s5" "c5" "P5"; Player.fresh "s6" "c6" "P6";
    Player.fresh "s7" "c7" "P7"; Player.fresh "s8" "c8" "P8";
    Player.fresh "s9" "c9" "P9"; Player.fresh "s10" "c10" "P10" ].

Definition fullRoom : Room.t :=
  Room.mk "ABC123" "ABC123" "s1" crowd waiting 0 2 [] "Space" "easy" 2 30 false false.

Definition full : Server :=
  mkServer {[ "ABC123" := fullRoom ]} ∅ ∅ ∅.

(** Ann creates a room, has two questions generated and plays the match
    to its end; then she asks for a rematch and changes a setting. *)
Definition fullMatch : list Event :=
  [ FromSocket "s1"
      (CreateRoom ["abc123"] "1700000000000"
         (CreateRoomData.mk (Some "Ann") (Some "Space") (Some "easy")
            (CountTruthy 2) (Some "cA")));
    FromSocket "s1" (GenerateQuestions (Some [q1; q2]));
    FromSocket "s1" StartQuiz;
    FromSocket "s1" NextQuestion;
    FromSocket "s1" NextQuestion ].

Definition rematchThenSettings : list Event :=
  (fullMatch ++
   [ FromSocket "s1" PlayAgain;
     FromSocket "s1"
       (UpdateSettings (SettingsData.mk JUndefined JUndefined JUndefined (JNum 20))) ])%list.

Definition afterMatch : Server := default initial (run fullMatch initial).
Definition afterSettings : Server := default initial (run rematchThenSettings initial).

Definition finishedRoom : Room.t :=
  Room.mk "ABC123" "ABC123" "s1" [Player.fresh "s1" "cA" "Ann"] finished 2 2 [q1; q2]
    "Space" "easy" 2 30 true false.

Definition staleRoom : Room.t :=
  Room.mk "ABC123" "ABC123" "s1" [Player.set_ready (Player.fresh "s1" "cA" "Ann")]
    finished 2 2 [] "Space" "easy" 2 20 false true.

End Sample.

(** The award a player holds after [selectAnswer]: the player bound to
    [sid] in the caller's room of the state the handler leaves. *)
Definition playerAfter (sid : string) (key : string) (r : Result) : option Player.t :=
  match rooms (post r) !! key with
  | Some room => find (Player.has_id sid) (Room.players room)
  | None => None
  end.

(** Two rooms side by side, each with its creator in it. *)
Module TwoRooms.



End TwoRooms.

(** Question generation racing with other events. *)
Module Race.

Definition start : World := mkWorld initial [].

(** Ann creates a room for two questions. *)
Definition create : Step :=
  Handle (FromSocket "s1"
            (CreateRoom ["abc123"] "1700000000000"
               (CreateRoomData.mk (Some "Ann") (Some "Space") (Some "easy")
                  (CountTruthy 2) (Some "cA")))).

(** The settings change while the generator is at work: the two questions
    that were asked for arrive in a room that now wants five.  The
    generator delivers what it was asked for. *)
Definition lateForSettings : list Step :=
  [ create;
    Suspend "s1";
    Handle (FromSocket "s1"
              (UpdateSettings (SettingsData.mk JUndefined JUndefined (JNum 5) JUndefined)));
    Resume 0 (Some [Sample.q1; Sample.q2]) ].

(** A generation asked for while the room wanted one question is still
    under way when the room, set to two questions and given them, starts
    its quiz; the one question arrives when the quiz has reached its
    second.  The generator delivers what it was asked for each time. *)
Definition lateForQuiz : list Step :=
  [ create;
    Handle (FromSocket "s1"
              (UpdateSettings (SettingsData.mk JUndefined JUndefined (JNum 1) JUndefined)));
    Suspend "s1";
    Handle (FromSocket "s1"
              (UpdateSettings (SettingsData.mk JUndefined JUndefined (JNum 2) JUndefined)));
    Handle (FromSocket "s1" (GenerateQuestions (Some [Sample.q1; Sample.q2])));
    Handle (FromSocket "s1" StartQuiz);
    Handle (FromSocket "s1" NextQuestion);
    Resume 0 (Some [Sample.q1]) ].

(** A question count that no list can have. *)
Definition fractional : list Step :=
  [ create;
    Handle (FromSocket "s1"
              (UpdateSettings (SettingsData.mk JUndefined JUndefined (JNum 2.5) JUndefined)));
    Handle (FromSocket "s1" (GenerateQuestions (Some [Sample.q1; Sample.q2]))) ].

(** The match of [Sample.rematchThenSettings], step by step. *)
Definition rematchThenSettings : list Step := map Handle Sample.rematchThenSettings.

Definition afterLateForSettings : World := default start (play anyStep lateForSettings start).
Definition afterLateForQuiz : World := default start (play anyStep lateForQuiz start).
Definition afterFractional : World := default start (play anyStep fractional start).

(** What the statements below look at in a room. *)
Definition questionState (r : Room.t) : Status * Z * nat * float * bool :=
  (Room.status r, Room.currentQuestion r, length (Room.questions r),
   Room.questionCount r, Room.questionsReady r).

End Race.

(** * Properties *)

(** ** Arrays *)

Lemma find_update_first {A} (f : A -> bool) (g : A -> A) (l : list A) (x : A) :
  find f l = Some x -> f (g x) = true -> find f (update_first f g l) = Some (g x).
Proof.
  induction l as [|y l IH]; simpl; [discriminate|].
  destruct (f y) eqn:Hy.
  - intros [= ->] Hg. simpl. now rewrite Hg.
  - intros Hx Hg. simpl. rewrite Hy. auto.
Qed.

Lemma length_update_first {A} (f : A -> bool) (g : A -> A) (l : list A) :
  length (update_first f g l) = length l.
Proof.
  induction l as [|y l IH]; simpl; [reflexivity|].
  destruct (f y); simpl; congruence.
Qed.

Lemma findIndex_lookup {A} (f : A -> bool) (l : list A) (i : nat) :
  findIndex f l = Some i -> exists x, l !! i = Some x /\ f x = true.
Proof.
  revert i. induction l as [|y l IH]; simpl; intros i; [discriminate|].
  destruct (f y) eqn:Hy.
  - intros [= <-]. eauto.
  - destruct (findIndex f l) as [j|]; simpl; [|discriminate].
    intros [= <-]. destruct (IH j eq_refl) as (x & Hx & Hfx). eauto.
Qed.

(** ** The store *)

Lemma rooms_clearQuestionTimer rc s : rooms (clearQuestionTimer rc s) = rooms s.
Proof. unfold clearQuestionTimer. now destruct (questionTimers s !! rc). Qed.

Lemma rooms_startQuestionTimer rc room s : rooms (startQuestionTimer rc room s) = rooms s.
Proof. unfold startQuestionTimer. simpl. apply rooms_clearQuestionTimer. Qed.

Lemma timers_clearQuestionTimer rc s : questionTimers (clearQuestionTimer rc s) !! rc = None.
Proof.
  unfold clearQuestionTimer. destruct (questionTimers s !! rc) eqn:H; simpl; [|exact H].
  apply lookup_delete_eq.
Qed.

Lemma rooms_put key room s : rooms (put key room s) !! key = Some room.
Proof. simpl. apply lookup_insert_eq. Qed.

(** ** Scoring *)

Lemma has_id_submit_grade sid b t a e p :
  Player.has_id sid (Player.grade b t (Player.submit a e p)) = Player.has_id sid p.
Proof. reflexivity. Qed.

(** What [selectAnswer] leaves for a caller that passes its guards while a
    question is current: the caller's player is graded in place. *)
Lemma selectAnswer_grades sid data s room player q :
  rooms s !! roomKey sid s = Some room ->
  Room.status room = quiz ->
  find (Player.has_id sid) (Room.players room) = Some player ->
  Player.answered player = false ->
  Room.questionAt room = Some q ->
  playerAfter sid (roomKey sid s) (selectAnswer sid data s) =
    Some (Player.grade
            (strict_eq_num (AnswerData.answer data) (Question.correctAnswer q))
            (totalPoints (AnswerData.timeRemaining data) (maxTimeOf room))
            (Player.submit (AnswerData.answer data)
               (PrimFloat.sub (maxTimeOf room)
                  (secondsLeft (AnswerData.timeRemaining data))) player)).
Proof.
  intros Hroom Hst Hfind Hans Hq.
  unfold playerAfter, selectAnswer.
  rewrite Hroom, Hst, Hfind, Hans, Hq.
  match goal with
  | |- context [update_first ?f ?g ?l] =>
      assert (Hf : find f (update_first f g l) = Some (g player))
        by (apply (find_update_first f g l player Hfind);
            rewrite has_id_submit_grade;
            apply (find_some _ _ Hfind))
  end.
  destruct (forallb _ _); simpl;
    rewrite ?rooms_clearQuestionTimer; simpl;
    rewrite lookup_insert_eq; simpl; exact Hf.
Qed.

(** C1. A correct answer sent with the whole 30-second limit left (0
    seconds elapsed) is awarded 20 points, one sent with nothing left (30
    seconds elapsed) 10 points, both added to the cumulative score; an
    answer that is not the correct index, the missing answer included,
    is awarded 0 at any remaining time and leaves the score as it was.
    The timer's expiry likewise gives a player who has not answered 0
    round points and leaves the score alone. *)
Theorem C1_scoring_reference_values :
  forall (s : Server) (sid : string) (room : Room.t) (player : Player.t)
         (q : Question.t),
    rooms s !! roomKey sid s = Some room ->
    Room.status room = quiz ->
    find (Player.has_id sid) (Room.players room) = Some player ->
    Player.answered player = false ->
    Room.questionAt room = Some q ->
    Room.questionTime room = 30%float ->
    let award answer timeRemaining :=
      playerAfter sid (roomKey sid s)
        (selectAnswer sid (AnswerData.mk answer timeRemaining) s) in
    (forall answer, strict_eq_num answer (Question.correctAnswer q) = true ->
       (exists p, award answer (Some 30%float) = Some p /\
                  Player.answerTime p = Some 0%float /\
                  Player.roundPoints p = 20%float /\
                  Player.score p = PrimFloat.add (Player.score player) 20) /\
       (exists p, award answer (Some 0%float) = Some p /\
                  Player.answerTime p = Some 30%float /\
                  Player.roundPoints p = 10%float /\
                  Player.score p = PrimFloat.add (Player.score player) 10)) /\
    (forall answer timeRemaining,
       strict_eq_num answer (Question.correctAnswer q) = false ->
       exists p, award answer timeRemaining = Some p /\
                 Player.roundPoints p = 0%float /\
                 Player.score p = Player.score player) /\
    (forall timeRemaining,
       exists p, award JUndefined timeRemaining = Some p /\
                 Player.roundPoints p = 0%float /\
                 Player.score p = Player.score player) /\
    Player.roundPoints (Player.expire player) = 0%float /\
    Player.score (Player.expire player) = Player.score player.
Proof.
  intros s sid room player q Hroom Hst Hfind Hans Hq Ht award.
  assert (Hmax : maxTimeOf room = 30%float)
    by (unfold maxTimeOf; rewrite Ht; reflexivity).
  assert (Haward : forall a t, award a t = Some (Player.grade
            (strict_eq_num a (Question.correctAnswer q))
            (totalPoints t 30)
            (Player.submit a (PrimFloat.sub 30 (secondsLeft t)) player))).
  { intros a t. unfold award.
    rewrite (selectAnswer_grades sid _ s room player q Hroom Hst Hfind Hans Hq).
    simpl. now rewrite Hmax. }
  split; [|split; [|split; [|split]]].
  - intros answer Hright.
    split; (eexists; split; [apply Haward|]; rewrite Hright; repeat split).
  - intros answer t Hwrong. eexists. split; [apply Haward|].
    rewrite Hwrong. split; reflexivity.
  - intros t. eexists. split; [apply Haward|]. split; reflexivity.
  - unfold Player.expire. rewrite Hans. reflexivity.
  - unfold Player.expire. rewrite Hans. reflexivity.
Qed.

Lemma C1_scoring_reference_values_witness :
  exists p,
    playerAfter "s2" "ABC123"
      (selectAnswer "s2" (AnswerData.mk (JNum 2) (Some 30%float)) Sample.inQuiz) = Some p /\
    Player.roundPoints p = 20%float.
Proof.
  destruct (C1_scoring_reference_values Sample.inQuiz "s2" Sample.quizRoom Sample.bob Sample.q1
              eq_refl eq_refl eq_refl eq_refl eq_refl eq_refl) as [Hc _].
  destruct (Hc (JNum 2) eq_refl) as [(p & Hp & _ & Hr & _) _].
  exists p. split; [exact Hp | exact Hr].
Defined.

(** ** Starting the quiz *)

Lemma rooms_startQuiz_other sid s rc :
  rc <> roomKey sid s -> rooms (post (startQuiz sid s)) !! rc = rooms s !! rc.
Proof.
  intros Hne. unfold startQuiz.
  destruct (rooms s !! roomKey sid s) as [room|]; [|reflexivity].
  repeat (match goal with |- context [if ?b then _ else _] => destruct b end;
          try reflexivity).
  unfold ret; cbn [post]. rewrite rooms_startQuestionTimer.
  unfold put; cbn [rooms set_rooms]. now apply lookup_insert_ne.
Qed.

(** C2. Take any room of the store whose [questionsReady] is false and any
    caller.  The caller's [startQuiz] leaves that room as it was; and when
    the call resolves to that room, the whole server state is unchanged
    and the only event emitted is an ['error'] to the caller ("Not
    authorized" for a caller who is not the admin, "Generate questions
    first" for the admin). *)
Theorem C2_startQuiz_rejected_unless_ready :
  forall (s : Server) (sid rc : string) (room : Room.t),
    rooms s !! rc = Some room ->
    Room.questionsReady room = false ->
    rooms (post (startQuiz sid s)) !! rc = Some room /\
    (rc = roomKey sid s ->
     post (startQuiz sid s) = s /\
     completion (startQuiz sid s) = Returned /\
     sent (startQuiz sid s) =
       [ToSocket sid "error"
          (EMessage (if String.eqb (Room.adminId room) sid
                     then "Generate questions first" else "Not authorized"))]).
Proof.
  intros s sid rc room Hroom Hnot.
  destruct (decide (rc = roomKey sid s)) as [->|Hne].
  - assert (Hs : startQuiz sid s =
                 reject sid (if String.eqb (Room.adminId room) sid
                             then "Generate questions first" else "Not authorized") s).
    { unfold startQuiz. rewrite Hroom, Hnot.
      destruct (String.eqb (Room.adminId room) sid); simpl; [|reflexivity].
      now rewrite orb_true_r. }
    rewrite Hs. simpl. split; [exact Hroom|]. intros _. now repeat split.
  - split; [|intros Heq; contradiction].
    now rewrite rooms_startQuiz_other.
Qed.

Lemma C2_startQuiz_rejected_unless_ready_witness :
  post (startQuiz "s1" Sample.inLobby) = Sample.inLobby /\
  sent (startQuiz "s1" Sample.inLobby) =
    [ToSocket "s1" "error" (EMessage "Generate questions first")].
Proof.
  destruct (C2_startQuiz_rejected_unless_ready Sample.inLobby "s1" "ABC123"
              Sample.lobbyRoom eq_refl eq_refl) as (_ & H).
  destruct (H eq_refl) as (Hp & _ & Hs).
  split; [exact Hp | exact Hs].
Defined.

(** ** Settings *)

Lemma applySettings_keeps data room :
  Room.status (applySettings data room) = Room.status room /\
  Room.rematch (applySettings data room) = Room.rematch room /\
  Room.currentQuestion (applySettings data room) = Room.currentQuestion room /\
  Room.players (applySettings data room) = Room.players room /\
  Room.adminId (applySettings data room) = Room.adminId room /\
  Room.code (applySettings data room) = Room.code room.
Proof.
  unfold applySettings.
  destruct (SettingsData.topic data), (SettingsData.difficulty data),
    (SettingsData.questionCount data), (SettingsData.questionTime data);
    repeat split; reflexivity.
Qed.

(** C3. When the room's admin calls [updateSettings] in a lobby-like state,
    the room afterwards has [questionsReady] false and no questions,
    whatever the payload; the payload that repeats the room's current
    values is no exception. *)
Theorem C3_updateSettings_clears_questions :
  forall (s : Server) (sid : string) (data : SettingsData.t) (room : Room.t),
    rooms s !! roomKey sid s = Some room ->
    Room.adminId room = sid ->
    Room.lobbyLike room = true ->
    let cleared d :=
      exists room',
        rooms (post (updateSettings sid d s)) !! roomKey sid s = Some room' /\
        Room.questionsReady room' = false /\
        Room.questions room' = [] in
    cleared data /\
    cleared (SettingsData.mk (JStr (Room.topic room)) (JStr (Room.difficulty room))
               (JNum (Room.questionCount room)) (JNum (Room.questionTime room))).
Proof.
  intros s sid data room Hroom Hadmin Hlobby cleared.
  assert (H : forall d, cleared d).
  { intros d. unfold cleared, updateSettings.
    rewrite Hroom, Hadmin, String.eqb_refl, Hlobby. simpl.
    eexists. split; [apply lookup_insert_eq|]. split; reflexivity. }
  split; apply H.
Qed.

Lemma C3_updateSettings_clears_questions_witness :
  exists room',
    rooms (post (updateSettings "s1"
                   (SettingsData.mk (JStr "Space") (JStr "easy") (JNum 2) (JNum 30))
                   Sample.inLobbyReady)) !! "ABC123" = Some room' /\
    Room.questionsReady room' = false /\ Room.questions room' = [].
Proof.
  exact (proj1 (C3_updateSettings_clears_questions Sample.inLobbyReady "s1"
                  (SettingsData.mk (JStr "Space") (JStr "easy") (JNum 2) (JNum 30))
                  Sample.readyRoom eq_refl eq_refl eq_refl)).
Defined.

(** ** Leaving and disconnecting *)

Lemma truthy_Some (rc : string) : rc <> "" -> JsStr.truthy (Some rc) = Some rc.
Proof. destruct rc; [congruence | reflexivity]. Qed.

Lemma rooms_socket_leave sid rc s : rooms (socket_leave sid rc s) = rooms s.
Proof. unfold socket_leave. now destruct (socketRooms s !! sid). Qed.

Lemma timers_socket_leave sid rc s :
  questionTimers (socket_leave sid rc s) = questionTimers s.
Proof. unfold socket_leave. now destruct (socketRooms s !! sid). Qed.

(** Both handlers reach [removePlayer] when the socket is mapped to a room
    that holds a player bound to it; [leavingWasAdmin] of [leaveRoom] is
    then the same test as [room.adminId === socket.id] of [disconnect]. *)
Lemma leaveRoom_found s sid roomCode room idx :
  socketRoomMap s !! sid = Some roomCode -> roomCode <> "" ->
  rooms s !! roomCode = Some room ->
  findIndex (Player.has_id sid) (Room.players room) = Some idx ->
  exists s',
    rooms s' = rooms s /\ questionTimers s' = questionTimers s /\
    leaveRoom sid s =
      removePlayer roomCode room idx (String.eqb (Room.adminId room) sid) s'.
Proof.
  intros Hmap Hne Hroom Hidx. unfold leaveRoom.
  rewrite Hmap, (truthy_Some _ Hne), Hroom, Hidx.
  destruct (findIndex_lookup _ _ _ Hidx) as (p & Hp & Hid).
  rewrite Hp. apply String.eqb_eq in Hid. rewrite Hid, String.eqb_sym.
  eexists. split; [|split; [|reflexivity]]; simpl.
  - apply rooms_socket_leave.
  - apply timers_socket_leave.
Qed.

Lemma disconnect_found s sid roomCode room idx :
  socketRoomMap s !! sid = Some roomCode -> roomCode <> "" ->
  rooms s !! roomCode = Some room ->
  findIndex (Player.has_id sid) (Room.players room) = Some idx ->
  exists s',
    rooms s' = rooms s /\ questionTimers s' = questionTimers s /\
    disconnect sid s =
      removePlayer roomCode room idx (String.eqb (Room.adminId room) sid) s'.
Proof.
  intros Hmap Hne Hroom Hidx. unfold disconnect. simpl.
  rewrite Hmap, (truthy_Some _ Hne), Hroom, Hidx.
  eexists. split; [|split; [|reflexivity]]; reflexivity.
Qed.

Lemma removePlayer_last roomCode room idx wasAdmin s :
  delete idx (Room.players room) = [] ->
  rooms (post (removePlayer roomCode room idx wasAdmin s)) !! roomCode = None /\
  questionTimers (post (removePlayer roomCode room idx wasAdmin s)) !! roomCode = None /\
  sent (removePlayer roomCode room idx wasAdmin s) = [].
Proof.
  intros Hempty. unfold removePlayer. rewrite Hempty.
  unfold silent, ret; cbn [post sent].
  rewrite rooms_clearQuestionTimer, timers_clearQuestionTimer. simpl.
  now rewrite lookup_delete_eq.
Qed.

Lemma removePlayer_others roomCode room idx (wasAdmin : bool) s
    (first : Player.t) (rest : list Player.t) :
  delete idx (Room.players room) = first :: rest ->
  let room1 := Room.set_players (first :: rest) room in
  let room' := if wasAdmin then Room.set_adminId (Player.id first) room1 else room1 in
  rooms (post (removePlayer roomCode room idx wasAdmin s)) !! roomCode = Some room' /\
  sent (removePlayer roomCode room idx wasAdmin s) =
    [ToRoom roomCode "roomUpdated" (ERoom room')].
Proof.
  intros Hrest room1 room'. unfold removePlayer. rewrite Hrest.
  unfold ret; cbn [post sent]. now rewrite rooms_put.
Qed.

(** C4. When the socket of the room's admin leaves or disconnects and
    other players remain, the room's [adminId] becomes the [id] of the
    first player left in the list ([players[0]], the earliest joiner
    still present); the player removed is the first one bound to the
    socket. *)
Theorem C4_admin_succession :
  forall (s : Server) (sid roomCode : string) (room : Room.t) (idx : nat),
    socketRoomMap s !! sid = Some roomCode ->
    roomCode <> "" ->
    rooms s !! roomCode = Some room ->
    Room.adminId room = sid ->
    findIndex (Player.has_id sid) (Room.players room) = Some idx ->
    (2 <= length (Room.players room))%nat ->
    forall r, r = leaveRoom sid s \/ r = disconnect sid s ->
      exists room' first,
        rooms (post r) !! roomCode = Some room' /\
        Room.players room' = delete idx (Room.players room) /\
        Room.players room' !! 0%nat = Some first /\
        Room.adminId room' = Player.id first.
Proof.
  intros s sid roomCode room idx Hmap Hne Hroom Hadmin Hidx Hlen r Hr.
  assert (Hrm : exists s', r = removePlayer roomCode room idx true s').
  { assert (Heq : String.eqb (Room.adminId room) sid = true)
      by (rewrite Hadmin; apply String.eqb_refl).
    destruct Hr as [-> | ->].
    - destruct (leaveRoom_found s sid roomCode room idx Hmap Hne Hroom Hidx)
        as (s' & _ & _ & ->). rewrite Heq. eauto.
    - destruct (disconnect_found s sid roomCode room idx Hmap Hne Hroom Hidx)
        as (s' & _ & _ & ->). rewrite Heq. eauto. }
  destruct Hrm as (s' & ->).
  destruct (delete idx (Room.players room)) as [|first rest] eqn:Hdel.
  - apply (f_equal length) in Hdel. rewrite length_delete in Hdel; simpl in Hdel.
    + lia.
    + destruct (findIndex_lookup _ _ _ Hidx) as (p & Hp & _). eauto.
  - destruct (removePlayer_others roomCode room idx true s' first rest Hdel) as [H _].
    eexists _, first. split; [exact H|]. now repeat split.
Qed.

Lemma C4_admin_succession_witness :
  exists room',
    rooms (post (disconnect "s1" Sample.inQuiz)) !! "ABC123" = Some room' /\
    Room.adminId room' = "s2".
Proof.
  destruct (C4_admin_succession Sample.inQuiz "s1" "ABC123" Sample.quizRoom 0
              eq_refl ltac:(discriminate) eq_refl eq_refl eq_refl ltac:(simpl; lia)
              (disconnect "s1" Sample.inQuiz) (or_intror eq_refl))
    as (room' & first & Hroom & Hps & Hfirst & Hadmin).
  exists room'. split; [exact Hroom|].
  rewrite Hadmin. rewrite Hps in Hfirst. simpl in Hfirst.
  injection Hfirst as <-. reflexivity.
Defined.

(** ** Joining and rejoining *)

Lemma rooms_enter sid rc room s :
  rooms (post (enter sid rc room s)) = <[rc := room]> (rooms s).
Proof. reflexivity. Qed.

Lemma falsy_false (rc : string) : rc <> "" -> JsStr.falsy rc = false.
Proof. destruct rc; [congruence | reflexivity]. Qed.

(** [rejoinRoom] on a well-formed payload for an existing room: rebind the
    player that carries the client id if there is one, else append in a
    lobby-like room, else refuse. *)
Lemma rejoinRoom_found s sid data rc clientId room :
  JsStr.toUpperCase (JsStr.or_else (JoinRoomData.roomCode data) "") = rc ->
  rc <> "" ->
  JoinRoomData.clientId data = Some clientId -> clientId <> "" ->
  rooms s !! rc = Some room ->
  rejoinRoom sid data s =
    match find (Player.has_clientId clientId) (Room.players room) with
    | Some _ =>
        enter sid rc
          (Room.set_players
             (update_first (Player.has_clientId clientId) (Player.set_id sid)
                (Room.players room)) room) s
    | None =>
        if Room.lobbyLike room then
          enter sid rc
            (Room.set_players
               (Room.players room ++
                [Player.fresh sid clientId
                   (JsStr.or_else (JoinRoomData.playerName data) "Player")])%list room) s
        else reject sid "Game already in progress" s
    end.
Proof.
  intros Hrc Hne Hcid Hcne Hroom. unfold rejoinRoom.
  rewrite Hrc, (falsy_false _ Hne), Hcid, (truthy_Some _ Hcne), Hroom.
  destruct (find _ _); [reflexivity|].
  now destruct (Room.lobbyLike room).
Qed.

(** [joinRoom] in a lobby-like room never looks at the client ids of the
    players already there: below ten players it appends. *)
Lemma joinRoom_lobby s sid now data rc room :
  JsStr.toUpperCase (JsStr.or_else (JoinRoomData.roomCode data) "") = rc ->
  rooms s !! rc = Some room ->
  Room.lobbyLike room = true ->
  joinRoom sid now data s =
    if (10 <=? length (Room.players room))%nat then reject sid "Room is full" s
    else
      enter sid rc
        (Room.set_players
           (Room.players room ++
            [Player.fresh sid
               (JsStr.or_else (JoinRoomData.clientId data) (sid ++ "-" ++ now))
               (JsStr.or_else (JoinRoomData.playerName data) "Player")])%list room) s.
Proof.
  intros Hrc Hroom Hlobby. unfold joinRoom. now rewrite Hrc, Hroom, Hlobby.
Qed.

(** C6. [joinRoom] with a client id that a player of a waiting room already
    carries: the room ends up with two players carrying that client id
    (the invariant "at most one Player per clientId" is broken), where
    [rejoinRoom] on the same payload rebinds the existing player. *)
Theorem C6_joinRoom_duplicates_clientId :
  let data := JoinRoomData.mk (Some "abc123") (Some "Ann") (Some "cA") in
  (exists room',
     rooms (post (joinRoom "s3" "1700000000000" data Sample.inLobby)) !! "ABC123"
       = Some room' /\
     map Player.clientId (Room.players room') = ["cA"; "cB"; "cA"] /\
     map Player.id (Room.players room') = ["s1"; "s2"; "s3"]) /\
  (exists room',
     rooms (post (rejoinRoom "s3" data Sample.inLobby)) !! "ABC123" = Some room' /\
     map Player.clientId (Room.players room') = ["cA"; "cB"] /\
     map Player.id (Room.players room') = ["s3"; "s2"]).
Proof.
  split; eexists; (split; [reflexivity|]); split; reflexivity.
Qed.

(** C10. In a lobby-like room that already has ten players, [rejoinRoom]
    with a client id that no player carries appends an eleventh player,
    while [joinRoom] with the same payload answers "Room is full" and
    changes nothing: only [joinRoom] checks the player count. *)
Theorem C10_rejoin_bypasses_player_cap :
  forall (s : Server) (sid : string) (data : JoinRoomData.t)
         (rc clientId : string) (room : Room.t),
    JsStr.toUpperCase (JsStr.or_else (JoinRoomData.roomCode data) "") = rc ->
    rc <> "" ->
    JoinRoomData.clientId data = Some clientId ->
    clientId <> "" ->
    rooms s !! rc = Some room ->
    Room.lobbyLike room = true ->
    length (Room.players room) = 10%nat ->
    find (Player.has_clientId clientId) (Room.players room) = None ->
    (exists room',
       rooms (post (rejoinRoom sid data s)) !! rc = Some room' /\
       Room.players room' =
         (Room.players room ++
          [Player.fresh sid clientId
             (JsStr.or_else (JoinRoomData.playerName data) "Player")])%list /\
       length (Room.players room') = 11%nat) /\
    (forall now, joinRoom sid now data s = reject sid "Room is full" s).
Proof.
  intros s sid data rc clientId room Hrc Hne Hcid Hcne Hroom Hlobby Hlen Hnone.
  split.
  - rewrite (rejoinRoom_found s sid data rc clientId room Hrc Hne Hcid Hcne Hroom).
    rewrite Hnone, Hlobby, rooms_enter, lookup_insert_eq.
    eexists. split; [reflexivity|]. split; [reflexivity|].
    simpl. rewrite length_app, Hlen. reflexivity.
  - intros now. rewrite (joinRoom_lobby s sid now data rc room Hrc Hroom Hlobby).
    now rewrite Hlen.
Qed.

Lemma C10_rejoin_bypasses_player_cap_witness :
  exists room',
    rooms (post (rejoinRoom "s11"
                   (JoinRoomData.mk (Some "abc123") (Some "Late") (Some "c11"))
                   Sample.full)) !! "ABC123" = Some room' /\
    length (Room.players room') = 11%nat.
Proof.
  destruct (C10_rejoin_bypasses_player_cap Sample.full "s11"
              (JoinRoomData.mk (Some "abc123") (Some "Late") (Some "c11"))
              "ABC123" "c11" Sample.fullRoom
              eq_refl ltac:(discriminate) eq_refl ltac:(discriminate)
              eq_refl eq_refl eq_refl eq_refl)
    as [(room' & Hroom & _ & Hlen) _].
  exists room'. split; [exact Hroom | exact Hlen].
Defined.

(** ** Reconnecting *)

(** What [disconnect] leaves of a room in which other players remain. *)
Lemma disconnect_survivors s sid roomCode room idx :
  socketRoomMap s !! sid = Some roomCode -> roomCode <> "" ->
  rooms s !! roomCode = Some room ->
  findIndex (Player.has_id sid) (Room.players room) = Some idx ->
  delete idx (Room.players room) <> [] ->
  exists room1,
    rooms (post (disconnect sid s)) !! roomCode = Some room1 /\
    Room.players room1 = delete idx (Room.players room) /\
    Room.status room1 = Room.status room /\
    Room.rematch room1 = Room.rematch room.
Proof.
  intros Hmap Hne Hroom Hidx Hrest.
  destruct (disconnect_found s sid roomCode room idx Hmap Hne Hroom Hidx)
    as (s' & _ & _ & ->).
  destruct (delete idx (Room.players room)) as [|first rest] eqn:Hdel; [congruence|].
  destruct (removePlayer_others roomCode room idx
              (String.eqb (Room.adminId room) sid) s' first rest Hdel) as [H _].
  eexists. split; [exact H|].
  now destruct (String.eqb (Room.adminId room) sid).
Qed.

(** C8 (as the code has it). [rejoinRoom] rebinds the player that carries the
    client id, in every room status, as long as that player is still in
    the room's list.  The [disconnect] of a player's socket removes the
    player from the list; a [rejoinRoom] with that player's client id that
    comes after it (no remaining player carrying the id) appends a fresh
    player when the room is lobby-like and is refused with "Game already
    in progress" otherwise. *)
Theorem C8_rejoin_rebinds_players_still_listed :
  forall (s : Server) (sid roomCode : string) (room : Room.t) (idx : nat)
         (newSid : string) (data : JoinRoomData.t) (clientId : string),
    socketRoomMap s !! sid = Some roomCode ->
    roomCode <> "" ->
    rooms s !! roomCode = Some room ->
    findIndex (Player.has_id sid) (Room.players room) = Some idx ->
    delete idx (Room.players room) <> [] ->
    JsStr.toUpperCase (JsStr.or_else (JoinRoomData.roomCode data) "") = roomCode ->
    JoinRoomData.clientId data = Some clientId ->
    clientId <> "" ->
    let s1 := post (disconnect sid s) in
    (forall p,
       find (Player.has_clientId clientId) (Room.players room) = Some p ->
       exists room',
         rooms (post (rejoinRoom newSid data s)) !! roomCode = Some room' /\
         Room.players room' =
           update_first (Player.has_clientId clientId) (Player.set_id newSid)
             (Room.players room) /\
         find (Player.has_clientId clientId) (Room.players room')
           = Some (Player.set_id newSid p) /\
         length (Room.players room') = length (Room.players room) /\
         Room.status room' = Room.status room) /\
    (exists room1,
       rooms s1 !! roomCode = Some room1 /\
       Room.players room1 = delete idx (Room.players room)) /\
    (find (Player.has_clientId clientId) (delete idx (Room.players room)) = None ->
     if Room.lobbyLike room then
       exists room',
         rooms (post (rejoinRoom newSid data s1)) !! roomCode = Some room' /\
         Room.players room' =
           (delete idx (Room.players room) ++
            [Player.fresh newSid clientId
               (JsStr.or_else (JoinRoomData.playerName data) "Player")])%list
     else
       rejoinRoom newSid data s1 = reject newSid "Game already in progress" s1).
Proof.
  intros s sid roomCode room idx newSid data clientId
         Hmap Hne Hroom Hidx Hrest Hrc Hcid Hcne s1.
  destruct (disconnect_survivors s sid roomCode room idx Hmap Hne Hroom Hidx Hrest)
    as (room1 & Hroom1 & Hps1 & Hst1 & Hre1).
  split; [|split].
  - intros p Hp.
    rewrite (rejoinRoom_found s newSid data roomCode clientId room Hrc Hne Hcid Hcne Hroom).
    rewrite Hp, rooms_enter, lookup_insert_eq.
    eexists. split; [reflexivity|]. cbn [Room.players Room.set_players].
    split; [reflexivity|]. split; [|split].
    + apply find_update_first; [exact Hp|]. apply (find_some _ _ Hp).
    + apply length_update_first.
    + reflexivity.
  - exists room1. split; [exact Hroom1 | exact Hps1].
  - intros Hnone.
    rewrite (rejoinRoom_found s1 newSid data roomCode clientId room1
               Hrc Hne Hcid Hcne Hroom1).
    rewrite Hps1, Hnone.
    assert (Hlobby : Room.lobbyLike room1 = Room.lobbyLike room)
      by (unfold Room.lobbyLike; now rewrite Hst1, Hre1).
    rewrite Hlobby. destruct (Room.lobbyLike room); [|reflexivity].
    rewrite rooms_enter, lookup_insert_eq. eexists. split; reflexivity.
Qed.

Lemma C8_rejoin_rebinds_players_still_listed_witness :
  rejoinRoom "s9" (JoinRoomData.mk (Some "abc123") (Some "Bob") (Some "cB"))
    (post (disconnect "s2" Sample.inQuiz))
  = reject "s9" "Game already in progress" (post (disconnect "s2" Sample.inQuiz)).
Proof.
  destruct (C8_rejoin_rebinds_players_still_listed Sample.inQuiz "s2" "ABC123"
              Sample.quizRoom 1 "s9"
              (JoinRoomData.mk (Some "abc123") (Some "Bob") (Some "cB")) "cB"
              eq_refl ltac:(discriminate) eq_refl eq_refl ltac:(discriminate)
              eq_refl eq_refl ltac:(discriminate)) as (_ & _ & H).
  exact (H eq_refl).
Defined.

(** C8, as the claim states it, fails: Bob's socket disconnects from a
    running quiz in which Ann remains, and a [rejoinRoom] with Bob's client
    id from a new socket leaves no player bound to the new socket; the
    caller is told "Game already in progress". *)
Lemma C8_counterexample :
  let data := JoinRoomData.mk (Some "abc123") (Some "Bob") (Some "cB") in
  let s1 := post (disconnect "s2" Sample.inQuiz) in
  (exists room1, rooms s1 !! "ABC123" = Some room1 /\
                 map Player.clientId (Room.players room1) = ["cA"]) /\
  sent (rejoinRoom "s9" data s1)
    = [ToSocket "s9" "error" (EMessage "Game already in progress")] /\
  ~ (exists room' p,
       rooms (post (rejoinRoom "s9" data s1)) !! "ABC123" = Some room' /\
       find (Player.has_clientId "cB") (Room.players room') = Some p /\
       Player.id p = "s9").
Proof.
  split; [eexists; split; reflexivity|]. split; [reflexivity|].
  intros (room' & p & Hroom & Hp & _).
  vm_compute in Hroom. injection Hroom as <-. discriminate Hp.
Qed.

(** ** Refused actions *)

Lemma eqb_neq_false (a b : string) : a <> b -> String.eqb a b = false.
Proof. intros H. now apply String.eqb_neq. Qed.



(** A ['generateQuestions'] event that violates its precondition ends
    before the [await]: no call is left suspended, and the first half is
    the whole handler. *)
Lemma violating_generateQuestions_is_not_suspended sid outcome s :
  violates sid (GenerateQuestions outcome) s ->
  generateQuestionsBegin sid s = (silent s, None) /\
  generateQuestions sid outcome s = silent s.
Proof.
  cbn [violates]. unfold generateQuestionsBegin, generateQuestions.
  destruct (rooms s !! roomKey sid s) as [room|]; [|now split].
  intros [Hadmin | Hlobby].
  - rewrite (eqb_neq_false _ _ Hadmin). now split.
  - rewrite Hlobby. destruct (negb (String.eqb _ _)); now split.
Qed.



(** ** Invariants of the reachable states *)

Section AllRooms.
Variable P : Room.t -> Prop.

Lemma allRooms_same s s' : rooms s' = rooms s -> allRooms P s -> allRooms P s'.
Proof. intros Heq H rc room. rewrite Heq. apply H. Qed.

Lemma allRooms_insert s s' key room :
  rooms s' = <[key := room]> (rooms s) -> P room -> allRooms P s -> allRooms P s'.
Proof.
  intros Heq Hroom H rc room'. rewrite Heq.
  destruct (decide (key = rc)) as [->|Hne].
  - rewrite lookup_insert_eq. now intros [= <-].
  - rewrite lookup_insert_ne by exact Hne. apply H.
Qed.

Lemma allRooms_delete s s' key :
  rooms s' = delete key (rooms s) -> allRooms P s -> allRooms P s'.
Proof.
  intros Heq H rc room'. rewrite Heq.
  destruct (decide (key = rc)) as [->|Hne].
  - now rewrite lookup_delete_eq.
  - rewrite lookup_delete_ne by exact Hne. apply H.
Qed.

Lemma allRooms_put key room s : P room -> allRooms P s -> allRooms P (put key room s).
Proof. apply (allRooms_insert s _ key room). reflexivity. Qed.

Lemma allRooms_enter sid rc room s :
  P room -> allRooms P s -> allRooms P (post (enter sid rc room s)).
Proof. apply (allRooms_insert s _ rc room). reflexivity. Qed.

Lemma allRooms_clearQuestionTimer rc s :
  allRooms P s -> allRooms P (clearQuestionTimer rc s).
Proof. apply allRooms_same, rooms_clearQuestionTimer. Qed.

Lemma allRooms_startQuestionTimer rc room s :
  allRooms P s -> allRooms P (startQuestionTimer rc room s).
Proof. apply allRooms_same, rooms_startQuestionTimer. Qed.
End AllRooms.

Ltac branches :=
  repeat match goal with
         | |- context [match ?x with _ => _ end] => destruct x eqn:?
         end.

Lemma negb_false (b : bool) : negb b = false -> b = true.
Proof. now destruct b. Qed.

(** *** Invariants that look at the question fields of a room

    [G qs r] is the condition under which storing the questions [qs] in
    the room [r] keeps [P]. *)
Section QuestionFields.
Variable P : Room.t -> Prop.
Variable G : list Question.t -> Room.t -> Prop.
Hypothesis P_ext :
  forall r r',
    Room.status r' = Room.status r ->
    Room.currentQuestion r' = Room.currentQuestion r ->
    Room.questions r' = Room.questions r ->
    Room.questionCount r' = Room.questionCount r ->
    Room.questionsReady r' = Room.questionsReady r ->
    Room.rematch r' = Room.rematch r ->
    P r -> P r'.
Hypothesis P_fresh :
  forall r,
    Room.status r = waiting -> Room.currentQuestion r = 0%Z ->
    Room.questionsReady r = false -> P r.
Hypothesis P_cleared :
  forall data r,
    Room.lobbyLike r = true -> P r ->
    P (Room.set_questionsReady false (Room.set_questions [] (applySettings data r))).
Hypothesis P_generated :
  forall qs r, G qs r -> P r -> P (withQuestions qs r).
Hypothesis P_started :
  forall ps r,
    (length (Room.questions r) =? 0)%nat = false -> P r ->
    P (Room.set_currentQuestion 0
         (Room.set_status quiz (Room.set_rematch false (Room.set_players ps r)))).
Hypothesis P_advanced :
  forall ps r,
    Room.status r = quiz -> P r ->
    let r1 := Room.set_currentQuestion (Room.currentQuestion r + 1) (Room.set_players ps r) in
    P (if (Room.currentQuestion r1 >=? Z.of_nat (length (Room.questions r1)))%Z
       then Room.set_status finished r1 else r1).
Hypothesis P_rematch :
  forall ps r,
    P r -> P (Room.set_questionsReady false (Room.set_players ps (Room.set_rematch true r))).

Lemma P_set_players ps r : P r -> P (Room.set_players ps r).
Proof. now apply P_ext. Qed.

Lemma P_set_adminId a r : P r -> P (Room.set_adminId a r).
Proof. now apply P_ext. Qed.

Lemma createRoom_inv sid draws now data s r :
  createRoom sid draws now data s = Some r ->
  allRooms P s -> allRooms P (post r).
Proof.
  unfold createRoom. destruct (pickCode draws (rooms s)) as [roomCode|]; [|discriminate].
  intros [= <-] H. cbn [post ret].
  eapply allRooms_insert; [reflexivity| |exact H].
  now apply P_fresh.
Qed.

Lemma joinRoom_inv sid now data s :
  allRooms P s -> allRooms P (post (joinRoom sid now data s)).
Proof.
  intros H. unfold joinRoom. branches; try exact H;
    apply allRooms_enter; try exact H; apply P_set_players; eauto.
Qed.

Lemma rejoinRoom_inv sid data s :
  allRooms P s -> allRooms P (post (rejoinRoom sid data s)).
Proof.
  intros H. unfold rejoinRoom. branches; try exact H;
    apply allRooms_enter; try exact H; apply P_set_players; eauto.
Qed.

Lemma updateSettings_inv sid data s :
  allRooms P s -> allRooms P (post (updateSettings sid data s)).
Proof.
  intros H. unfold updateSettings.
  destruct (rooms s !! roomKey sid s) as [room|] eqn:Hroom; [|exact H].
  destruct (negb (String.eqb _ _)); [exact H|].
  destruct (negb (Room.lobbyLike room)) eqn:Hlobby; [exact H|].
  apply allRooms_put; [|exact H].
  apply P_cleared; [now apply negb_false | eauto].
Qed.

Lemma generateQuestions_inv sid outcome s :
  (forall qs room,
     outcome = Some qs -> rooms s !! roomKey sid s = Some room ->
     Room.lobbyLike room = true -> G qs room) ->
  allRooms P s -> allRooms P (post (generateQuestions sid outcome s)).
Proof.
  intros Hg H. unfold generateQuestions.
  destruct (rooms s !! roomKey sid s) as [room|] eqn:Hroom; [|exact H].
  destruct (negb (String.eqb _ _)); [exact H|].
  destruct (negb (Room.lobbyLike room)) eqn:Hlobby; [exact H|].
  destruct outcome as [qs|]; [|exact H].
  apply allRooms_put; [|exact H].
  apply (P_generated qs room); [|eauto].
  apply Hg; [reflexivity | reflexivity | now apply negb_false].
Qed.

Lemma generateQuestionsEnd_inv c outcome s r :
  (forall qs key room,
     outcome = Some qs -> held c = Stored key -> rooms s !! key = Some room ->
     G qs room) ->
  generateQuestionsEnd c outcome s = Some r ->
  allRooms P s -> allRooms P (post r).
Proof.
  intros Hg Hr H. unfold generateQuestionsEnd in Hr.
  destruct outcome as [qs|]; [|injection Hr as <-; exact H].
  destruct (held c) as [key|room] eqn:Hheld; [|injection Hr as <-; exact H].
  destruct (rooms s !! key) as [room|] eqn:Hroom; [|discriminate].
  injection Hr as <-. apply allRooms_put; [|exact H].
  apply P_generated; [now apply (Hg qs key) | eauto].
Qed.

Lemma startQuiz_inv sid s :
  allRooms P s -> allRooms P (post (startQuiz sid s)).
Proof.
  intros H. unfold startQuiz.
  destruct (rooms s !! roomKey sid s) as [room|] eqn:Hroom; [|exact H].
  destruct (negb (String.eqb _ _)); [exact H|].
  destruct (_ || _) eqn:Hq; [exact H|].
  destruct (_ && _); [exact H|].
  apply orb_false_iff in Hq. destruct Hq as [Hlen _].
  apply allRooms_startQuestionTimer, allRooms_put; [|exact H].
  apply P_started; eauto.
Qed.

Lemma selectAnswer_inv sid data s :
  allRooms P s -> allRooms P (post (selectAnswer sid data s)).
Proof.
  intros H. unfold selectAnswer.
  destruct (rooms s !! roomKey sid s) as [room|] eqn:Hroom; [|exact H].
  assert (Hr : P room) by eauto.
  branches; try exact H; cbn [post ret];
    try apply allRooms_clearQuestionTimer;
    (apply allRooms_put; [now apply P_set_players | exact H]).
Qed.

Lemma nextQuestion_inv sid s :
  allRooms P s -> allRooms P (post (nextQuestion sid s)).
Proof.
  intros H. unfold nextQuestion.
  destruct (rooms s !! roomKey sid s) as [room|] eqn:Hroom; [|exact H].
  assert (Hr : P room) by eauto.
  destruct (negb (String.eqb _ _)); [exact H|].
  destruct (Room.status room) eqn:Hst; try exact H.
  pose proof (P_advanced (map Player.reset_round (Room.players room)) room Hst Hr)
    as Hadv. cbv zeta in Hadv.
  destruct (_ >=? _)%Z; cbn [post ret];
    [|apply allRooms_startQuestionTimer]; (apply allRooms_put; [exact Hadv | exact H]).
Qed.

Lemma playAgain_inv sid s :
  allRooms P s -> allRooms P (post (playAgain sid s)).
Proof.
  intros H. unfold playAgain.
  destruct (rooms s !! roomKey sid s) as [room|] eqn:Hroom; [|exact H].
  destruct (find _ _); [|exact H].
  apply allRooms_put; [|exact H]. apply P_rematch. eauto.
Qed.

Lemma removePlayer_inv roomCode room idx wasAdmin s :
  P room -> allRooms P s ->
  allRooms P (post (removePlayer roomCode room idx wasAdmin s)).
Proof.
  intros Hr H. unfold removePlayer.
  destruct (delete idx (Room.players room)) as [|first rest]; cbn [post ret silent].
  - apply allRooms_clearQuestionTimer.
    eapply allRooms_delete; [reflexivity | exact H].
  - apply allRooms_put; [|exact H].
    destruct wasAdmin; [apply P_set_adminId|]; now apply P_set_players.
Qed.

Lemma leaveRoom_inv sid s :
  allRooms P s -> allRooms P (post (leaveRoom sid s)).
Proof.
  intros H. unfold leaveRoom.
  destruct (JsStr.truthy _) as [roomCode|]; [|exact H].
  assert (H2 : allRooms P
                 (set_socketRoomMap
                    (delete sid (socketRoomMap (socket_leave sid roomCode s)))
                    (socket_leave sid roomCode s)))
    by (eapply allRooms_same; [|exact H]; apply rooms_socket_leave).
  destruct (rooms s !! roomCode) as [room|] eqn:Hroom; [|exact H2].
  destruct (findIndex _ _); [|exact H2].
  apply removePlayer_inv; eauto.
Qed.

Lemma disconnect_inv sid s :
  allRooms P s -> allRooms P (post (disconnect sid s)).
Proof.
  intros H. unfold disconnect.
  destruct (JsStr.truthy _) as [roomCode|]; [|exact H].
  cbn [rooms set_socketRooms].
  destruct (rooms s !! roomCode) as [room|] eqn:Hroom; [|exact H].
  destruct (findIndex _ _); [|exact H].
  apply removePlayer_inv; eauto.
Qed.

Lemma onTimeout_inv roomCode s :
  allRooms P s -> allRooms P (post (onTimeout roomCode s)).
Proof.
  intros H. unfold onTimeout.
  destruct (questionTimers s !! roomCode) as [timer|]; [|exact H].
  destruct (pending timer); [|exact H].
  destruct (rooms s !! roomCode) as [room|] eqn:Hroom; [|exact H].
  apply allRooms_put; [|exact H]. apply P_set_players. eauto.
Qed.

Lemma step_inv st w w' out :
  storesOnly G st w ->
  step st w = Some (w', out) ->
  allRooms P (server w) -> allRooms P (server w').
Proof.
  intros Hg Hstep H. destruct st as [e|sid|i outcome]; cbn [step] in Hstep.
  - destruct (dispatch e (server w)) as [r|] eqn:Hr; [|discriminate].
    injection Hstep as <- _. cbn [server].
    destruct e as [sid a|roomCode]; cbn [dispatch] in Hr.
    + destruct a; cbn [handle] in Hr; try (injection Hr as <-).
      * exact (createRoom_inv sid draws now data (server w) r Hr H).
      * now apply joinRoom_inv.
      * now apply rejoinRoom_inv.
      * now apply updateSettings_inv.
      * apply generateQuestions_inv; [|exact H].
        intros qs room -> Hroom Hlobby. now apply (Hg room).
      * now apply startQuiz_inv.
      * now apply selectAnswer_inv.
      * now apply nextQuestion_inv.
      * now apply playAgain_inv.
      * now apply leaveRoom_inv.
      * now apply disconnect_inv.
      * exact H.
      * exact H.
    + injection Hr as <-. now apply onTimeout_inv.
  - unfold generateQuestionsBegin in Hstep.
    destruct (rooms (server w) !! roomKey sid (server w)) as [room|];
      [destruct (negb (String.eqb _ _)); [|destruct (negb (Room.lobbyLike room))]|];
      injection Hstep as <- _; exact H.
  - destruct (awaiting w !! i) as [c|] eqn:Hc; [|discriminate].
    destruct (generateQuestionsEnd c outcome (server w)) as [r|] eqn:Hr; [|discriminate].
    injection Hstep as <- _. cbn [server].
    apply (generateQuestionsEnd_inv c outcome (server w) r); [|exact Hr|exact H].
    intros qs key room -> Hheld Hroom. cbn [storesOnly] in Hg. apply Hg.
    unfold resumesOn. now rewrite Hc, Hheld.
Qed.

Lemma reachableBy_inv ok :
  (forall st w, ok st w = true -> storesOnly G st w) ->
  forall w, reachableBy ok w -> allRooms P (server w).
Proof.
  intros Hok w Hreach. induction Hreach as [|w st w' out _ IH Hst Hstep].
  - intros rc room. cbn. now rewrite lookup_empty.
  - exact (step_inv st w w' out (Hok st w Hst) Hstep IH).
Qed.

End QuestionFields.

(** *** Reaching a state *)

Lemma reachableBy_any ok w : reachableBy ok w -> reachableBy anyStep w.
Proof.
  induction 1 as [|w st w' out _ IH _ Hstep]; [apply reach_start|].
  exact (reach_next anyStep w st w' out IH eq_refl Hstep).
Qed.

Lemma reachableBy_and ok1 ok2 w :
  reachableBy (fun st w => ok1 st w && ok2 st w) w ->
  reachableBy ok1 w /\ reachableBy ok2 w.
Proof.
  induction 1 as [|w st w' out _ [IH1 IH2] Hok Hstep];
    [split; apply reach_start|].
  apply andb_true_iff in Hok. destruct Hok as [H1 H2].
  split; [exact (reach_next ok1 w st w' out IH1 H1 Hstep) |
          exact (reach_next ok2 w st w' out IH2 H2 Hstep)].
Qed.

Lemma play_reachableBy ok sts w w' :
  reachableBy ok w -> play ok sts w = Some w' -> reachableBy ok w'.
Proof.
  revert w. induction sts as [|st sts IH]; intros w Hw; cbn [play].
  - now intros [= <-].
  - destruct (ok st w) eqn:Hok; [|discriminate].
    destruct (step st w) as [[w1 out]|] eqn:Hstep; [|discriminate].
    apply IH. exact (reach_next ok w st w1 out Hw Hok Hstep).
Qed.

Lemma reachable_initial : reachable initial.
Proof. exists []. apply reach_start. Qed.

Lemma reachable_handle s e r : reachable s -> dispatch e s = Some r -> reachable (post r).
Proof.
  intros [calls Hs] Hr. eexists.
  apply (reach_next anyStep (mkWorld s calls) (Handle e) _ (sent r) Hs eq_refl).
  cbn [step server]. now rewrite Hr.
Qed.

Lemma run_reachable es s s' : reachable s -> run es s = Some s' -> reachable s'.
Proof.
  revert s. induction es as [|e es IH]; intros s Hs; cbn [run].
  - now intros [= <-].
  - destruct (dispatch e s) as [r|] eqn:Hr; [|discriminate].
    apply IH. exact (reachable_handle s e r Hs Hr).
Qed.

Lemma afterMatch_reachable : reachable Sample.afterMatch.
Proof.
  apply (run_reachable Sample.fullMatch initial); [apply reachable_initial|].
  vm_compute. reflexivity.
Qed.

Lemma afterSettings_reachable : reachable Sample.afterSettings.
Proof.
  apply (run_reachable Sample.rematchThenSettings initial); [apply reachable_initial|].
  vm_compute. reflexivity.
Qed.

(** *** The three invariants *)

Lemma indexStarts_reachable w : reachableBy anyStep w -> allRooms indexStarts (server w).
Proof.
  apply (reachableBy_inv indexStarts (fun _ _ => True)).
  - unfold indexStarts. intros r r' -> -> _ _ _ _. exact (fun H => H).
  - unfold indexStarts. intros r _ -> _. split; [lia | reflexivity].
  - unfold indexStarts. intros data r _ [H0 Hw].
    destruct (applySettings_keeps data r) as (Hst & _ & Hcq & _).
    cbn. rewrite Hst, Hcq. now split.
  - unfold indexStarts. intros qs r _ H. exact H.
  - unfold indexStarts. intros ps r _ _. cbn. split; [lia | discriminate].
  - unfold indexStarts. intros ps r Hst [H0 _]. cbn.
    destruct (_ >=? _)%Z; cbn; (split; [lia|]); [discriminate | now rewrite Hst].
  - unfold indexStarts. intros ps r H. exact H.
  - intros st w0 _. destruct st as [[sid [| | | |[qs|]| | | | | | | | ]|rc]|sid|i [qs|]];
      cbn; auto.
Qed.

Lemma indexInv_reachable w : reachableBy timely w -> allRooms indexInv (server w).
Proof.
  apply (reachableBy_inv indexInv (fun _ r => Room.lobbyLike r = true)).
  - unfold indexInv. intros r r' -> -> -> _ _ ->. exact (fun H => H).
  - unfold indexInv. intros r -> -> _. reflexivity.
  - unfold indexInv, Room.lobbyLike. intros data r Hlobby Hidx.
    destruct (applySettings_keeps data r) as (Hst & Hre & Hcq & _).
    cbn. rewrite Hst, Hre, Hcq.
    destruct (Room.status r); try discriminate.
    + exact Hidx.
    + split; [apply Hidx|]. rewrite Hlobby. discriminate.
  - unfold indexInv, Room.lobbyLike. intros qs r Hlobby Hidx. cbn.
    destruct (Room.status r); try discriminate.
    + exact Hidx.
    + split; [apply Hidx|]. rewrite Hlobby. discriminate.
  - unfold indexInv. intros ps r Hlen _. apply Nat.eqb_neq in Hlen. cbn. lia.
  - unfold indexInv. intros ps r Hst Hidx. rewrite Hst in Hidx. cbn.
    destruct (_ >=? _)%Z eqn:Hge; cbn; [lia | rewrite Hst; lia].
  - unfold indexInv. intros ps r Hidx. cbn.
    destruct (Room.status r); try exact Hidx.
    split; [apply Hidx | discriminate].
  - intros st w0 Hok.
    destruct st as [[sid [| | | |[qs|]| | | | | | | | ]|rc]|sid|i [qs|]]; cbn; auto.
    cbn [timely] in Hok. intros room Hroom. now rewrite Hroom in Hok.
Qed.

Lemma countAgrees_reachable w : reachableBy exactCount w -> allRooms countAgrees (server w).
Proof.
  apply (reachableBy_inv countAgrees
           (fun qs r => countMatches qs (Room.questionCount r) = true)).
  - unfold countAgrees. intros r r' _ _ -> -> -> _. exact (fun H => H).
  - unfold countAgrees. intros r _ _ ->. discriminate.
  - unfold countAgrees. intros data r _ _. cbn. discriminate.
  - unfold countAgrees. intros qs r Hcount _ _. exact Hcount.
  - unfold countAgrees. intros ps r _ H. exact H.
  - unfold countAgrees. intros ps r _ H. cbn. destruct (_ >=? _)%Z; exact H.
  - unfold countAgrees. intros ps r _. cbn. discriminate.
  - intros st w0 Hok.
    destruct st as [[sid [| | | |[qs|]| | | | | | | | ]|rc]|sid|i [qs|]]; cbn; auto;
      cbn [exactCount] in Hok; intros room Hroom; rewrite Hroom in Hok; auto.
Qed.

(** C7 (as the code has it).  The server's states are those reached by
    any steps: events handled to completion, with [generateQuestions]
    calls suspended at their [await] while other events are handled and
    resumed later with whatever the generator answers.  In every such
    state every room has [0 <= currentQuestion], and [currentQuestion] is
    0 while the room is [waiting].  If every generation that succeeds
    resumes while its room is lobby-like (or has left the store), then
    [currentQuestion < questions.length] while the status is [quiz], and
    [currentQuestion <= questions.length] unless the room is in the
    rematch lobby (status [finished] with [rematch] true).  If every
    generation that succeeds delivers as many questions as the room's
    [questionCount] is when they are stored in it, then [questions.length
    == questionCount] whenever [questionsReady] is true. *)
Theorem C7_question_index_invariant :
  forall (w : World) (rc : string) (room : Room.t),
    rooms (server w) !! rc = Some room ->
    (reachableBy anyStep w ->
     (0 <= Room.currentQuestion room)%Z /\
     (Room.status room = waiting -> Room.currentQuestion room = 0%Z)) /\
    (reachableBy timely w ->
     (Room.status room = quiz ->
      (Room.currentQuestion room < Z.of_nat (length (Room.questions room)))%Z) /\
     (~ (Room.status room = finished /\ Room.rematch room = true) ->
      indexInRange room)) /\
    (reachableBy exactCount w -> countAgrees room).
Proof.
  intros w rc room Hroom. split; [|split].
  - intros Hreach. exact (indexStarts_reachable w Hreach rc room Hroom).
  - intros Hreach.
    pose proof (indexInv_reachable w Hreach rc room Hroom) as Hidx.
    unfold indexInv in Hidx. unfold indexInRange.
    destruct (Room.status room) eqn:Hst.
    + rewrite Hidx. split; [discriminate|]. intros _. lia.
    + split; [intros _; lia|]. intros _. lia.
    + destruct Hidx as [H0 Hle]. split; [discriminate|].
      intros Hnot. split; [exact H0|].
      destruct (Room.rematch room); [exfalso; now apply Hnot | now apply Hle].
  - intros Hreach. exact (countAgrees_reachable w Hreach rc room Hroom).
Qed.

Lemma C7_question_index_invariant_witness :
  rooms Sample.afterMatch !! "ABC123" = Some Sample.finishedRoom /\
  indexInRange Sample.finishedRoom /\
  countAgrees Sample.finishedRoom.
Proof.
  assert (Hroom : rooms Sample.afterMatch !! "ABC123" = Some Sample.finishedRoom)
    by (vm_compute; reflexivity).
  assert (Hplay : play timelyAndExact (map Handle Sample.fullMatch) Race.start
                  = Some (mkWorld Sample.afterMatch []))
    by (vm_compute; reflexivity).
  destruct (reachableBy_and timely exactCount _
              (play_reachableBy timelyAndExact _ _ _ (reach_start _) Hplay))
    as [Htimely Hexact].
  destruct (C7_question_index_invariant (mkWorld Sample.afterMatch []) "ABC123"
              Sample.finishedRoom Hroom) as (_ & Hrange & Hcount).
  split; [exact Hroom|]. split.
  - apply (proj2 (Hrange Htimely)). intros [_ Hre]. discriminate Hre.
  - exact (Hcount Hexact).
Defined.

(** C7, as the claim states it, fails in four ways.

    - After a finished two-question match, [playAgain] followed by
      [updateSettings] leaves the room with [currentQuestion = 2] and no
      questions, in a run where every generation is timely and exact.
    - The settings change while the generator is at work: the room ends
      with [questionsReady] true, 2 questions and [questionCount] 5.  The
      generation is timely, but not exact.
    - A generation asked for when the room wanted one question is still
      under way when the quiz starts with two, and delivers its one
      question when the quiz is at index 1: the status is [quiz] and
      [currentQuestion] is not below [questions.length].  The generation
      is not timely.
    In both races the generator delivers as many questions as it was asked
    for.
    - And [updateSettings] stores the question count 2.5, which no list
      of up to twenty questions has: the next generation leaves
      [questionsReady] true with a length that is not the count. *)
Lemma C7_counterexample :
  (play timelyAndExact Race.rematchThenSettings Race.start
     = Some (mkWorld Sample.afterSettings []) /\
   reachable Sample.afterSettings /\
   rooms Sample.afterSettings !! "ABC123" = Some Sample.staleRoom /\
   Room.currentQuestion Sample.staleRoom = 2%Z /\
   Room.questions Sample.staleRoom = [] /\
   ~ indexInRange Sample.staleRoom) /\
  (play timely Race.lateForSettings Race.start = Some Race.afterLateForSettings /\
   play exactCount Race.lateForSettings Race.start = None /\
   reachable (server Race.afterLateForSettings) /\
   exists room,
     rooms (server Race.afterLateForSettings) !! "ABC123" = Some room /\
     Race.questionState room = (waiting, 0%Z, 2%nat, 5%float, true) /\
     ~ countAgrees room) /\
  (play anyStep Race.lateForQuiz Race.start = Some Race.afterLateForQuiz /\
   play timely Race.lateForQuiz Race.start = None /\
   reachable (server Race.afterLateForQuiz) /\
   exists room,
     rooms (server Race.afterLateForQuiz) !! "ABC123" = Some room /\
     Race.questionState room = (quiz, 1%Z, 1%nat, 2%float, true) /\
     Room.status room = quiz /\
     ~ (Room.currentQuestion room < Z.of_nat (length (Room.questions room)))%Z) /\
  (play timely Race.fractional Race.start = Some Race.afterFractional /\
   play exactCount Race.fractional Race.start = None /\
   reachable (server Race.afterFractional) /\
   forallb (fun n => negb (PrimFloat.eqb (JsNum.of_nat n) 2.5)) (seq 0 21) = true /\
   exists room,
     rooms (server Race.afterFractional) !! "ABC123" = Some room /\
     Race.questionState room = (waiting, 0%Z, 2%nat, 2.5%float, true) /\
     ~ countAgrees room).
Proof.
  assert (Hreach : forall sts w, play anyStep sts Race.start = Some w -> reachable (server w)).
  { intros sts [s calls] Hplay. exists calls.
    exact (play_reachableBy anyStep sts _ _ (reach_start _) Hplay). }
  split; [|split; [|split]].
  - split; [vm_compute; reflexivity|].
    split; [exact afterSettings_reachable|].
    split; [vm_compute; reflexivity|].
    split; [reflexivity|]. split; [reflexivity|].
    unfold indexInRange. cbn. lia.
  - split; [vm_compute; reflexivity|]. split; [vm_compute; reflexivity|].
    split; [apply (Hreach Race.lateForSettings); vm_compute; reflexivity|].
    eexists. split; [vm_compute; reflexivity|].
    split; [vm_compute; reflexivity|].
    intros H. specialize (H eq_refl). vm_compute in H. discriminate H.
  - split; [vm_compute; reflexivity|]. split; [vm_compute; reflexivity|].
    split; [apply (Hreach Race.lateForQuiz); vm_compute; reflexivity|].
    eexists. split; [vm_compute; reflexivity|].
    split; [vm_compute; reflexivity|].
    split; [reflexivity|]. cbn. lia.
  - split; [vm_compute; reflexivity|]. split; [vm_compute; reflexivity|].
    split; [apply (Hreach Race.fractional); vm_compute; reflexivity|].
    split; [vm_compute; reflexivity|].
    eexists. split; [vm_compute; reflexivity|].
    split; [vm_compute; reflexivity|].
    intros H. specialize (H eq_refl). vm_compute in H. discriminate H.
Qed.

(** ** The store invariant *)

Lemma storeInv_same s s' :
  rooms s' = rooms s -> questionTimers s' = questionTimers s ->
  storeInv s -> storeInv s'.
Proof. unfold storeInv. now intros -> ->. Qed.

Lemma storeInv_insert s s' key room :
  rooms s' = <[key := room]> (rooms s) -> questionTimers s' = questionTimers s ->
  Room.code room = key -> Room.players room <> [] ->
  storeInv s -> storeInv s'.
Proof.
  unfold storeInv. intros -> -> Hcode Hps [Hrooms Htimers]. split.
  - intros rc room'. destruct (decide (key = rc)) as [->|Hne].
    + rewrite lookup_insert_eq. now intros [= <-].
    + rewrite lookup_insert_ne by exact Hne. apply Hrooms.
  - intros rc Ht. destruct (decide (key = rc)) as [->|Hne].
    + rewrite lookup_insert_eq. eauto.
    + rewrite lookup_insert_ne by exact Hne. now apply Htimers.
Qed.

Lemma storeInv_put key room s :
  Room.code room = key -> Room.players room <> [] ->
  storeInv s -> storeInv (put key room s).
Proof. now apply storeInv_insert. Qed.




Lemma storeInv_drop rc s :
  storeInv s ->
  storeInv (clearQuestionTimer rc (set_rooms (delete rc (rooms s)) s)).
Proof.
  intros [Hrooms Htimers]. split.
  - intros rc' room. rewrite rooms_clearQuestionTimer. cbn.
    destruct (decide (rc = rc')) as [->|Hne].
    + now rewrite lookup_delete_eq.
    + rewrite lookup_delete_ne by exact Hne. apply Hrooms.
  - intros rc' Hrc'. rewrite rooms_clearQuestionTimer. cbn.
    destruct (decide (rc = rc')) as [->|Hne].
    + rewrite timers_clearQuestionTimer in Hrc'. now destruct Hrc'.
    + rewrite lookup_delete_ne by exact Hne. apply Htimers.
      revert Hrc'. unfold clearQuestionTimer. cbn.
      destruct (questionTimers s !! rc); cbn; [|auto].
      now rewrite lookup_delete_ne by exact Hne.
Qed.





Ltac inv_of H Hroom :=
  let Hc := fresh "Hcode" in
  let Hp := fresh "Hplayers" in
  destruct (proj1 H _ _ Hroom) as [Hc Hp].









Lemma removePlayer_storeInv roomCode room idx wasAdmin s :
  Room.code room = roomCode -> storeInv s ->
  storeInv (post (removePlayer roomCode room idx wasAdmin s)).
Proof.
  intros Hcode H. unfold removePlayer.
  destruct (delete idx (Room.players room)) as [|first rest]; cbn [post ret silent].
  - now apply storeInv_drop.
  - apply storeInv_put; [| |exact H]; now destruct wasAdmin.
Qed.

Lemma leaveRoom_storeInv sid s :
  storeInv s -> storeInv (post (leaveRoom sid s)).
Proof.
  intros H. unfold leaveRoom.
  destruct (JsStr.truthy _) as [roomCode|]; [|exact H].
  assert (H2 : storeInv
                 (set_socketRoomMap
                    (delete sid (socketRoomMap (socket_leave sid roomCode s)))
                    (socket_leave sid roomCode s)))
    by (eapply storeInv_same; [| |exact H];
        [apply rooms_socket_leave | apply timers_socket_leave]).
  destruct (rooms s !! roomCode) as [room|] eqn:Hroom; [|exact H2]. inv_of H Hroom.
  destruct (findIndex _ _); [|exact H2].
  now apply removePlayer_storeInv.
Qed.

Lemma disconnect_storeInv sid s :
  storeInv s -> storeInv (post (disconnect sid s)).
Proof.
  intros H. unfold disconnect.
  destruct (JsStr.truthy _) as [roomCode|]; [|exact H].
  cbn [rooms set_socketRooms].
  destruct (rooms s !! roomCode) as [room|] eqn:Hroom; [|exact H]. inv_of H Hroom.
  destruct (findIndex _ _); [|exact H].
  now apply removePlayer_storeInv.
Qed.



(** The first half of ['generateQuestions'] writes nothing. *)
Lemma post_generateQuestionsBegin sid s : post (fst (generateQuestionsBegin sid s)) = s.
Proof.
  unfold generateQuestionsBegin.
  destruct (rooms s !! roomKey sid s) as [room|]; [|reflexivity].
  destruct (negb (String.eqb _ _)); [reflexivity|].
  destruct (negb (Room.lobbyLike room)); reflexivity.
Qed.


Lemma step_server st w w' out :
  step st w = Some (w', out) ->
  match st with
  | Handle e => exists r, dispatch e (server w) = Some r /\ server w' = post r
  | Suspend _ => server w' = server w
  | Resume i outcome =>
      exists c r, awaiting w !! i = Some c /\
                  generateQuestionsEnd c outcome (server w) = Some r /\
                  server w' = post r
  end.
Proof.
  destruct st as [e|sid|i outcome]; cbn [step].
  - destruct (dispatch e (server w)) as [r|]; [|discriminate].
    intros [= <- _]. exists r. now split.
  - pose proof (post_generateQuestionsBegin sid (server w)) as Hpost.
    destruct (generateQuestionsBegin sid (server w)) as [r c].
    intros [= <- _]. exact Hpost.
  - destruct (awaiting w !! i) as [c|]; [|discriminate].
    destruct (generateQuestionsEnd c outcome (server w)) as [r|] eqn:Hr; [|discriminate].
    intros [= <- _]. exists c, r. now repeat split.
Qed.



(** C5. When [leaveRoom] or [disconnect] removes the last player of a
    room, the room is gone from [rooms] afterwards and [questionTimers]
    has no entry under the room's code; nothing is emitted.  The step
    keeps the store invariant, so in the reachable states no stored room
    is without players and no timer entry outlives its room. *)
Theorem C5_empty_room_is_dropped :
  forall (s : Server) (sid roomCode : string) (room : Room.t) (idx : nat),
    socketRoomMap s !! sid = Some roomCode ->
    roomCode <> "" ->
    rooms s !! roomCode = Some room ->
    Room.code room = roomCode ->
    findIndex (Player.has_id sid) (Room.players room) = Some idx ->
    delete idx (Room.players room) = [] ->
    forall r, r = leaveRoom sid s \/ r = disconnect sid s ->
      rooms (post r) !! roomCode = None /\
      questionTimers (post r) !! Room.code room = None /\
      sent r = [] /\
      (storeInv s -> storeInv (post r)).
Proof.
  intros s sid roomCode room idx Hmap Hne Hroom Hcode Hidx Hempty r Hr.
  rewrite Hcode.
  assert (Hinv : storeInv s -> storeInv (post r))
    by (destruct Hr as [-> | ->];
        [apply leaveRoom_storeInv | apply disconnect_storeInv]).
  assert (Hrm : exists wasAdmin s', r = removePlayer roomCode room idx wasAdmin s').
  { destruct Hr as [-> | ->].
    - destruct (leaveRoom_found s sid roomCode room idx Hmap Hne Hroom Hidx)
        as (s' & _ & _ & ->). eauto.
    - destruct (disconnect_found s sid roomCode room idx Hmap Hne Hroom Hidx)
        as (s' & _ & _ & ->). eauto. }
  destruct Hrm as (wasAdmin & s' & ->).
  destruct (removePlayer_last roomCode room idx wasAdmin s' Hempty) as (H1 & H2 & H3).
  split; [exact H1|]. split; [exact H2|]. split; [exact H3 | exact Hinv].
Qed.

Lemma C5_empty_room_is_dropped_witness :
  rooms (post (leaveRoom "s1" Sample.solo)) !! "ABC123" = None /\
  questionTimers (post (leaveRoom "s1" Sample.solo)) !! "ABC123" = None.
Proof.
  destruct (C5_empty_room_is_dropped Sample.solo "s1" "ABC123" Sample.soloRoom 0
              eq_refl ltac:(discriminate) eq_refl eq_refl eq_refl eq_refl
              (leaveRoom "s1" Sample.solo) (or_introl eq_refl)) as (H1 & H2 & _).
  split; [exact H1 | exact H2].
Defined.

(** ** Suspended calls *)

(** Run back to back, the two halves are the handler. *)
Lemma generateQuestions_halves sid outcome s :
  generateQuestions sid outcome s =
    match generateQuestionsBegin sid s with
    | (r1, Some c) =>
        match generateQuestionsEnd c outcome (post r1) with
        | Some r2 => ret (post r2) (sent r1 ++ sent r2)
        | None => r1
        end
    | (r1, None) => r1
    end.
Proof.
  unfold generateQuestions, generateQuestionsBegin, generateQuestionsEnd.
  destruct (rooms s !! roomKey sid s) as [room|] eqn:Hroom; [|reflexivity].
  destruct (negb (String.eqb _ _)); [reflexivity|].
  destruct (negb (Room.lobbyLike room)); [reflexivity|].
  cbn [post ret held]. rewrite Hroom. now destruct outcome.
Qed.

(** A room leaves the store only when [leaveRoom] or [disconnect] takes
    its last player out. *)
Lemma removePlayer_drops roomCode room idx wasAdmin s key room0 :
  rooms s !! roomCode = Some room ->
  rooms s !! key = Some room0 ->
  rooms (post (removePlayer roomCode room idx wasAdmin s)) !! key = None ->
  room0 = room /\ delete idx (Room.players room) = [].
Proof.
  intros Hroom Hkey. unfold removePlayer.
  destruct (delete idx (Room.players room)) as [|first rest]; cbn [post ret silent].
  - rewrite rooms_clearQuestionTimer. cbn.
    destruct (decide (roomCode = key)) as [->|Hne].
    + intros _. split; [congruence | reflexivity].
    + rewrite lookup_delete_ne by exact Hne. congruence.
  - cbn. destruct (decide (roomCode = key)) as [->|Hne].
    + now rewrite lookup_insert_eq.
    + rewrite lookup_insert_ne by exact Hne. congruence.
Qed.

Ltac kept :=
  cbn [post ret silent reject];
  rewrite ?rooms_clearQuestionTimer, ?rooms_startQuestionTimer;
  match goal with
  | Hsame : rooms ?s !! ?key <> None,
    Hput : forall k v s0, rooms s0 = rooms ?s -> rooms (put k v s0) !! ?key <> None |- _ =>
      let Hg := fresh in
      intros Hg;
      first [ exact (Hsame Hg)
            | exact (Hput _ _ _ eq_refl Hg) ]
  end.

Ltac unkept :=
  let Hg := fresh in
  cbn; rewrite ?rooms_socket_leave; intros Hg; exfalso; congruence.

Lemma dropped_rooms_were_emptied e s r key room :
  dispatch e s = Some r ->
  rooms s !! key = Some room ->
  rooms (post r) !! key = None ->
  exists sid idx,
    (e = FromSocket sid LeaveRoom \/ e = FromSocket sid Disconnect) /\
    findIndex (Player.has_id sid) (Room.players room) = Some idx /\
    delete idx (Room.players room) = [].
Proof.
  intros Hr Hkey Hgone.
  assert (Hput : forall k v s0, rooms s0 = rooms s -> rooms (put k v s0) !! key <> None).
  { intros k v s0 Hs0. cbn. destruct (decide (k = key)) as [->|Hne].
    - now rewrite lookup_insert_eq.
    - rewrite lookup_insert_ne by exact Hne. rewrite Hs0. congruence. }
  assert (Hsame : rooms s !! key <> None) by congruence.
  assert (Hkept : forall s', rooms s' !! key <> None -> rooms s' !! key = None -> False)
    by (intros s' H1 H2; exact (H1 H2)).
  destruct e as [sid a|roomCode]; cbn [dispatch] in Hr.
  - destruct a; cbn [handle] in Hr; try (injection Hr as <-).
    + unfold createRoom in Hr.
      destruct (pickCode draws (rooms s)) as [roomCode|]; [|discriminate].
      injection Hr as <-. exfalso. revert Hgone. now apply (Hput roomCode _ s).
    + exfalso. revert Hgone. unfold joinRoom. branches; kept.
    + exfalso. revert Hgone. unfold rejoinRoom. branches; kept.
    + exfalso. revert Hgone. unfold updateSettings. branches; kept.
    + exfalso. revert Hgone. unfold generateQuestions. branches; kept.
    + exfalso. revert Hgone. unfold startQuiz. branches; kept.
    + exfalso. revert Hgone. unfold selectAnswer. branches; kept.
    + exfalso. revert Hgone. unfold nextQuestion. branches; kept.
    + exfalso. revert Hgone. unfold playAgain. branches; kept.
    + exists sid. revert Hgone. unfold leaveRoom.
      destruct (JsStr.truthy _) as [roomCode|]; [|unkept].
      destruct (rooms s !! roomCode) as [room1|] eqn:Hroom1; [|unkept].
      destruct (findIndex _ _) as [idx|] eqn:Hidx; [|unkept].
      intros Hgone. exists idx.
      apply removePlayer_drops with (room0 := room) in Hgone as [-> Hempty];
        [|cbn; rewrite rooms_socket_leave; assumption..].
      split; [now left|]. now split.
    + exists sid. revert Hgone. unfold disconnect.
      destruct (JsStr.truthy _) as [roomCode|]; [|unkept].
      cbn [rooms set_socketRooms].
      destruct (rooms s !! roomCode) as [room1|] eqn:Hroom1; [|unkept].
      destruct (findIndex _ _) as [idx|] eqn:Hidx; [|unkept].
      intros Hgone. exists idx.
      apply removePlayer_drops with (room0 := room) in Hgone as [-> Hempty];
        [|assumption..].
      split; [now right|]. now split.
    + cbn in Hgone. congruence.
    + cbn in Hgone. congruence.
  - injection Hr as <-. exfalso. revert Hgone. unfold onTimeout. branches; kept.
Qed.

Lemma lookup_map {A B} (f : A -> B) (l : list A) (i : nat) :
  map f l !! i = f <$> (l !! i).
Proof. revert i. induction l as [|x l IH]; intros [|i]; cbn; auto. Qed.

Lemma step_heldInv st w w' out :
  step st w = Some (w', out) -> heldInv w -> heldInv w'.
Proof.
  intros Hstep H. destruct st as [e|sid|i outcome]; cbn [step] in Hstep.
  - destruct (dispatch e (server w)) as [r|]; [|discriminate].
    injection Hstep as <- _. intros j c' key. cbn [awaiting server].
    rewrite lookup_map. destruct (awaiting w !! j) as [c|] eqn:Hc; [|discriminate].
    intros [= <-]. unfold detach.
    destruct (held c) as [key0|room0] eqn:Hheld; [|now rewrite Hheld].
    destruct (H j c key0 Hc Hheld) as [room Hroom]. rewrite Hroom.
    destruct (rooms (post r) !! key0) as [room'|] eqn:Hafter; [|discriminate].
    rewrite Hheld. intros [= <-]. eauto.
  - unfold generateQuestionsBegin in Hstep.
    destruct (rooms (server w) !! roomKey sid (server w)) as [room|] eqn:Hroom.
    2:{ injection Hstep as <- _. cbn [awaiting server silent ret post].
        rewrite app_nil_r. exact H. }
    destruct (negb (String.eqb _ _)).
    { injection Hstep as <- _. cbn [awaiting server silent ret post].
      rewrite app_nil_r. exact H. }
    destruct (negb (Room.lobbyLike room)).
    { injection Hstep as <- _. cbn [awaiting server silent ret post].
      rewrite app_nil_r. exact H. }
    injection Hstep as <- _. intros j c key. cbn [awaiting server ret post].
    intros Hj. apply lookup_app_Some in Hj. destruct Hj as [Hj | [_ Hj]].
    + now apply (H j).
    + destruct (j - length (awaiting w))%nat as [|n]; [|destruct n; discriminate].
      injection Hj as <-. cbn. intros [= <-]. eauto.
  - destruct (awaiting w !! i) as [c0|]; [|discriminate].
    destruct (generateQuestionsEnd c0 outcome (server w)) as [r|] eqn:Hr; [|discriminate].
    injection Hstep as <- _. intros j c key. cbn [awaiting server].
    intros Hj Hheld.
    assert (Hold : is_Some (rooms (server w) !! key)).
    { destruct (decide (j < i)%nat) as [Hlt|Hge].
      - rewrite list_lookup_delete_lt in Hj by exact Hlt. now apply (H j c).
      - rewrite list_lookup_delete_ge in Hj by lia. now apply (H (S j) c). }
    revert Hr. unfold generateQuestionsEnd.
    destruct outcome as [qs|]; [|now intros [= <-]].
    destruct (held c0) as [key0|room0]; [|now intros [= <-]].
    destruct (rooms (server w) !! key0) as [room|]; [|discriminate].
    intros [= <-]. cbn. destruct (decide (key0 = key)) as [->|Hne].
    + rewrite lookup_insert_eq. eauto.
    + now rewrite lookup_insert_ne by exact Hne.
Qed.

(** Every suspended call that holds a stored room holds a room that is in
    the store... *)
Lemma held_rooms_are_stored ok w : reachableBy ok w -> heldInv w.
Proof.
  induction 1 as [|w st w' out _ IH _ Hstep].
  - intros j c key. cbn. now rewrite lookup_nil.
  - exact (step_heldInv st w w' out Hstep IH).
Qed.

(** ... so every suspended call can resume, whatever the generator
    answers. *)
Lemma suspended_calls_resume ok w i c outcome :
  reachableBy ok w -> awaiting w !! i = Some c ->
  exists w' out, step (Resume i outcome) w = Some (w', out).
Proof.
  intros Hreach Hc. cbn [step]. rewrite Hc.
  assert (Hend : is_Some (generateQuestionsEnd c outcome (server w))).
  { unfold generateQuestionsEnd. destruct outcome as [qs|]; [|eauto].
    destruct (held c) as [key|room] eqn:Hheld; [|eauto].
    destruct (held_rooms_are_stored ok w Hreach i c key Hc Hheld) as [room ->]. eauto. }
  destruct Hend as [r ->]. eauto.
Qed.

(** ** Sanity checks of the number and string primitives *)

Example floor_half : JsNum.floor 2.5 = 2%float.
Proof. reflexivity. Qed.

Example floor_neg_half : JsNum.floor (-0.5) = (-1)%float.
Proof. reflexivity. Qed.

Example floor_neg_int : JsNum.floor (-2) = (-2)%float.
Proof. reflexivity. Qed.

Example floor_big : JsNum.floor 9007199254740992 = 9007199254740992%float.
Proof. reflexivity. Qed.

(** Ten seconds left of thirty: [10 + floor(10 / 30 * 10) = 13]. *)
Example ten_seconds_left : totalPoints (Some 10%float) 30 = 13%float.
Proof. reflexivity. Qed.

Example clamp_questionCount :
  JsNum.max 1 (JsNum.min 20 57) = 20%float /\
  JsNum.max 1 (JsNum.min 20 (-4)) = 1%float /\
  JsNum.max 1 (JsNum.min 20 2.5) = 2.5%float.
Proof. repeat split; reflexivity. Qed.

Example upper_code : JsStr.toUpperCase "ab3xyz" = "AB3XYZ".
Proof. reflexivity. Qed.

(** ** End-to-end scenarios *)

(** Create a room for two questions, generate them, start: the quiz is at
    question 0 and the timer is armed for [questionTime] seconds. *)
Example quiz_starts :
  match run (firstn 3 Sample.fullMatch) initial with
  | Some s =>
      Room.status <$> rooms s !! "ABC123" = Some quiz /\
      Room.currentQuestion <$> rooms s !! "ABC123" = Some 0%Z /\
      Room.questionsReady <$> rooms s !! "ABC123" = Some true /\
      questionTimers s !! "ABC123" = Some (mkTimer 30000 true)
  | None => False
  end.
Proof. vm_compute. repeat split; reflexivity. Qed.

(** Bob answers correctly with 10 of 30 seconds left and gets 13 points;
    Ann never answers, and the timer's expiry records the no-answer
    sentinel with 0 points for her. *)
Example answer_then_timeout :
  let s1 := post (selectAnswer "s2" (AnswerData.mk (JNum 2) (Some 10%float)) Sample.inQuiz) in
  let s2 := post (onTimeout "ABC123" s1) in
  (fun room =>
     map (fun p => (Player.name p, Player.selectedAnswer p,
                    Player.roundPoints p, Player.score p)) (Room.players room))
    <$> rooms s2 !! "ABC123"
  = Some [("Ann", JNum (-1), 0%float, 0%float); ("Bob", JNum 2, 13%float, 13%float)].
Proof. vm_compute. reflexivity. Qed.

(** Rejoining twice with the same client id keeps the player list as long
    as it was and only moves the player to the latest socket. *)
Example rejoin_twice :
  let data := JoinRoomData.mk (Some "abc123") (Some "Bob") (Some "cB") in
  let s1 := post (rejoinRoom "s7" data Sample.inQuiz) in
  let s2 := post (rejoinRoom "s8" data s1) in
  (fun room => map (fun p => (Player.id p, Player.clientId p)) (Room.players room))
    <$> rooms s2 !! "ABC123"
  = Some [("s1", "cA"); ("s8", "cB")].
Proof. vm_compute. reflexivity. Qed.

(** A question count sent as text is stored as [Number] reads it, without
    the clamping that [updateSettings] applies: ['0'] gives a room that
    asks for no questions. *)
Example createRoom_count_as_text :
  let create number :=
    createRoom "s1" ["abc123"] "1700000000000"
      (CreateRoomData.mk (Some "Ann") None None number (Some "cA")) initial in
  let stored r := Room.questionCount <$> (rooms (post r) !! "ABC123") in
  (stored <$> create CountFalsy) = Some (Some 5%float) /\
  (stored <$> create (CountTruthy 0)) = Some (Some 0%float) /\
  (stored <$> create (CountTruthy 500)) = Some (Some 500%float).
Proof. repeat split; vm_compute; reflexivity. Qed.

(** The last player leaves while the generator is at work, and someone
    else creates a room that gets the same code.  When the call resumes,
    the new room is left as it is, but its members are sent
    ['questionsGenerated'] and ['roomUpdated'] with the old room, which
    has no players. *)
Example generation_outlives_its_room :
  let w :=
    default Race.start
      (play anyStep
         [ Race.create;
           Suspend "s1";
           Handle (FromSocket "s1" LeaveRoom);
           Handle (FromSocket "s2"
                     (CreateRoom ["abc123"] "1700000000001"
                        (CreateRoomData.mk (Some "Bob") None None CountFalsy
                           (Some "cB")))) ]
         Race.start) in
  match step (Resume 0 (Some [Sample.q1; Sample.q2])) w with
  | Some (w', out) =>
      server w' = server w /\
      (Room.adminId <$> rooms (server w') !! "ABC123") = Some "s2" /\
      (Room.questionsReady <$> rooms (server w') !! "ABC123") = Some false /\
      awaiting w' = [] /\
      map (fun e =>
             match e with
             | ToRoom rc event (ERoom r) =>
                 (rc, event, Room.adminId r, length (Room.players r),
                  length (Room.questions r))
             | _ => ("", "", "", 0, 0)%nat
             end) out
        = [("ABC123", "questionsGenerated", "s1", 0, 2)%nat;
           ("ABC123", "roomUpdated", "s1", 0, 2)%nat]
  | None => False
  end.
Proof. vm_compute. repeat split; reflexivity. Qed.

(** * Further properties of the handlers *)

(** ** Comparisons of numbers *)

Lemma SFcompare_antisym x y c :
  SpecFloat.SFcompare x y = Some c -> SpecFloat.SFcompare y x = Some (CompOpp c).
Proof.
  destruct x as [sx|sx| |sx mx ex], y as [sy|sy| |sy my ey]; simpl;
    try discriminate;
    try (destruct sx; intros [= <-]; reflexivity);
    try (destruct sy; intros [= <-]; reflexivity);
    try (intros [= <-]; reflexivity).
  - destruct sx, sy; intros [= <-]; reflexivity.
  - destruct sx, sy; try (intros [= <-]; reflexivity);
      rewrite (Z.compare_antisym ex ey);
      destruct (ex ?= ey)%Z; simpl; intros [= <-]; try reflexivity;
      rewrite ?(Pos.compare_cont_antisym mx my Eq); reflexivity.
Qed.

Lemma SFcompare_Eq_finite s m e y :
  SpecFloat.SFcompare (SpecFloat.S754_finite s m e) y = Some Eq ->
  y = SpecFloat.S754_finite s m e.
Proof.
  destruct y as [sy|sy| |sy my ey]; simpl; try discriminate.
  - destruct s; discriminate.
  - destruct sy; discriminate.
  - destruct s, sy; try discriminate;
      destruct (e ?= ey)%Z eqn:He; try discriminate;
      apply Z.compare_eq in He; subst ey; intros [= Hm].
    + apply (f_equal CompOpp) in Hm. rewrite CompOpp_involutive in Hm. simpl in Hm.
      apply Pos.compare_eq in Hm. now subst.
    + apply Pos.compare_eq in Hm. now subst.
Qed.

(** [a === n] for a finite non-zero [a] leaves one value for [n]. *)
Lemma eqb_finite_eq (a n : float) s m e :
  FloatOps.Prim2SF a = SpecFloat.S754_finite s m e ->
  PrimFloat.eqb a n = true -> n = a.
Proof.
  intros Ha Heq. rewrite FloatAxioms.eqb_spec, Ha in Heq.
  unfold SpecFloat.SFeqb in Heq.
  destruct (SpecFloat.SFcompare _ _) as [[| |]|] eqn:Hc; try discriminate.
  apply SFcompare_Eq_finite in Hc.
  rewrite <- (FloatAxioms.SF2Prim_Prim2SF n), Hc, <- Ha.
  apply FloatAxioms.SF2Prim_Prim2SF.
Qed.

Lemma ltb_leb (x y : float) : PrimFloat.ltb x y = true -> PrimFloat.leb x y = true.
Proof.
  rewrite FloatAxioms.ltb_spec, FloatAxioms.leb_spec.
  unfold SpecFloat.SFltb, SpecFloat.SFleb.
  now destruct (SpecFloat.SFcompare _ _) as [[| |]|].
Qed.

(** Two numbers of which neither is below the other, and neither is NaN,
    compare equal. *)
Lemma not_ltb_eqb (x y : float) :
  PrimFloat.is_nan x = false -> PrimFloat.is_nan y = false ->
  PrimFloat.ltb x y = false -> PrimFloat.ltb y x = false ->
  PrimFloat.eqb x y = true.
Proof.
  unfold PrimFloat.is_nan.
  rewrite !FloatAxioms.eqb_spec, !FloatAxioms.ltb_spec.
  unfold SpecFloat.SFeqb, SpecFloat.SFltb.
  intros Hx Hy Hxy Hyx.
  destruct (SpecFloat.SFcompare (FloatOps.Prim2SF x) (FloatOps.Prim2SF y))
    as [c|] eqn:Hc.
  - rewrite (SFcompare_antisym _ _ _ Hc) in Hyx. now destruct c.
  - destruct (FloatOps.Prim2SF x), (FloatOps.Prim2SF y); simpl in *;
      try discriminate.
Qed.

Lemma allowedQuestionTime_values (n : float) :
  allowedQuestionTime n = true ->
  In n [10; 15; 20; 25; 30]%float.
Proof.
  unfold allowedQuestionTime. simpl. rewrite !orb_true_iff.
  intros [H|[H|[H|[H|[H|H]]]]]; try discriminate;
    eapply eqb_finite_eq in H; try (vm_compute; reflexivity); subst; simpl; tauto.
Qed.

Lemma clamp_bounds (n : float) :
  PrimFloat.is_nan n = false ->
  PrimFloat.leb 1 (JsNum.max 1 (JsNum.min 20 n)) = true /\
  PrimFloat.leb (JsNum.max 1 (JsNum.min 20 n)) 20 = true.
Proof.
  intros Hn.
  assert (Hmin : JsNum.min 20 n = 20%float \/
                 (JsNum.min 20 n = n /\ PrimFloat.ltb n 20 = true)).
  { unfold JsNum.min. rewrite Hn. cbn [orb PrimFloat.is_nan].
    change (PrimFloat.is_nan 20) with false. cbn [orb].
    destruct (PrimFloat.ltb 20 n) eqn:H1; [now left|].
    destruct (PrimFloat.ltb n 20) eqn:H2; [now right|].
    change (JsNum.is_neg_zero 20) with false. cbv iota. left.
    eapply (eqb_finite_eq 20 n); [vm_compute; reflexivity|].
    now apply not_ltb_eqb. }
  destruct Hmin as [-> | [-> Hlt]]; [split; reflexivity|].
  unfold JsNum.max. rewrite Hn.
  change (PrimFloat.is_nan 1) with false. cbn [orb].
  destruct (PrimFloat.ltb 1 n) eqn:H1; [split; now apply ltb_leb|].
  destruct (PrimFloat.ltb n 1); [split; reflexivity|].
  change (JsNum.is_neg_zero 1) with false. split; reflexivity.
Qed.

Lemma clamp_nan (n : float) :
  PrimFloat.is_nan n = true ->
  PrimFloat.is_nan (JsNum.max 1 (JsNum.min 20 n)) = true.
Proof.
  intros Hn. unfold JsNum.min. rewrite Hn, orb_true_r. reflexivity.
Qed.

(** ** Settings are written by [createRoom] and [updateSettings] only *)

Section SettingsFrame.
Variable P : Room.t -> Prop.
Hypothesis P_settings :
  forall r r',
    Room.id r' = Room.id r -> Room.code r' = Room.code r ->
    Room.topic r' = Room.topic r -> Room.difficulty r' = Room.difficulty r ->
    Room.questionCount r' = Room.questionCount r ->
    Room.totalQuestions r' = Room.totalQuestions r ->
    Room.questionTime r' = Room.questionTime r ->
    P r -> P r'.

Ltac same_settings :=
  match goal with
  | H : allRooms P ?s, Hroom : rooms ?s !! _ = Some ?room |- P _ =>
      apply (P_settings room); try reflexivity; exact (H _ _ Hroom)
  end.

Lemma frame_removePlayer roomCode room idx wasAdmin s :
  P room -> allRooms P s ->
  allRooms P (post (removePlayer roomCode room idx wasAdmin s)).
Proof.
  intros Hr H. unfold removePlayer.
  destruct (delete idx (Room.players room)) as [|first rest]; cbn [post ret silent].
  - apply allRooms_clearQuestionTimer.
    eapply allRooms_delete; [reflexivity | exact H].
  - apply allRooms_put; [|exact H].
    destruct wasAdmin; apply (P_settings room); try reflexivity; exact Hr.
Qed.

Lemma frame_handle sid a s r :
  match a with CreateRoom _ _ _ | UpdateSettings _ => False | _ => True end ->
  handle sid a s = Some r ->
  allRooms P s -> allRooms P (post r).
Proof.
  intros Ha Hr H.
  destruct a; try contradiction; cbn [handle] in Hr; injection Hr as <-.
  - unfold joinRoom. branches; try exact H; apply allRooms_enter; try exact H;
      same_settings.
  - unfold rejoinRoom. branches; try exact H; apply allRooms_enter; try exact H;
      same_settings.
  - unfold generateQuestions. branches; try exact H; apply allRooms_put; try exact H;
      same_settings.
  - unfold startQuiz. branches; try exact H.
    apply allRooms_startQuestionTimer, allRooms_put; try exact H. same_settings.
  - unfold selectAnswer. branches; try exact H; cbn [post ret];
      try apply allRooms_clearQuestionTimer; (apply allRooms_put; [|exact H]);
      same_settings.
  - unfold nextQuestion. branches; try exact H; cbn [post ret];
      try apply allRooms_startQuestionTimer; (apply allRooms_put; [|exact H]);
      same_settings.
  - unfold playAgain. branches; try exact H; apply allRooms_put; try exact H;
      same_settings.
  - unfold leaveRoom.
    destruct (JsStr.truthy _) as [roomCode|]; [|exact H].
    assert (H2 : allRooms P
                   (set_socketRoomMap
                      (delete sid (socketRoomMap (socket_leave sid roomCode s)))
                      (socket_leave sid roomCode s)))
      by (eapply allRooms_same; [|exact H]; apply rooms_socket_leave).
    destruct (rooms s !! roomCode) as [room|] eqn:Hroom; [|exact H2].
    destruct (findIndex _ _); [|exact H2].
    apply frame_removePlayer; eauto.
  - unfold disconnect.
    destruct (JsStr.truthy _) as [roomCode|]; [|exact H].
    cbn [rooms set_socketRooms].
    destruct (rooms s !! roomCode) as [room|] eqn:Hroom; [|exact H].
    destruct (findIndex _ _); [|exact H].
    apply frame_removePlayer; eauto.
  - exact H.
  - exact H.
Qed.

Lemma frame_onTimeout roomCode s :
  allRooms P s -> allRooms P (post (onTimeout roomCode s)).
Proof.
  intros H. unfold onTimeout. branches; try exact H.
  apply allRooms_put; [|exact H]. same_settings.
Qed.

End SettingsFrame.

Lemma settingsInv_fields r r' :
  Room.id r' = Room.id r -> Room.code r' = Room.code r ->
  Room.questionCount r' = Room.questionCount r ->
  Room.totalQuestions r' = Room.totalQuestions r ->
  Room.questionTime r' = Room.questionTime r ->
  settingsInv r -> settingsInv r'.
Proof. unfold settingsInv. intros -> -> -> -> ->. exact (fun H => H). Qed.

Lemma settingsInv_ext r r' :
  Room.id r' = Room.id r -> Room.code r' = Room.code r ->
  Room.topic r' = Room.topic r -> Room.difficulty r' = Room.difficulty r ->
  Room.questionCount r' = Room.questionCount r ->
  Room.totalQuestions r' = Room.totalQuestions r ->
  Room.questionTime r' = Room.questionTime r ->
  settingsInv r -> settingsInv r'.
Proof. intros ? ? _ _. now apply settingsInv_fields. Qed.

Lemma settingsInv_applySettings data r :
  settingsInv r -> settingsInv (applySettings data r).
Proof.
  intros (Htime & Htotal & Hid). unfold applySettings.
  set (r1 := match SettingsData.topic data with JStr x => Room.set_topic x r | _ => r end).
  set (r2 := match SettingsData.difficulty data with
             | JStr x => Room.set_difficulty x r1 | _ => r1 end).
  assert (H2 : settingsInv r2).
  { apply (settingsInv_fields r); try (repeat split; assumption);
      subst r2 r1;
      destruct (SettingsData.topic data), (SettingsData.difficulty data); reflexivity. }
  clearbody r2. clear - H2. destruct H2 as (Htime & Htotal & Hid).
  cbv zeta.
  set (r3 := match SettingsData.questionCount data with
             | JNum n => _ | _ => r2 end).
  assert (H3 : settingsInv r3).
  { subst r3. destruct (SettingsData.questionCount data);
      repeat split; assumption || reflexivity. }
  clearbody r3. clear - H3. destruct H3 as (Htime & Htotal & Hid).
  destruct (SettingsData.questionTime data) as [| | |n|];
    try (repeat split; assumption).
  split; [|split; assumption]. cbn [Room.questionTime Room.set_questionTime].
  destruct (allowedQuestionTime n) eqn:Hn;
    [now apply allowedQuestionTime_values | cbn; tauto].
Qed.

Lemma settingsInv_maxTime r : settingsInv r -> maxTimeOf r = Room.questionTime r.
Proof.
  intros (Htime & _). unfold maxTimeOf.
  destruct Htime as [<-|[<-|[<-|[<-|[<-|[]]]]]]; reflexivity.
Qed.

Lemma settingsInv_delay room :
  settingsInv room ->
  allowedDelay (mkTimer (PrimFloat.mul (JsNum.or_else (Room.questionTime room) 30) 1000) true).
Proof.
  intros (Htime & _). unfold allowedDelay.
  destruct Htime as [<-|[<-|[<-|[<-|[<-|[]]]]]]; cbn; tauto.
Qed.

Lemma allTimers_same Q s s' :
  questionTimers s' = questionTimers s -> allTimers Q s -> allTimers Q s'.
Proof. unfold allTimers. now intros ->. Qed.

Lemma allTimers_clearQuestionTimer Q rc s :
  allTimers Q s -> allTimers Q (clearQuestionTimer rc s).
Proof.
  unfold allTimers, clearQuestionTimer. intros H rc' t.
  destruct (questionTimers s !! rc); [|apply H]. cbn.
  destruct (decide (rc = rc')) as [->|Hne].
  - now rewrite lookup_delete_eq.
  - rewrite lookup_delete_ne by exact Hne. apply H.
Qed.

Lemma allTimers_startQuestionTimer Q rc room s :
  Q (mkTimer (PrimFloat.mul (JsNum.or_else (Room.questionTime room) 30) 1000) true) ->
  allTimers Q s -> allTimers Q (startQuestionTimer rc room s).
Proof.
  intros Hq H rc' t. unfold startQuestionTimer. cbn.
  destruct (decide (rc = rc')) as [->|Hne].
  - rewrite lookup_insert_eq. now intros [= <-].
  - rewrite lookup_insert_ne by exact Hne.
    now apply allTimers_clearQuestionTimer.
Qed.

Lemma timers_removePlayer Q roomCode room idx wasAdmin s :
  allTimers Q s -> allTimers Q (post (removePlayer roomCode room idx wasAdmin s)).
Proof.
  intros H. unfold removePlayer.
  destruct (delete idx (Room.players room)); cbn [post ret silent]; [|exact H].
  now apply allTimers_clearQuestionTimer.
Qed.

Lemma timers_dispatch e s r :
  allRooms settingsInv s ->
  dispatch e s = Some r ->
  allTimers allowedDelay s -> allTimers allowedDelay (post r).
Proof.
  intros Hrooms Hr H.
  destruct e as [sid a|roomCode]; cbn [dispatch] in Hr.
  - destruct a; cbn [handle] in Hr; try (injection Hr as <-).
    + unfold createRoom in Hr. destruct (pickCode _ _); [|discriminate].
      injection Hr as <-. exact H.
    + unfold joinRoom. branches; exact H.
    + unfold rejoinRoom. branches; exact H.
    + unfold updateSettings. branches; exact H.
    + unfold generateQuestions. branches; exact H.
    + unfold startQuiz. branches; try exact H. cbn [post ret].
      apply allTimers_startQuestionTimer; [|exact H].
      apply settingsInv_delay.
      eapply settingsInv_ext; [..|eapply Hrooms; eassumption]; reflexivity.
    + unfold selectAnswer. branches; try exact H. cbn [post ret].
      now apply allTimers_clearQuestionTimer.
    + unfold nextQuestion. branches; try exact H. cbn [post ret].
      apply allTimers_startQuestionTimer; [|exact H].
      apply settingsInv_delay.
      eapply settingsInv_ext; [..|eapply Hrooms; eassumption]; reflexivity.
    + unfold playAgain. branches; exact H.
    + unfold leaveRoom. branches; try exact H;
        try apply timers_removePlayer;
        (eapply allTimers_same; [|exact H]); cbn; apply timers_socket_leave.
    + unfold disconnect. branches; try exact H.
      now apply timers_removePlayer.
    + exact H.
    + exact H.
  - injection Hr as <-. unfold onTimeout.
    destruct (questionTimers s !! roomCode) as [timer|] eqn:Ht; [|exact H].
    destruct (pending timer); [|exact H].
    assert (H1 : allTimers allowedDelay
                   (set_questionTimers
                      (<[roomCode := mkTimer (delay timer) false]> (questionTimers s)) s)).
    { intros rc t. cbn. destruct (decide (roomCode = rc)) as [->|Hne].
      - rewrite lookup_insert_eq. intros [= <-]. exact (H _ _ Ht).
      - rewrite lookup_insert_ne by exact Hne. apply H. }
    destruct (rooms s !! roomCode); exact H1.
Qed.

Lemma rooms_dispatch_settings e s r :
  dispatch e s = Some r ->
  allRooms settingsInv s -> allRooms settingsInv (post r).
Proof.
  intros Hr H. destruct e as [sid a|roomCode]; cbn [dispatch] in Hr.
  - destruct a;
      try (eapply (frame_handle settingsInv settingsInv_ext);
           [|exact Hr|exact H]; exact I);
      cbn [handle] in Hr.
    + unfold createRoom in Hr.
      destruct (pickCode _ _) as [roomCode|]; [|discriminate].
      injection Hr as <-. cbn [post ret].
      eapply allRooms_insert; [reflexivity| |exact H].
      repeat split; cbn; tauto.
    + injection Hr as <-. unfold updateSettings.
      destruct (rooms s !! roomKey sid s) as [room|] eqn:Hroom; [|exact H].
      branches; try exact H. apply allRooms_put; [|exact H].
      eapply settingsInv_ext;
        [..|apply (settingsInv_applySettings data room), (H _ _ Hroom)]; reflexivity.
  - injection Hr as <-. now apply frame_onTimeout; [apply settingsInv_ext|].
Qed.

Lemma generateQuestionsEnd_settings c outcome s r :
  generateQuestionsEnd c outcome s = Some r ->
  (allRooms settingsInv s -> allRooms settingsInv (post r)) /\
  questionTimers (post r) = questionTimers s.
Proof.
  intros Hr. unfold generateQuestionsEnd in Hr.
  destruct outcome as [qs|]; [|injection Hr as <-; now split].
  destruct (held c) as [key|room]; [|injection Hr as <-; now split].
  destruct (rooms s !! key) as [room|] eqn:Hroom; [|discriminate].
  injection Hr as <-. split; [|reflexivity].
  intros H. apply allRooms_put; [|exact H].
  eapply settingsInv_ext; [..|exact (H _ _ Hroom)]; reflexivity.
Qed.

(** X1. In every reachable state, each room's [questionTime] is one of 10,
    15, 20, 25, 30, so the [|| 30] fallbacks never fire ([maxTime] is the
    room's [questionTime]); [totalQuestions] equals [questionCount] and
    [id] equals [code]; and every handle in [questionTimers] was armed for
    10, 15, 20, 25 or 30 seconds. *)
Theorem reachable_settings :
  forall s : Server,
    reachable s ->
    (forall rc room,
        rooms s !! rc = Some room ->
        In (Room.questionTime room) [10; 15; 20; 25; 30]%float /\
        maxTimeOf room = Room.questionTime room /\
        Room.totalQuestions room = Room.questionCount room /\
        Room.id room = Room.code room) /\
    (forall rc timer,
        questionTimers s !! rc = Some timer ->
        In (delay timer) [10000; 15000; 20000; 25000; 30000]%float).
Proof.
  intros s [calls Hreach].
  assert (H : allRooms settingsInv s /\ allTimers allowedDelay s).
  { change (allRooms settingsInv (server (mkWorld s calls)) /\
            allTimers allowedDelay (server (mkWorld s calls))).
    induction Hreach as [|w st w' out _ [IHr IHt] _ Hstep].
    - split; intros rc x; cbn; now rewrite lookup_empty.
    - apply step_server in Hstep. destruct st as [e|sid|i outcome].
      + destruct Hstep as (r & Hr & ->).
        split; [now apply (rooms_dispatch_settings e (server w)) |
                now apply (timers_dispatch e (server w))].
      + rewrite Hstep. now split.
      + destruct Hstep as (c & r & _ & Hr & ->).
        destruct (generateQuestionsEnd_settings c outcome (server w) r Hr) as [Hrooms Ht].
        split; [now apply Hrooms|].
        eapply allTimers_same; [exact Ht | exact IHt]. }
  destruct H as [Hrooms Htimers]. split.
  - intros rc room Hroom. pose proof (Hrooms rc room Hroom) as Hinv.
    pose proof (settingsInv_maxTime room Hinv) as Hmax.
    destruct Hinv as (Htime & Htotal & Hid). now repeat split.
  - exact Htimers.
Qed.

Lemma reachable_settings_witness :
  rooms Sample.afterMatch !! "ABC123" = Some Sample.finishedRoom /\
  In (Room.questionTime Sample.finishedRoom) [10; 15; 20; 25; 30]%float /\
  Room.totalQuestions Sample.finishedRoom = Room.questionCount Sample.finishedRoom.
Proof.
  assert (Hroom : rooms Sample.afterMatch !! "ABC123" = Some Sample.finishedRoom)
    by (vm_compute; reflexivity).
  split; [exact Hroom|].
  destruct (proj1 (reachable_settings Sample.afterMatch afterMatch_reachable)
              "ABC123" Sample.finishedRoom Hroom) as (Htime & _ & Htotal & _).
  split; [exact Htime | exact Htotal].
Defined.

(** ** Room codes *)

Lemma upper_ascii_idempotent c : JsStr.upper_ascii (JsStr.upper_ascii c) = JsStr.upper_ascii c.
Proof. destruct c as [[] [] [] [] [] [] [] []]; reflexivity. Qed.

Lemma toUpperCase_idempotent s :
  JsStr.toUpperCase (JsStr.toUpperCase s) = JsStr.toUpperCase s.
Proof.
  induction s as [|c s IH]; [reflexivity|].
  simpl. now rewrite upper_ascii_idempotent, IH.
Qed.

Lemma pickCode_spec draws rs rc :
  pickCode draws rs = Some rc ->
  rs !! rc = None /\ exists d, In d draws /\ rc = JsStr.toUpperCase d.
Proof.
  induction draws as [|d ds IH]; simpl; [discriminate|].
  destruct (rs !! JsStr.toUpperCase d) eqn:Hd.
  - intros H. destruct (IH H) as (Hnone & d' & Hin & ->). eauto.
  - intros [= <-]. eauto.
Qed.

(** The room an action of [sid] resolves to once [socketRoomMap] maps
    [sid] to an upper-case, non-empty code. *)
Lemma roomKey_mapped sid rc s :
  socketRoomMap s !! sid = Some rc -> rc <> "" ->
  JsStr.toUpperCase rc = rc -> roomKey sid s = rc.
Proof.
  intros Hmap Hne Hup. unfold roomKey, currentRoomCode.
  rewrite Hmap, (truthy_Some _ Hne). cbn. now rewrite (falsy_false _ Hne).
Qed.

Lemma roomKey_enter sid rc room s :
  rc <> "" -> JsStr.toUpperCase rc = rc ->
  roomKey sid (post (enter sid rc room s)) = rc.
Proof.
  intros Hne Hup. apply roomKey_mapped; [|exact Hne|exact Hup].
  cbn. apply lookup_insert_eq.
Qed.

(** X2. [createRoom] never overwrites a room: the code it picks is the
    upper-case form of one of the random draws and was free, every room
    that existed is left as it was, and the new room is a waiting room
    with no questions whose only player and admin is the caller;
    [questionCount] and [totalQuestions] hold 5 when the [questionCount]
    sent is falsy and [Number(questionCount)] otherwise, whatever that
    number is (it is not clamped: ['0'] stores 0 and ['abc'] stores NaN);
    the caller alone is told, and (for a non-empty code) the caller's next
    actions resolve to the new room. *)
Theorem createRoom_fresh_room :
  forall (sid : string) (draws : list string) (now : string)
         (data : CreateRoomData.t) (s : Server) (r : Result),
    createRoom sid draws now data s = Some r ->
    exists roomCode room,
      (exists d, In d draws /\ roomCode = JsStr.toUpperCase d) /\
      rooms s !! roomCode = None /\
      rooms (post r) !! roomCode = Some room /\
      (forall rc, rc <> roomCode -> rooms (post r) !! rc = rooms s !! rc) /\
      questionTimers (post r) = questionTimers s /\
      Room.code room = roomCode /\
      Room.adminId room = sid /\
      map Player.id (Room.players room) = [sid] /\
      Room.status room = waiting /\
      Room.questions room = [] /\
      Room.questionsReady room = false /\
      Room.questionCount room =
        match CreateRoomData.questionCount data with
        | CountFalsy => 5%float
        | CountTruthy number => number
        end /\
      Room.totalQuestions room = Room.questionCount room /\
      sent r = [ToSocket sid "roomCreated"
                  (ERoomCreated room sid
                     (JsStr.or_else (CreateRoomData.clientId data) (sid ++ "-" ++ now)))] /\
      (roomCode <> "" -> roomKey sid (post r) = roomCode).
Proof.
  intros sid draws now data s r. unfold createRoom.
  destruct (pickCode draws (rooms s)) as [roomCode|] eqn:Hpick; [|discriminate].
  intros [= <-]. destruct (pickCode_spec _ _ _ Hpick) as (Hfree & d & Hin & Hd).
  eexists roomCode, _. split; [eauto|]. split; [exact Hfree|].
  split; [cbn; apply lookup_insert_eq|].
  split; [intros rc Hne; cbn; now apply lookup_insert_ne|].
  split; [reflexivity|]. split; [reflexivity|]. split; [reflexivity|].
  split; [reflexivity|]. split; [reflexivity|]. split; [reflexivity|].
  split; [reflexivity|].
  split; [cbn; now destruct (CreateRoomData.questionCount data)|].
  split; [reflexivity|]. split; [reflexivity|].
  intros Hne. apply roomKey_mapped; [cbn; apply lookup_insert_eq | exact Hne |].
  rewrite Hd. apply toUpperCase_idempotent.
Qed.

Lemma createRoom_fresh_room_witness :
  exists roomCode room,
    rooms Sample.inQuiz !! roomCode = None /\
    Room.adminId room = "s9" /\ Room.status room = waiting.
Proof.
  destruct (createRoom_fresh_room "s9" ["abc123"; "zz9"] "1700000000000"
              (CreateRoomData.mk (Some "Zoe") None None CountFalsy None) Sample.inQuiz
              _ eq_refl)
    as (roomCode & room & _ & Hfree & _ & _ & _ & _ & Hadmin & _ & Hst & _).
  exists roomCode, room. split; [exact Hfree|]. split; [exact Hadmin | exact Hst].
Defined.

(** ** Joining, rebinding and the admin role *)

(** X3. A [joinRoom] for a lobby-like room with fewer than ten players
    appends the caller as a fresh player (score 0) behind the others and
    changes nothing else in the room; the room and the caller are told, and
    the caller's next actions resolve to the room. *)
Theorem joinRoom_appends_and_binds :
  forall (s : Server) (sid now : string) (data : JoinRoomData.t)
         (rc : string) (room : Room.t),
    JsStr.toUpperCase (JsStr.or_else (JoinRoomData.roomCode data) "") = rc ->
    rc <> "" ->
    rooms s !! rc = Some room ->
    Room.lobbyLike room = true ->
    (length (Room.players room) < 10)%nat ->
    let r := joinRoom sid now data s in
    let player :=
      Player.fresh sid
        (JsStr.or_else (JoinRoomData.clientId data) (sid ++ "-" ++ now))
        (JsStr.or_else (JoinRoomData.playerName data) "Player") in
    let room' := Room.set_players (Room.players room ++ [player])%list room in
    rooms (post r) !! rc = Some room' /\
    (forall rc', rc' <> rc -> rooms (post r) !! rc' = rooms s !! rc') /\
    questionTimers (post r) = questionTimers s /\
    roomKey sid (post r) = rc /\
    sent r = [ToRoom rc "roomUpdated" (ERoom room');
              ToSocket sid "roomJoined" (ERoomJoined room' sid)].
Proof.
  intros s sid now data rc room Hrc Hne Hroom Hlobby Hlen r player room'.
  subst r. rewrite (joinRoom_lobby s sid now data rc room Hrc Hroom Hlobby).
  apply Nat.leb_gt in Hlen. rewrite Hlen.
  split; [cbn; apply lookup_insert_eq|].
  split; [intros rc' Hne'; cbn; apply lookup_insert_ne; congruence|].
  split; [reflexivity|]. split; [|reflexivity].
  apply roomKey_enter; [exact Hne|]. rewrite <- Hrc. apply toUpperCase_idempotent.
Qed.

Lemma joinRoom_appends_and_binds_witness :
  roomKey "s3" (post (joinRoom "s3" "1700000000000"
                        (JoinRoomData.mk (Some "abc123") (Some "Cy") None)
                        Sample.inLobby)) = "ABC123".
Proof.
  exact (proj1 (proj2 (proj2 (proj2
    (joinRoom_appends_and_binds Sample.inLobby "s3" "1700000000000"
       (JoinRoomData.mk (Some "abc123") (Some "Cy") None) "ABC123" Sample.lobbyRoom
       eq_refl ltac:(discriminate) eq_refl eq_refl ltac:(cbn; lia)))))).
Defined.

Lemma update_first_twice {A} (f : A -> bool) (g1 g2 : A -> A) (l : list A) :
  (forall x, f (g1 x) = f x) ->
  update_first f g2 (update_first f g1 l) = update_first f (fun x => g2 (g1 x)) l.
Proof.
  intros Hf. induction l as [|x l IH]; [reflexivity|]. simpl.
  destruct (f x) eqn:Hx; simpl.
  - now rewrite Hf, Hx.
  - now rewrite Hx, IH.
Qed.

Lemma update_first_ext {A} (f : A -> bool) (g1 g2 : A -> A) (l : list A) :
  (forall x, g1 x = g2 x) -> update_first f g1 l = update_first f g2 l.
Proof.
  intros Hg. induction l as [|x l IH]; [reflexivity|]. simpl.
  destruct (f x); now rewrite ?Hg, ?IH.
Qed.

Lemma find_update_first_same {A} (f : A -> bool) (g : A -> A) (l : list A) :
  (forall x, f (g x) = f x) ->
  find f (update_first f g l) = g <$> find f l.
Proof.
  intros Hf. induction l as [|x l IH]; [reflexivity|]. simpl.
  destruct (f x) eqn:Hx; simpl.
  - now rewrite Hf, Hx.
  - now rewrite Hx.
Qed.

(** X4. Rejoining twice with the same client id, from two sockets in a
    row, leaves the room as one rejoin from the second socket would: the
    player list keeps its length and order and only the player's [id]
    moves. *)
Theorem rejoinRoom_twice :
  forall (s : Server) (sid1 sid2 : string) (data : JoinRoomData.t)
         (rc clientId : string) (room : Room.t) (p : Player.t),
    JsStr.toUpperCase (JsStr.or_else (JoinRoomData.roomCode data) "") = rc ->
    rc <> "" ->
    JoinRoomData.clientId data = Some clientId ->
    clientId <> "" ->
    rooms s !! rc = Some room ->
    find (Player.has_clientId clientId) (Room.players room) = Some p ->
    let s1 := post (rejoinRoom sid1 data s) in
    let s2 := post (rejoinRoom sid2 data s1) in
    rooms s2 !! rc = rooms (post (rejoinRoom sid2 data s)) !! rc /\
    exists room2,
      rooms s2 !! rc = Some room2 /\
      Room.players room2 =
        update_first (Player.has_clientId clientId) (Player.set_id sid2)
          (Room.players room) /\
      length (Room.players room2) = length (Room.players room) /\
      find (Player.has_clientId clientId) (Room.players room2)
        = Some (Player.set_id sid2 p).
Proof.
  intros s sid1 sid2 data rc clientId room p Hrc Hne Hcid Hcne Hroom Hp s1 s2.
  assert (Hs1 : rooms s1 !! rc =
                Some (Room.set_players
                        (update_first (Player.has_clientId clientId) (Player.set_id sid1)
                           (Room.players room)) room)).
  { subst s1.
    rewrite (rejoinRoom_found s sid1 data rc clientId room Hrc Hne Hcid Hcne Hroom), Hp.
    cbn. apply lookup_insert_eq. }
  assert (Hs2 : rooms s2 !! rc =
                Some (Room.set_players
                        (update_first (Player.has_clientId clientId) (Player.set_id sid2)
                           (Room.players room)) room)).
  { subst s2.
    rewrite (rejoinRoom_found s1 sid2 data rc clientId _ Hrc Hne Hcid Hcne Hs1).
    cbn [Room.players Room.set_players].
    rewrite find_update_first_same, Hp by reflexivity. cbn [fmap option_fmap option_map].
    rewrite rooms_enter, lookup_insert_eq. cbn [Room.players Room.set_players].
    rewrite update_first_twice by reflexivity. reflexivity. }
  split.
  - rewrite Hs2.
    rewrite (rejoinRoom_found s sid2 data rc clientId room Hrc Hne Hcid Hcne Hroom), Hp.
    cbn. now rewrite lookup_insert_eq.
  - eexists. split; [exact Hs2|]. cbn [Room.players Room.set_players].
    split; [reflexivity|]. split; [apply length_update_first|].
    apply find_update_first; [exact Hp | apply (find_some _ _ Hp)].
Qed.

Lemma rejoinRoom_twice_witness :
  exists room2,
    rooms (post (rejoinRoom "s8" (JoinRoomData.mk (Some "abc123") (Some "Bob") (Some "cB"))
                   (post (rejoinRoom "s7"
                            (JoinRoomData.mk (Some "abc123") (Some "Bob") (Some "cB"))
                            Sample.inQuiz)))) !! "ABC123" = Some room2 /\
    length (Room.players room2) = 2%nat.
Proof.
  destruct (rejoinRoom_twice Sample.inQuiz "s7" "s8"
              (JoinRoomData.mk (Some "abc123") (Some "Bob") (Some "cB"))
              "ABC123" "cB" Sample.quizRoom Sample.bob
              eq_refl ltac:(discriminate) eq_refl ltac:(discriminate) eq_refl eq_refl)
    as (_ & room2 & Hroom & _ & Hlen & _).
  exists room2. split; [exact Hroom | exact Hlen].
Defined.

Lemma rejoinRoom_rebinds s sid data rc clientId room p :
  JsStr.toUpperCase (JsStr.or_else (JoinRoomData.roomCode data) "") = rc ->
  rc <> "" ->
  JoinRoomData.clientId data = Some clientId -> clientId <> "" ->
  rooms s !! rc = Some room ->
  find (Player.has_clientId clientId) (Room.players room) = Some p ->
  rejoinRoom sid data s =
    enter sid rc
      (Room.set_players
         (update_first (Player.has_clientId clientId) (Player.set_id sid)
            (Room.players room)) room) s.
Proof.
  intros Hrc Hne Hcid Hcne Hroom Hp.
  now rewrite (rejoinRoom_found s sid data rc clientId room Hrc Hne Hcid Hcne Hroom), Hp.
Qed.

(** X5. A rebind never moves the admin role: when [rejoinRoom] rebinds a
    player to a new socket the room's [adminId] stays as it was, so if the
    rebound player was the admin (bound to the old socket), the new socket
    is not the admin: its [startQuiz] is answered "Not authorized" and its
    [updateSettings] and [nextQuestion] are ignored. *)
Theorem rejoinRoom_keeps_adminId :
  forall (s : Server) (newSid : string) (data : JoinRoomData.t)
         (rc clientId : string) (room : Room.t) (p : Player.t),
    JsStr.toUpperCase (JsStr.or_else (JoinRoomData.roomCode data) "") = rc ->
    rc <> "" ->
    JoinRoomData.clientId data = Some clientId ->
    clientId <> "" ->
    rooms s !! rc = Some room ->
    find (Player.has_clientId clientId) (Room.players room) = Some p ->
    Room.adminId room <> newSid ->
    let s1 := post (rejoinRoom newSid data s) in
    (exists room1,
       rooms s1 !! rc = Some room1 /\
       Room.adminId room1 = Room.adminId room /\
       find (Player.has_clientId clientId) (Room.players room1)
         = Some (Player.set_id newSid p)) /\
    startQuiz newSid s1 = reject newSid "Not authorized" s1 /\
    (forall settings, updateSettings newSid settings s1 = silent s1) /\
    nextQuestion newSid s1 = silent s1.
Proof.
  intros s newSid data rc clientId room p Hrc Hne Hcid Hcne Hroom Hp Hadmin s1.
  assert (Hup : JsStr.toUpperCase rc = rc)
    by (rewrite <- Hrc; apply toUpperCase_idempotent).
  subst s1.
  rewrite (rejoinRoom_rebinds s newSid data rc clientId room p Hrc Hne Hcid Hcne Hroom Hp).
  set (room1 := Room.set_players _ room).
  assert (Hkey : roomKey newSid (post (enter newSid rc room1 s)) = rc)
    by now apply roomKey_enter.
  assert (Hroom1 : rooms (post (enter newSid rc room1 s)) !! rc = Some room1)
    by (rewrite rooms_enter; apply lookup_insert_eq).
  assert (Hneq : String.eqb (Room.adminId room1) newSid = false)
    by now apply eqb_neq_false.
  split; [|split; [|split]].
  - exists room1. split; [exact Hroom1|]. split; [reflexivity|].
    apply find_update_first; [exact Hp | apply (find_some _ _ Hp)].
  - unfold startQuiz. now rewrite Hkey, Hroom1, Hneq.
  - intros settings. unfold updateSettings. now rewrite Hkey, Hroom1, Hneq.
  - unfold nextQuestion. now rewrite Hkey, Hroom1, Hneq.
Qed.

Lemma rejoinRoom_keeps_adminId_witness :
  startQuiz "s7"
    (post (rejoinRoom "s7" (JoinRoomData.mk (Some "abc123") (Some "Ann") (Some "cA"))
             Sample.inLobbyReady))
  = reject "s7" "Not authorized"
      (post (rejoinRoom "s7" (JoinRoomData.mk (Some "abc123") (Some "Ann") (Some "cA"))
               Sample.inLobbyReady)).
Proof.
  exact (proj1 (proj2
    (rejoinRoom_keeps_adminId Sample.inLobbyReady "s7"
       (JoinRoomData.mk (Some "abc123") (Some "Ann") (Some "cA"))
       "ABC123" "cA" Sample.readyRoom Sample.ann
       eq_refl ltac:(discriminate) eq_refl ltac:(discriminate) eq_refl eq_refl
       ltac:(discriminate)))).
Defined.

Lemma findIndex_none_iff {A} (f : A -> bool) (l : list A) :
  findIndex f l = None <-> forall x, In x l -> f x = false.
Proof.
  induction l as [|y l IH]; simpl.
  - split; [intros _ x []|reflexivity].
  - destruct (f y) eqn:Hy.
    + split; [discriminate|]. intros H. rewrite (H y) in Hy; [discriminate|now left].
    + destruct (findIndex f l) as [i|]; simpl.
      * split; [discriminate|]. intros H. exfalso.
        assert (Hl : forall x, In x l -> f x = false)
          by (intros x Hx; apply H; now right).
        apply IH in Hl. discriminate.
      * split; [|reflexivity]. intros _ x [<-|Hx]; [exact Hy|].
        now apply (proj1 IH).
Qed.

Lemma update_first_unbinds (oldSid newSid cid : string) (l : list Player.t) (p : Player.t) :
  oldSid <> newSid ->
  NoDup (map Player.id l) ->
  find (Player.has_clientId cid) l = Some p ->
  Player.id p = oldSid ->
  forall x, In x (update_first (Player.has_clientId cid) (Player.set_id newSid) l) ->
            Player.has_id oldSid x = false.
Proof.
  intros Hne. induction l as [|y l IH]; simpl; [discriminate|].
  intros Hnd Hfind Hid. apply NoDup_cons in Hnd as [Hnotin Hnd].
  destruct (Player.has_clientId cid y) eqn:Hy.
  - injection Hfind as ->. intros x [<-|Hx].
    + apply String.eqb_neq. cbn. congruence.
    + apply String.eqb_neq. intros Hx'. apply Hnotin.
      rewrite Hid, <- Hx'. apply list_elem_of_In, in_map, Hx.
  - intros x [<-|Hx]; [|now apply IH].
    apply String.eqb_neq. intros Hy'. apply Hnotin.
    rewrite Hy', <- Hid. apply list_elem_of_In, in_map.
    apply (find_some _ _ Hfind).
Qed.

(** X6. The old socket's [disconnect] after a rebind removes nobody: once
    [rejoinRoom] has moved a player from the old socket to a new one (the
    players' socket ids being distinct), the [disconnect] of the old socket
    leaves every room as it is and emits nothing. *)
Theorem disconnect_after_rebind_is_harmless :
  forall (s : Server) (oldSid newSid : string) (data : JoinRoomData.t)
         (rc clientId : string) (room : Room.t) (p : Player.t),
    JsStr.toUpperCase (JsStr.or_else (JoinRoomData.roomCode data) "") = rc ->
    rc <> "" ->
    JoinRoomData.clientId data = Some clientId ->
    clientId <> "" ->
    rooms s !! rc = Some room ->
    find (Player.has_clientId clientId) (Room.players room) = Some p ->
    Player.id p = oldSid ->
    oldSid <> newSid ->
    NoDup (map Player.id (Room.players room)) ->
    socketRoomMap s !! oldSid = Some rc ->
    let s1 := post (rejoinRoom newSid data s) in
    let r := disconnect oldSid s1 in
    rooms (post r) = rooms s1 /\
    questionTimers (post r) = questionTimers s1 /\
    socketRoomMap (post r) !! oldSid = None /\
    sent r = [].
Proof.
  intros s oldSid newSid data rc clientId room p Hrc Hne Hcid Hcne Hroom Hp Hid
         Hsids Hnd Hmap s1 r.
  subst r s1.
  rewrite (rejoinRoom_rebinds s newSid data rc clientId room p Hrc Hne Hcid Hcne Hroom Hp).
  set (room1 := Room.set_players _ room).
  unfold disconnect. cbn [socketRoomMap set_socketRooms post enter ret set_socketRoomMap
    socket_join put set_rooms rooms].
  rewrite lookup_insert_ne by congruence.
  rewrite Hmap, (truthy_Some _ Hne), lookup_insert_eq.
  assert (Hnone : findIndex (Player.has_id oldSid) (Room.players room1) = None).
  { apply findIndex_none_iff. subst room1. cbn [Room.players Room.set_players].
    now apply (update_first_unbinds oldSid newSid clientId _ p). }
  rewrite Hnone. cbn. rewrite lookup_delete_eq. now repeat split.
Qed.

Lemma disconnect_after_rebind_is_harmless_witness :
  rooms (post (disconnect "s2"
                 (post (rejoinRoom "s7"
                          (JoinRoomData.mk (Some "abc123") (Some "Bob") (Some "cB"))
                          Sample.inQuiz))))
  = rooms (post (rejoinRoom "s7"
                   (JoinRoomData.mk (Some "abc123") (Some "Bob") (Some "cB"))
                   Sample.inQuiz)).
Proof.
  refine (proj1
    (disconnect_after_rebind_is_harmless Sample.inQuiz "s2" "s7"
       (JoinRoomData.mk (Some "abc123") (Some "Bob") (Some "cB"))
       "ABC123" "cB" Sample.quizRoom Sample.bob
       eq_refl ltac:(discriminate) eq_refl ltac:(discriminate) eq_refl eq_refl
       eq_refl ltac:(discriminate) _ eq_refl)).
  apply (bool_decide_unpack _). vm_compute. exact I.
Defined.

(** ** Leaving *)

(** X7. When a player who is not the admin leaves or disconnects and others
    remain, the room keeps its admin and every other field; the player
    list loses exactly the leaver's entry, the others keeping their order,
    and the room is told. *)
Theorem removal_of_non_admin :
  forall (s : Server) (sid roomCode : string) (room : Room.t) (idx : nat),
    socketRoomMap s !! sid = Some roomCode ->
    roomCode <> "" ->
    rooms s !! roomCode = Some room ->
    Room.adminId room <> sid ->
    findIndex (Player.has_id sid) (Room.players room) = Some idx ->
    delete idx (Room.players room) <> [] ->
    forall r, r = leaveRoom sid s \/ r = disconnect sid s ->
      let room' := Room.set_players (delete idx (Room.players room)) room in
      rooms (post r) !! roomCode = Some room' /\
      Room.adminId room' = Room.adminId room /\
      socketRoomMap (post r) !! sid = None /\
      sent r = [ToRoom roomCode "roomUpdated" (ERoom room')].
Proof.
  intros s sid roomCode room idx Hmap Hne Hroom Hadmin Hidx Hrest r Hr room'.
  assert (Hneq : String.eqb (Room.adminId room) sid = false)
    by now apply eqb_neq_false.
  assert (Hrm : exists s', socketRoomMap s' !! sid = None /\
                           r = removePlayer roomCode room idx false s').
  { destruct Hr as [-> | ->].
    - unfold leaveRoom. rewrite Hmap, (truthy_Some _ Hne), Hroom, Hidx.
      destruct (findIndex_lookup _ _ _ Hidx) as (p & Hp & Hid).
      rewrite Hp. apply String.eqb_eq in Hid.
      rewrite Hid, String.eqb_sym, Hneq.
      eexists. split; [|reflexivity]. cbn. apply lookup_delete_eq.
    - unfold disconnect. cbn [socketRoomMap set_socketRooms rooms].
      rewrite Hmap, (truthy_Some _ Hne), Hroom, Hidx, Hneq.
      eexists. split; [|reflexivity]. cbn. apply lookup_delete_eq. }
  destruct Hrm as (s' & Hgone & ->). subst room'.
  unfold removePlayer.
  destruct (delete idx (Room.players room)) as [|first rest] eqn:Hdel; [congruence|].
  cbn [post sent ret]. split; [apply rooms_put|]. now repeat split.
Qed.

Lemma removal_of_non_admin_witness :
  exists room',
    rooms (post (leaveRoom "s2" Sample.inQuiz)) !! "ABC123" = Some room' /\
    Room.adminId room' = "s1" /\
    map Player.name (Room.players room') = ["Ann"].
Proof.
  destruct (removal_of_non_admin Sample.inQuiz "s2" "ABC123" Sample.quizRoom 1
              eq_refl ltac:(discriminate) eq_refl ltac:(discriminate) eq_refl
              ltac:(discriminate) (leaveRoom "s2" Sample.inQuiz) (or_introl eq_refl))
    as (Hroom & Hadmin & _).
  eexists. split; [exact Hroom|]. split; [exact Hadmin | reflexivity].
Defined.

Lemma maps_removePlayer roomCode room idx wasAdmin s :
  socketRoomMap (post (removePlayer roomCode room idx wasAdmin s)) = socketRoomMap s /\
  socketRooms (post (removePlayer roomCode room idx wasAdmin s)) = socketRooms s.
Proof.
  unfold removePlayer. destruct (delete idx (Room.players room)); cbn [post ret silent].
  - unfold clearQuestionTimer. cbn. now destruct (questionTimers s !! roomCode).
  - now split.
Qed.

Lemma truthy_None_delete sid (m : gmap string string) :
  JsStr.truthy (delete sid m !! sid) = None.
Proof. now rewrite lookup_delete_eq. Qed.

(** X8. Leaving is idempotent: a second [leaveRoom] (or [disconnect]) of
    the same socket, right after the first, changes nothing and emits
    nothing, in whatever state the first one was handled. *)
Theorem leaving_twice :
  forall (s : Server) (sid : string),
    (let s1 := post (leaveRoom sid s) in
     post (leaveRoom sid s1) = s1 /\ sent (leaveRoom sid s1) = []) /\
    (let s1 := post (disconnect sid s) in
     post (disconnect sid s1) = s1 /\ sent (disconnect sid s1) = []).
Proof.
  intros s sid. split.
  - assert (H : JsStr.truthy (socketRoomMap (post (leaveRoom sid s)) !! sid) = None).
    { unfold leaveRoom.
      destruct (JsStr.truthy (socketRoomMap s !! sid)) as [roomCode|] eqn:Hmap;
        [|exact Hmap].
      destruct (rooms s !! roomCode) as [room|];
        [destruct (findIndex _ _)|];
        rewrite ?(proj1 (maps_removePlayer _ _ _ _ _)); cbn;
        apply truthy_None_delete. }
    cbv zeta. set (s1 := post (leaveRoom sid s)) in *.
    unfold leaveRoom. rewrite H. now split.
  - assert (H : JsStr.truthy (socketRoomMap (post (disconnect sid s)) !! sid) = None /\
                socketRooms (post (disconnect sid s)) !! sid = None).
    { unfold disconnect. cbn [socketRoomMap set_socketRooms rooms].
      destruct (JsStr.truthy (socketRoomMap s !! sid)) as [roomCode|] eqn:Hmap.
      - destruct (rooms s !! roomCode) as [room|];
          [destruct (findIndex _ _)|];
          rewrite ?(proj1 (maps_removePlayer _ _ _ _ _)),
                  ?(proj2 (maps_removePlayer _ _ _ _ _)); cbn;
          (split; [apply truthy_None_delete | apply lookup_delete_eq]).
      - cbn. split; [exact Hmap | apply lookup_delete_eq]. }
    destruct H as [Hmap Hrooms]. cbv zeta.
    set (s1 := post (disconnect sid s)) in *.
    unfold disconnect. cbn [socketRoomMap set_socketRooms rooms].
    rewrite Hmap. cbn [post sent silent ret]. split; [|reflexivity].
    rewrite (delete_id _ _ Hrooms). now destruct s1.
Qed.

(** ** Rooms do not interfere *)












(** ** Answers and the round timer *)

Lemma roomKey_same sid s s' :
  socketRoomMap s' = socketRoomMap s -> socketRooms s' = socketRooms s ->
  roomKey sid s' = roomKey sid s.
Proof. intros H1 H2. unfold roomKey, currentRoomCode. now rewrite H1, H2. Qed.

Lemma roomKey_clearQuestionTimer sid rc s :
  roomKey sid (clearQuestionTimer rc s) = roomKey sid s.
Proof.
  apply roomKey_same; unfold clearQuestionTimer;
    now destruct (questionTimers s !! rc).
Qed.

Lemma roomKey_startQuestionTimer sid rc room s :
  roomKey sid (startQuestionTimer rc room s) = roomKey sid s.
Proof.
  unfold startQuestionTimer.
  transitivity (roomKey sid (clearQuestionTimer rc s));
    [now apply roomKey_same | apply roomKey_clearQuestionTimer].
Qed.

(** The state [selectAnswer] leaves when its guards pass and the current
    question exists. *)
Lemma selectAnswer_accepted sid data s room player q :
  rooms s !! roomKey sid s = Some room ->
  Room.status room = quiz ->
  find (Player.has_id sid) (Room.players room) = Some player ->
  Player.answered player = false ->
  Room.questionAt room = Some q ->
  let room1 :=
    Room.set_players
      (update_first (Player.has_id sid)
         (fun p =>
            Player.grade
              (strict_eq_num (AnswerData.answer data) (Question.correctAnswer q))
              (totalPoints (AnswerData.timeRemaining data) (maxTimeOf room))
              (Player.submit (AnswerData.answer data)
                 (PrimFloat.sub (maxTimeOf room)
                    (secondsLeft (AnswerData.timeRemaining data))) p))
         (Room.players room)) room in
  let submitted :=
    ToRoom (Room.code room) "playerSubmitted" (ESubmitted sid (Player.name player)) in
  let updated := ToRoom (Room.code room) "roomUpdated" (ERoom room1) in
  selectAnswer sid data s =
    if forallb Player.answered (Room.players room1) then
      ret (clearQuestionTimer (Room.code room) (put (roomKey sid s) room1 s))
          [submitted; ToRoom (Room.code room) "allAnswered" (ERoom room1); updated]
    else ret (put (roomKey sid s) room1 s) [submitted; updated].
Proof.
  intros Hroom Hst Hfind Hans Hq. unfold selectAnswer.
  now rewrite Hroom, Hst, Hfind, Hans, Hq.
Qed.

(** X10. One answer per question: once a player's [selectAnswer] has been
    accepted, every further [selectAnswer] from the same socket, whatever
    it carries, is ignored: no state change, nothing emitted. *)
Theorem selectAnswer_only_once :
  forall (s : Server) (sid : string) (data : AnswerData.t) (room : Room.t)
         (player : Player.t) (q : Question.t),
    rooms s !! roomKey sid s = Some room ->
    Room.status room = quiz ->
    find (Player.has_id sid) (Room.players room) = Some player ->
    Player.answered player = false ->
    Room.questionAt room = Some q ->
    let s1 := post (selectAnswer sid data s) in
    forall again, selectAnswer sid again s1 = silent s1.
Proof.
  intros s sid data room player q Hroom Hst Hfind Hans Hq s1 again.
  pose proof (selectAnswer_accepted sid data s room player q Hroom Hst Hfind Hans Hq)
    as Hsel. cbv zeta in Hsel.
  set (g := fun p : Player.t => Player.grade _ _ (Player.submit _ _ p)) in Hsel.
  set (room1 := Room.set_players (update_first (Player.has_id sid) g (Room.players room)) room)
    in Hsel.
  assert (Hkey : roomKey sid s1 = roomKey sid s).
  { subst s1. rewrite Hsel. destruct (forallb _ _); cbn [post ret];
      rewrite ?roomKey_clearQuestionTimer; now apply roomKey_same. }
  assert (Hroom1 : rooms s1 !! roomKey sid s = Some room1).
  { subst s1. rewrite Hsel. destruct (forallb _ _); cbn [post ret];
      rewrite ?rooms_clearQuestionTimer; apply rooms_put. }
  assert (Hfind1 : find (Player.has_id sid) (Room.players room1) = Some (g player)).
  { apply (find_update_first (Player.has_id sid) g _ player Hfind).
    apply (find_some _ _ Hfind). }
  unfold selectAnswer. rewrite Hkey, Hroom1. cbn [Room.status room1 Room.set_players].
  rewrite Hst, Hfind1. reflexivity.
Qed.

Lemma selectAnswer_only_once_witness :
  selectAnswer "s2" (AnswerData.mk (JNum 0) (Some 30%float))
    (post (selectAnswer "s2" (AnswerData.mk (JNum 2) (Some 10%float)) Sample.inQuiz))
  = silent (post (selectAnswer "s2" (AnswerData.mk (JNum 2) (Some 10%float)) Sample.inQuiz)).
Proof.
  exact (selectAnswer_only_once Sample.inQuiz "s2" (AnswerData.mk (JNum 2) (Some 10%float))
           Sample.quizRoom Sample.bob Sample.q1 eq_refl eq_refl eq_refl eq_refl eq_refl
           (AnswerData.mk (JNum 0) (Some 30%float))).
Defined.

(** X11. An accepted answer changes nobody but the caller's player (the
    list keeps its length and every other entry).  If every player has then
    answered, the room's timer entry is deleted and ['allAnswered'] is
    broadcast between ['playerSubmitted'] and ['roomUpdated']; otherwise
    the timers are left as they were and only the two events are sent. *)
Theorem selectAnswer_closes_round_when_all_answered :
  forall (s : Server) (sid : string) (data : AnswerData.t) (room : Room.t)
         (player : Player.t) (q : Question.t),
    rooms s !! roomKey sid s = Some room ->
    Room.status room = quiz ->
    find (Player.has_id sid) (Room.players room) = Some player ->
    Player.answered player = false ->
    Room.questionAt room = Some q ->
    let r := selectAnswer sid data s in
    exists room1,
      rooms (post r) !! roomKey sid s = Some room1 /\
      length (Room.players room1) = length (Room.players room) /\
      (forall i p, Room.players room !! i = Some p -> Player.has_id sid p = false ->
                   Room.players room1 !! i = Some p) /\
      (forallb Player.answered (Room.players room1) = true ->
       questionTimers (post r) !! Room.code room = None /\
       sent r = [ToRoom (Room.code room) "playerSubmitted"
                   (ESubmitted sid (Player.name player));
                 ToRoom (Room.code room) "allAnswered" (ERoom room1);
                 ToRoom (Room.code room) "roomUpdated" (ERoom room1)]) /\
      (forallb Player.answered (Room.players room1) = false ->
       questionTimers (post r) = questionTimers s /\
       sent r = [ToRoom (Room.code room) "playerSubmitted"
                   (ESubmitted sid (Player.name player));
                 ToRoom (Room.code room) "roomUpdated" (ERoom room1)]).
Proof.
  intros s sid data room player q Hroom Hst Hfind Hans Hq r. subst r.
  rewrite (selectAnswer_accepted sid data s room player q Hroom Hst Hfind Hans Hq).
  cbv zeta.
  set (g := fun p : Player.t => Player.grade _ _ (Player.submit _ _ p)).
  set (room1 := Room.set_players (update_first (Player.has_id sid) g (Room.players room)) room).
  exists room1. split; [|split; [|split; [|split]]].
  - destruct (forallb _ _); cbn [post ret];
      rewrite ?rooms_clearQuestionTimer; apply rooms_put.
  - apply length_update_first.
  - cbn [room1 Room.players Room.set_players].
    generalize (Room.players room). clear.
    induction l as [|x l IH]; intros i p; [now destruct i|].
    simpl. destruct i as [|i]; simpl.
    + intros [= ->] Hp. now rewrite Hp.
    + intros Hi Hp. destruct (Player.has_id sid x); simpl; [exact Hi | now apply IH].
  - intros Hall. rewrite Hall. cbn [post ret sent].
    split; [apply timers_clearQuestionTimer | reflexivity].
  - intros Hsome. rewrite Hsome. now split.
Qed.

Lemma selectAnswer_closes_round_when_all_answered_witness :
  questionTimers
    (post (selectAnswer "s1" (AnswerData.mk (JNum 2) (Some 10%float)) Sample.solo))
    !! "ABC123" = None.
Proof.
  destruct (selectAnswer_closes_round_when_all_answered Sample.solo "s1"
              (AnswerData.mk (JNum 2) (Some 10%float)) Sample.soloRoom Sample.ann Sample.q1
              eq_refl eq_refl eq_refl eq_refl eq_refl)
    as (room1 & Hroom1 & _ & _ & Hall & _).
  apply Hall. vm_compute in Hroom1. injection Hroom1 as <-. reflexivity.
Defined.

Lemma expire_answered p : Player.answered (Player.expire p) = true.
Proof. unfold Player.expire. now destruct (Player.answered p) eqn:H. Qed.

Lemma expire_score p : Player.score (Player.expire p) = Player.score p.
Proof. unfold Player.expire. now destruct (Player.answered p). Qed.

(** X12. When a pending timer of a stored room fires, every player of the
    room ends up answered: whoever had answered is untouched, the others
    get the no-answer sentinel [-1] with 0 round points, and nobody's score
    or identity changes.  ['timeUp'] is broadcast with the room as it was
    and ['allAnswered'] with the room as it is; the handle stays in
    [questionTimers], spent, and firing it again does nothing. *)
Theorem timer_expiry_closes_round :
  forall (s : Server) (roomCode : string) (timer : Timer) (room : Room.t),
    questionTimers s !! roomCode = Some timer ->
    pending timer = true ->
    rooms s !! roomCode = Some room ->
    let r := onTimeout roomCode s in
    let room' := Room.set_players (map Player.expire (Room.players room)) room in
    rooms (post r) !! roomCode = Some room' /\
    forallb Player.answered (Room.players room') = true /\
    map Player.score (Room.players room') = map Player.score (Room.players room) /\
    map Player.id (Room.players room') = map Player.id (Room.players room) /\
    (forall i p, Room.players room !! i = Some p ->
       Room.players room' !! i =
         Some (if Player.answered p then p
               else Player.mk (Player.id p) (Player.clientId p) (Player.name p)
                      (Player.score p) true (JNum (-1)%float) (Player.answerTime p)
                      0%float (Player.ready p))) /\
    questionTimers (post r) !! roomCode = Some (mkTimer (delay timer) false) /\
    sent r = [ToRoom roomCode "timeUp" (ERoom room);
              ToRoom roomCode "allAnswered" (ERoom room')] /\
    onTimeout roomCode (post r) = silent (post r).
Proof.
  intros s roomCode timer room Ht Hp Hroom r room'.
  assert (Hr : r = ret (put roomCode room'
                          (set_questionTimers
                             (<[roomCode := mkTimer (delay timer) false]> (questionTimers s))
                             s))
                       [ToRoom roomCode "timeUp" (ERoom room);
                        ToRoom roomCode "allAnswered" (ERoom room')])
    by (subst r; unfold onTimeout; now rewrite Ht, Hp, Hroom).
  rewrite Hr. clear Hr r. cbn [post ret sent].
  split; [apply rooms_put|].
  split. { cbn. apply forallb_forall. intros p Hin. apply in_map_iff in Hin
             as (p0 & <- & _). apply expire_answered. }
  split. { cbn. rewrite map_map. apply map_ext, expire_score. }
  split. { cbn. rewrite map_map. apply map_ext. intros p. unfold Player.expire.
           now destruct (Player.answered p). }
  split. { intros i p Hi. cbn. rewrite list_lookup_fmap, Hi. reflexivity. }
  assert (Hspent : forall s1,
            questionTimers s1 !! roomCode = Some (mkTimer (delay timer) false) ->
            onTimeout roomCode s1 = silent s1)
    by (intros s1 H1; unfold onTimeout; now rewrite H1).
  split; [cbn; apply lookup_insert_eq|]. split; [reflexivity|].
  apply Hspent. cbn. apply lookup_insert_eq.
Qed.

Lemma timer_expiry_closes_round_witness :
  onTimeout "ABC123" (post (onTimeout "ABC123" Sample.inQuiz))
  = silent (post (onTimeout "ABC123" Sample.inQuiz)).
Proof.
  exact (proj2 (proj2 (proj2 (proj2 (proj2 (proj2 (proj2
    (timer_expiry_closes_round Sample.inQuiz "ABC123" (mkTimer 30000 true) Sample.quizRoom
       eq_refl eq_refl eq_refl)))))))).
Defined.

(** ** Moving through the quiz *)

Lemma map_reset_round_fields (ps : list Player.t) :
  map Player.score (map Player.reset_round ps) = map Player.score ps /\
  map Player.id (map Player.reset_round ps) = map Player.id ps /\
  map Player.clientId (map Player.reset_round ps) = map Player.clientId ps /\
  map Player.name (map Player.reset_round ps) = map Player.name ps /\
  forallb (fun p => negb (Player.answered p)) (map Player.reset_round ps) = true.
Proof.
  rewrite !map_map. repeat split; try (apply map_ext; reflexivity).
  apply forallb_forall. intros p Hin. apply in_map_iff in Hin as (p0 & <- & _).
  reflexivity.
Qed.

(** X13. [nextQuestion] by the admin of a running quiz moves the index on
    by one and clears every player's answer for the round while keeping
    scores, names and ids.  If the new index is past the last question the
    room becomes [finished], ['quizFinished'] is broadcast and the timers
    are left as they are (a timer still pending is not cancelled);
    otherwise the quiz goes on, ['questionUpdated'] is broadcast and the
    room's timer is re-armed for [questionTime] seconds. *)
Theorem nextQuestion_advances :
  forall (s : Server) (sid : string) (room : Room.t),
    rooms s !! roomKey sid s = Some room ->
    Room.adminId room = sid ->
    Room.status room = quiz ->
    let r := nextQuestion sid s in
    let next := (Room.currentQuestion room + 1)%Z in
    exists room',
      rooms (post r) !! roomKey sid s = Some room' /\
      Room.currentQuestion room' = next /\
      Room.players room' = map Player.reset_round (Room.players room) /\
      map Player.score (Room.players room') = map Player.score (Room.players room) /\
      map Player.id (Room.players room') = map Player.id (Room.players room) /\
      forallb (fun p => negb (Player.answered p)) (Room.players room') = true /\
      Room.questions room' = Room.questions room /\
      if (next >=? Z.of_nat (length (Room.questions room)))%Z then
        Room.status room' = finished /\
        questionTimers (post r) = questionTimers s /\
        sent r = [ToRoom (Room.code room) "quizFinished" (ERoom room')]
      else
        Room.status room' = quiz /\
        questionTimers (post r) !! Room.code room
          = Some (mkTimer (PrimFloat.mul (maxTimeOf room) 1000) true) /\
        sent r = [ToRoom (Room.code room) "questionUpdated" (ERoom room')].
Proof.
  intros s sid room Hroom Hadmin Hst r next. subst r.
  unfold nextQuestion. rewrite Hroom, Hadmin, String.eqb_refl, Hst.
  cbn [negb Room.currentQuestion Room.set_currentQuestion Room.questions
         Room.set_players Room.code].
  fold next.
  destruct (map_reset_round_fields (Room.players room)) as (Hsc & Hid & _ & _ & Hans).
  destruct (next >=? Z.of_nat (length (Room.questions room)))%Z;
    cbn [post ret sent]; eexists;
    (split; [rewrite ?rooms_startQuestionTimer; apply rooms_put|]);
    cbn; repeat split; try assumption.
  apply lookup_insert_eq.
Qed.

Lemma nextQuestion_advances_witness :
  exists room',
    rooms (post (nextQuestion "s1" Sample.inQuiz)) !! "ABC123" = Some room' /\
    Room.currentQuestion room' = 1%Z /\ Room.status room' = quiz.
Proof.
  destruct (nextQuestion_advances Sample.inQuiz "s1" Sample.quizRoom
              eq_refl eq_refl eq_refl)
    as (room' & Hroom & Hcq & _ & _ & _ & _ & _ & Hrest).
  exists room'. split; [exact Hroom|]. split; [exact Hcq|]. exact (proj1 Hrest).
Defined.

(** ** Starting a match *)

Lemma map_reset_match_fields (ps : list Player.t) :
  map Player.id (map Player.reset_match ps) = map Player.id ps /\
  map Player.clientId (map Player.reset_match ps) = map Player.clientId ps /\
  map Player.name (map Player.reset_match ps) = map Player.name ps /\
  (forall p, In p (map Player.reset_match ps) ->
             Player.score p = 0%float /\ Player.answered p = false /\
             Player.selectedAnswer p = JNull /\ Player.answerTime p = None /\
             Player.roundPoints p = 0%float /\ Player.ready p = false).
Proof.
  rewrite !map_map.
  split; [apply map_ext; reflexivity|]. split; [apply map_ext; reflexivity|].
  split; [apply map_ext; reflexivity|].
  intros p Hin. apply in_map_iff in Hin as (p0 & <- & _). now repeat split.
Qed.

(** The state [startQuiz] leaves when all its guards pass. *)
Lemma startQuiz_accepted sid s room :
  rooms s !! roomKey sid s = Some room ->
  Room.adminId room = sid ->
  Room.questions room <> [] ->
  Room.questionsReady room = true ->
  (Room.status room = finished -> Room.rematch room = true ->
   forallb Player.ready (Room.players room) = true) ->
  let room' :=
    Room.set_currentQuestion 0
      (Room.set_status quiz
         (Room.set_rematch false
            (Room.set_players (map Player.reset_match (Room.players room)) room))) in
  startQuiz sid s =
    ret (startQuestionTimer (Room.code room) room' (put (roomKey sid s) room' s))
        [ToRoom (Room.code room) "quizStarted" (ERoom room')].
Proof.
  intros Hroom Hadmin Hqs Hready Hall.
  unfold startQuiz. rewrite Hroom, Hadmin, String.eqb_refl, Hready.
  assert (Hlen : (length (Room.questions room) =? 0)%nat = false)
    by (destruct (Room.questions room); [congruence | reflexivity]).
  rewrite Hlen. cbn [negb orb].
  assert (Hgate : match Room.status room with finished => Room.rematch room | _ => false end
                  && negb (forallb Player.ready (Room.players room)) = false).
  { destruct (Room.status room) eqn:Hst; try reflexivity.
    destruct (Room.rematch room) eqn:Hre; [|reflexivity].
    now rewrite (Hall eq_refl eq_refl). }
  now rewrite Hgate.
Qed.

(** X14. [startQuiz] by the admin with ready, non-empty questions succeeds
    in every status (outside the rematch lobby no status is checked, so it
    also restarts a quiz that is running): the room goes to [quiz] at
    question 0 with [rematch] off, every player keeps name and ids and is
    reset to score 0 and not answered, the room's timer is armed for
    [questionTime] seconds, and ['quizStarted'] is broadcast.  In the
    rematch lobby this needs every player to be ready. *)
Theorem startQuiz_starts :
  forall (s : Server) (sid : string) (room : Room.t),
    rooms s !! roomKey sid s = Some room ->
    Room.adminId room = sid ->
    Room.questions room <> [] ->
    Room.questionsReady room = true ->
    (Room.status room = finished -> Room.rematch room = true ->
     forallb Player.ready (Room.players room) = true) ->
    let r := startQuiz sid s in
    exists room',
      rooms (post r) !! roomKey sid s = Some room' /\
      Room.status room' = quiz /\
      Room.currentQuestion room' = 0%Z /\
      Room.rematch room' = false /\
      Room.questions room' = Room.questions room /\
      Room.players room' = map Player.reset_match (Room.players room) /\
      map Player.id (Room.players room') = map Player.id (Room.players room) /\
      map Player.name (Room.players room') = map Player.name (Room.players room) /\
      (forall p, In p (Room.players room') ->
                 Player.score p = 0%float /\ Player.answered p = false) /\
      questionTimers (post r) !! Room.code room
        = Some (mkTimer (PrimFloat.mul (maxTimeOf room) 1000) true) /\
      sent r = [ToRoom (Room.code room) "quizStarted" (ERoom room')].
Proof.
  intros s sid room Hroom Hadmin Hqs Hready Hall r. subst r.
  rewrite (startQuiz_accepted sid s room Hroom Hadmin Hqs Hready Hall). cbv zeta.
  destruct (map_reset_match_fields (Room.players room)) as (Hid & _ & Hname & Hzero).
  eexists. cbn [post ret sent].
  split; [rewrite rooms_startQuestionTimer; apply rooms_put|].
  cbn. repeat split; try assumption; try (now apply Hzero).
  apply lookup_insert_eq.
Qed.

Lemma startQuiz_starts_witness :
  exists room',
    rooms (post (startQuiz "s1" Sample.inQuiz)) !! "ABC123" = Some room' /\
    Room.status room' = quiz /\ Room.currentQuestion room' = 0%Z.
Proof.
  destruct (startQuiz_starts Sample.inQuiz "s1" Sample.quizRoom
              eq_refl eq_refl ltac:(discriminate) eq_refl ltac:(discriminate))
    as (room' & Hroom & Hst & Hcq & _).
  exists room'. split; [exact Hroom|]. split; [exact Hst | exact Hcq].
Defined.

(** X15. [playAgain] by any player of the room, in any status, turns
    [rematch] on, marks the caller ready and turns [questionsReady] off,
    while status, questions, index, admin and every score stay as they are;
    the room is told and the caller gets ['goToLobby'].  The admin's
    [startQuiz] is then answered "Generate questions first", although the
    old questions are still stored, and changes nothing. *)
Theorem playAgain_forces_regeneration :
  forall (s : Server) (sid adminSid : string) (room : Room.t) (player : Player.t),
    rooms s !! roomKey sid s = Some room ->
    find (Player.has_id sid) (Room.players room) = Some player ->
    roomKey adminSid s = roomKey sid s ->
    Room.adminId room = adminSid ->
    let r := playAgain sid s in
    let s1 := post r in
    exists room',
      rooms s1 !! roomKey sid s = Some room' /\
      Room.rematch room' = true /\
      Room.questionsReady room' = false /\
      find (Player.has_id sid) (Room.players room') = Some (Player.set_ready player) /\
      Room.status room' = Room.status room /\
      Room.questions room' = Room.questions room /\
      Room.currentQuestion room' = Room.currentQuestion room /\
      Room.adminId room' = Room.adminId room /\
      map Player.score (Room.players room') = map Player.score (Room.players room) /\
      sent r = [ToRoom (Room.code room) "roomUpdated" (ERoom room');
                ToSocket sid "goToLobby" (ERoom room')] /\
      startQuiz adminSid s1 = reject adminSid "Generate questions first" s1.
Proof.
  intros s sid adminSid room player Hroom Hfind Hkey Hadmin r s1. subst s1 r.
  unfold playAgain. rewrite Hroom, Hfind. cbn [post ret sent].
  eexists. split; [apply rooms_put|].
  cbn [Room.rematch Room.questionsReady Room.players Room.status Room.questions
         Room.currentQuestion Room.adminId Room.code Room.set_questionsReady
         Room.set_players Room.set_rematch].
  split; [reflexivity|]. split; [reflexivity|].
  split; [apply find_update_first; [exact Hfind | apply (find_some _ _ Hfind)]|].
  split; [reflexivity|]. split; [reflexivity|]. split; [reflexivity|].
  split; [reflexivity|]. split.
  { generalize (Room.players room). clear. induction l as [|x l IH]; [reflexivity|].
    simpl. destruct (Player.has_id sid x); simpl; [reflexivity | now rewrite IH]. }
  split; [reflexivity|].
  unfold startQuiz.
  replace (roomKey adminSid (put (roomKey sid s) _ s)) with (roomKey sid s)
    by (rewrite <- Hkey; symmetry; now apply roomKey_same).
  rewrite rooms_put. cbn [Room.adminId Room.questionsReady Room.questions
    Room.set_questionsReady Room.set_players Room.set_rematch].
  rewrite Hadmin, String.eqb_refl. cbn [negb]. now rewrite orb_true_r.
Qed.

Lemma playAgain_forces_regeneration_witness :
  startQuiz "s1" (post (playAgain "s2" Sample.inLobbyReady))
  = reject "s1" "Generate questions first" (post (playAgain "s2" Sample.inLobbyReady)).
Proof.
  destruct (playAgain_forces_regeneration Sample.inLobbyReady "s2" "s1" Sample.readyRoom
              Sample.bob eq_refl eq_refl eq_refl eq_refl)
    as (room' & _ & _ & _ & _ & _ & _ & _ & _ & _ & _ & H).
  exact H.
Defined.

(** ** Generating questions *)

(** X16. Generate, then start: when the admin's [generateQuestions]
    succeeds with a non-empty list in a lobby-like room, the room holds
    exactly that list with [questionsReady] on, the room is told three
    times (['generatingQuestions'], ['questionsGenerated'],
    ['roomUpdated']), and the admin's [startQuiz] right after it puts the
    room in [quiz] at question 0 with that list (in the rematch lobby,
    provided every player is ready). *)
Theorem generate_then_start :
  forall (s : Server) (sid : string) (room : Room.t) (qs : list Question.t),
    rooms s !! roomKey sid s = Some room ->
    Room.adminId room = sid ->
    Room.lobbyLike room = true ->
    qs <> [] ->
    (Room.status room = finished ->
     forallb Player.ready (Room.players room) = true) ->
    let r1 := generateQuestions sid (Some qs) s in
    let r2 := startQuiz sid (post r1) in
    (exists room1,
       rooms (post r1) !! roomKey sid s = Some room1 /\
       Room.questions room1 = qs /\ Room.questionsReady room1 = true /\
       Room.status room1 = Room.status room /\
       sent r1 = [ToRoom (Room.code room) "generatingQuestions" (ERoomCode (Room.code room));
                  ToRoom (Room.code room) "questionsGenerated" (ERoom room1);
                  ToRoom (Room.code room) "roomUpdated" (ERoom room1)]) /\
    (exists room2,
       rooms (post r2) !! roomKey sid s = Some room2 /\
       Room.status room2 = quiz /\ Room.currentQuestion room2 = 0%Z /\
       Room.questions room2 = qs /\
       sent r2 = [ToRoom (Room.code room) "quizStarted" (ERoom room2)]).
Proof.
  intros s sid room qs Hroom Hadmin Hlobby Hqs Hall r1 r2. subst r2 r1.
  assert (H1 : generateQuestions sid (Some qs) s =
               let room1 := Room.set_questionsReady true (Room.set_questions qs room) in
               ret (put (roomKey sid s) room1 s)
                 [ToRoom (Room.code room) "generatingQuestions" (ERoomCode (Room.code room));
                  ToRoom (Room.code room) "questionsGenerated" (ERoom room1);
                  ToRoom (Room.code room) "roomUpdated" (ERoom room1)])
    by (unfold generateQuestions; now rewrite Hroom, Hadmin, String.eqb_refl, Hlobby).
  rewrite H1. cbv zeta. cbn [post ret sent].
  set (room1 := Room.set_questionsReady true (Room.set_questions qs room)).
  split.
  { exists room1. split; [apply rooms_put|]. now repeat split. }
  assert (Hkey : roomKey sid (put (roomKey sid s) room1 s) = roomKey sid s)
    by now apply roomKey_same.
  assert (Hroom1 : rooms (put (roomKey sid s) room1 s)
                     !! roomKey sid (put (roomKey sid s) room1 s) = Some room1)
    by (rewrite Hkey; apply rooms_put).
  rewrite (startQuiz_accepted sid _ room1 Hroom1 Hadmin Hqs eq_refl).
  - cbv zeta. cbn [post ret sent]. eexists.
    split; [rewrite rooms_startQuestionTimer, Hkey; apply rooms_put|].
    now repeat split.
  - intros Hst _. apply Hall. exact Hst.
Qed.

Lemma generate_then_start_witness :
  exists room2,
    rooms (post (startQuiz "s1"
                   (post (generateQuestions "s1" (Some [Sample.q1]) Sample.inLobby))))
      !! "ABC123" = Some room2 /\
    Room.status room2 = quiz /\ Room.questions room2 = [Sample.q1].
Proof.
  destruct (generate_then_start Sample.inLobby "s1" Sample.lobbyRoom [Sample.q1]
              eq_refl eq_refl eq_refl ltac:(discriminate) ltac:(discriminate))
    as (_ & room2 & Hroom & Hst & _ & Hqs & _).
  exists room2. split; [exact Hroom|]. split; [exact Hst | exact Hqs].
Defined.

(** X17. Generation that yields nothing usable.  When the generator fails,
    the state is exactly as before; the room has already been told
    ['generatingQuestions'] and only the caller gets the ['error'].  When
    it succeeds with an empty list, [questionsReady] is turned on all the
    same, yet the admin's [startQuiz] is still answered "Generate questions
    first". *)
Theorem generate_without_questions :
  forall (s : Server) (sid : string) (room : Room.t),
    rooms s !! roomKey sid s = Some room ->
    Room.adminId room = sid ->
    Room.lobbyLike room = true ->
    (post (generateQuestions sid None s) = s /\
     sent (generateQuestions sid None s)
       = [ToRoom (Room.code room) "generatingQuestions" (ERoomCode (Room.code room));
          ToSocket sid "error" (EMessage "Failed to generate questions")]) /\
    (let s1 := post (generateQuestions sid (Some []) s) in
     (exists room1, rooms s1 !! roomKey sid s = Some room1 /\
                    Room.questionsReady room1 = true /\ Room.questions room1 = []) /\
     startQuiz sid s1 = reject sid "Generate questions first" s1).
Proof.
  intros s sid room Hroom Hadmin Hlobby.
  unfold generateQuestions. rewrite Hroom, Hadmin, String.eqb_refl, Hlobby.
  cbn [negb post sent ret]. split; [now split|].
  set (room1 := Room.set_questionsReady true (Room.set_questions [] room)).
  split.
  - exists room1. split; [apply rooms_put | now split].
  - unfold startQuiz.
    replace (roomKey sid (put (roomKey sid s) room1 s)) with (roomKey sid s)
      by (symmetry; now apply roomKey_same).
    rewrite rooms_put. cbn [room1 Room.adminId Room.set_questionsReady Room.set_questions
      Room.questions]. now rewrite Hadmin, String.eqb_refl.
Qed.

Lemma generate_without_questions_witness :
  post (generateQuestions "s1" None Sample.inLobby) = Sample.inLobby.
Proof.
  exact (proj1 (proj1 (generate_without_questions Sample.inLobby "s1" Sample.lobbyRoom
                         eq_refl eq_refl eq_refl))).
Defined.

(** ** The question count accepted by [updateSettings] *)

Lemma ltb_irrefl_of_leb (x y : float) :
  PrimFloat.leb x y = true -> PrimFloat.ltb y x = false.
Proof.
  rewrite FloatAxioms.leb_spec, FloatAxioms.ltb_spec.
  unfold SpecFloat.SFleb, SpecFloat.SFltb.
  destruct (SpecFloat.SFcompare (FloatOps.Prim2SF x) (FloatOps.Prim2SF y))
    as [c|] eqn:Hc; [|discriminate].
  rewrite (SFcompare_antisym _ _ _ Hc). now destruct c.
Qed.

Lemma leb_not_nan (x y : float) :
  PrimFloat.leb x y = true -> PrimFloat.is_nan y = false.
Proof.
  unfold PrimFloat.is_nan.
  rewrite FloatAxioms.leb_spec, FloatAxioms.eqb_spec.
  unfold SpecFloat.SFleb, SpecFloat.SFeqb.
  destruct (FloatOps.Prim2SF y) as [sy|sy| |sy my ey].
  - intros _. now destruct sy.
  - intros _. now destruct sy.
  - now destruct (FloatOps.Prim2SF x).
  - intros _. cbn. rewrite Z.compare_refl.
    destruct sy; cbn; rewrite ?Pos.compare_cont_refl; try reflexivity;
      unfold Pos.compare; rewrite Pos.compare_cont_refl; reflexivity.
Qed.

(** A count between 1 and 20 goes through the clamp as it is. *)
Lemma clamp_id (n : float) :
  PrimFloat.leb 1 n = true -> PrimFloat.leb n 20 = true ->
  JsNum.max 1 (JsNum.min 20 n) = n.
Proof.
  intros H1 H20.
  pose proof (leb_not_nan _ _ H1) as Hn.
  assert (Hmin : JsNum.min 20 n = n).
  { unfold JsNum.min. rewrite Hn.
    change (PrimFloat.is_nan 20) with false. cbn [orb].
    rewrite (ltb_irrefl_of_leb _ _ H20).
    destruct (PrimFloat.ltb n 20); [reflexivity|].
    change (JsNum.is_neg_zero 20) with false. reflexivity. }
  rewrite Hmin. unfold JsNum.max. rewrite Hn.
  change (PrimFloat.is_nan 1) with false. cbn [orb].
  destruct (PrimFloat.ltb 1 n) eqn:Hlt; [reflexivity|].
  rewrite (ltb_irrefl_of_leb _ _ H1).
  change (JsNum.is_neg_zero 1) with false. cbv iota.
  symmetry. eapply (eqb_finite_eq 1 n); [vm_compute; reflexivity|].
  apply not_ltb_eqb; [reflexivity | exact Hn | exact Hlt |].
  exact (ltb_irrefl_of_leb _ _ H1).
Qed.

Lemma questionCount_applySettings data room :
  match SettingsData.questionCount data with
  | JNum n =>
      Room.questionCount (applySettings data room) = JsNum.max 1 (JsNum.min 20 n) /\
      Room.totalQuestions (applySettings data room) = JsNum.max 1 (JsNum.min 20 n)
  | _ =>
      Room.questionCount (applySettings data room) = Room.questionCount room /\
      Room.totalQuestions (applySettings data room) = Room.totalQuestions room
  end.
Proof.
  unfold applySettings.
  destruct (SettingsData.topic data), (SettingsData.difficulty data),
    (SettingsData.questionCount data), (SettingsData.questionTime data);
    split; reflexivity.
Qed.

(** X18. What [updateSettings] stores as the question count.  For the
    admin of a lobby-like room: a payload whose [questionCount] is not a
    number leaves [questionCount] and [totalQuestions] as they were; a
    number is stored in both after clamping, so that the stored value lies
    between 1 and 20 unless the number is [NaN], which is stored as [NaN];
    a number already between 1 and 20 is stored unchanged, whether it is
    an integer or not. *)
Theorem updateSettings_question_count :
  forall (s : Server) (sid : string) (room : Room.t) (data : SettingsData.t),
    rooms s !! roomKey sid s = Some room ->
    Room.adminId room = sid ->
    Room.lobbyLike room = true ->
    exists room',
      rooms (post (updateSettings sid data s)) !! roomKey sid s = Some room' /\
      match SettingsData.questionCount data with
      | JNum n =>
          Room.totalQuestions room' = Room.questionCount room' /\
          (PrimFloat.is_nan n = false ->
           PrimFloat.leb 1 (Room.questionCount room') = true /\
           PrimFloat.leb (Room.questionCount room') 20 = true) /\
          (PrimFloat.is_nan n = true ->
           PrimFloat.is_nan (Room.questionCount room') = true) /\
          (PrimFloat.leb 1 n = true -> PrimFloat.leb n 20 = true ->
           Room.questionCount room' = n)
      | _ =>
          Room.questionCount room' = Room.questionCount room /\
          Room.totalQuestions room' = Room.totalQuestions room
      end.
Proof.
  intros s sid room data Hroom Hadmin Hlobby.
  unfold updateSettings. rewrite Hroom, Hadmin, String.eqb_refl, Hlobby.
  cbn [negb post ret]. eexists. split; [apply rooms_put|].
  cbn [Room.questionCount Room.totalQuestions Room.set_questionsReady Room.set_questions].
  pose proof (questionCount_applySettings data room) as H.
  destruct (SettingsData.questionCount data) as [| | |n|]; try exact H.
  destruct H as [-> ->]. split; [reflexivity|]. split; [apply clamp_bounds|].
  split; [apply clamp_nan | apply clamp_id].
Qed.

Lemma updateSettings_question_count_witness :
  exists room',
    rooms (post (updateSettings "s1"
                   (SettingsData.mk JUndefined JUndefined (JNum 500) JUndefined)
                   Sample.inLobby)) !! "ABC123" = Some room' /\
    PrimFloat.leb (Room.questionCount room') 20 = true.
Proof.
  destruct (updateSettings_question_count Sample.inLobby "s1" Sample.lobbyRoom
              (SettingsData.mk JUndefined JUndefined (JNum 500) JUndefined)
              eq_refl eq_refl eq_refl) as (room' & Hroom & _ & Hb & _).
  exists room'. split; [exact Hroom | exact (proj2 (Hb eq_refl))].
Defined.

(** ** The connection rate limiter *)

Lemma limiter_other h now t ip :
  RateLimit.clientIp h <> ip ->
  fst (RateLimit.limiter h now t) !! ip = t !! ip.
Proof.
  intros Hne. unfold RateLimit.limiter. cbv zeta.
  destruct (20 <? _)%nat; cbn [fst]; now rewrite lookup_insert_ne.
Qed.

(** What the limiter does to the entry of the address it counts. *)
Lemma limiter_same h now t :
  let e := default (RateLimit.mkEntry 0 (now + 60000)) (t !! RateLimit.clientIp h) in
  let c := if (RateLimit.resetAt e <? now)%Z then 0%nat else RateLimit.count e in
  let r := if (RateLimit.resetAt e <? now)%Z then (now + 60000)%Z else RateLimit.resetAt e in
  fst (RateLimit.limiter h now t) !! RateLimit.clientIp h
    = Some (RateLimit.mkEntry (c + 1) r) /\
  snd (RateLimit.limiter h now t) = RateLimit.nth_verdict c.
Proof.
  cbv zeta. unfold RateLimit.limiter. cbv zeta.
  set (e := default _ _).
  set (e' := if (RateLimit.resetAt e <? now)%Z
             then RateLimit.mkEntry 0 (now + 60000) else e).
  replace (if (RateLimit.resetAt e <? now)%Z then 0%nat else RateLimit.count e)
    with (RateLimit.count e')
    by (subst e'; destruct (_ <? _)%Z; reflexivity).
  replace (if (RateLimit.resetAt e <? now)%Z then (now + 60000)%Z else RateLimit.resetAt e)
    with (RateLimit.resetAt e')
    by (subst e'; destruct (_ <? _)%Z; reflexivity).
  cbn [RateLimit.count RateLimit.resetAt]. unfold RateLimit.nth_verdict.
  destruct (Nat.ltb_spec 20 (RateLimit.count e' + 1)),
           (Nat.ltb_spec (RateLimit.count e') 20); try lia; cbn [fst snd];
    (split; [apply lookup_insert_eq | reflexivity]).
Qed.

Lemma limiter_entry h now t t' :
  t !! RateLimit.clientIp h = t' !! RateLimit.clientIp h ->
  fst (RateLimit.limiter h now t) !! RateLimit.clientIp h
    = fst (RateLimit.limiter h now t') !! RateLimit.clientIp h /\
  snd (RateLimit.limiter h now t) = snd (RateLimit.limiter h now t').
Proof.
  intros Heq.
  destruct (limiter_same h now t) as [H1 H2], (limiter_same h now t') as [H3 H4].
  rewrite H1, H2, H3, H4, Heq. now split.
Qed.

(** X19. One address's traffic never touches another's quota: the
    verdicts handed to the connections counted under an address are the
    ones they would get if they were the only traffic, whatever the
    tracker holds for other addresses. *)
Theorem limiter_isolates_addresses :
  forall (ip : option string) (attempts : list (RateLimit.Handshake * Z))
         (t t' : gmap (option string) RateLimit.Entry),
    t !! ip = t' !! ip ->
    RateLimit.verdictsFor ip attempts t
      = RateLimit.verdictsFor ip (filter (fun a => RateLimit.clientIp (fst a) = ip) attempts) t'.
Proof.
  intros ip attempts. induction attempts as [|[h now] rest IH]; intros t t' Heq.
  - reflexivity.
  - cbn [RateLimit.verdictsFor]. rewrite filter_cons.
    cbn [fst].
    destruct (RateLimit.limiter h now t) as [t1 v] eqn:H1.
    destruct (decide (RateLimit.clientIp h = ip)) as [Hip|Hne].
    +
      cbn [RateLimit.verdictsFor].
      destruct (RateLimit.limiter h now t') as [t1' v'] eqn:H1'.
      rewrite decide_True by exact Hip.
      subst ip. destruct (limiter_entry h now t t' Heq) as [He Hv].
      rewrite H1, H1' in He, Hv. cbn [fst snd] in He, Hv. subst v'.
      f_equal. now apply IH.
    +       apply IH. rewrite <- Heq.
      pose proof (limiter_other h now t ip Hne) as Ho.
      now rewrite H1 in Ho.
Qed.

Lemma limiter_isolates_addresses_witness :
  RateLimit.verdictsFor (Some "10.0.0.1")
    [(RateLimit.mkHandshake RateLimit.Absent (Some "10.0.0.2"), 5%Z);
     (RateLimit.mkHandshake (RateLimit.Single "10.0.0.1, 10.9.9.9") None, 7%Z)] ∅
  = RateLimit.verdictsFor (Some "10.0.0.1")
      [(RateLimit.mkHandshake (RateLimit.Single "10.0.0.1, 10.9.9.9") None, 7%Z)] ∅.
Proof.
  exact (limiter_isolates_addresses (Some "10.0.0.1")
           [(RateLimit.mkHandshake RateLimit.Absent (Some "10.0.0.2"), 5%Z);
            (RateLimit.mkHandshake (RateLimit.Single "10.0.0.1, 10.9.9.9") None, 7%Z)]
           ∅ ∅ eq_refl).
Defined.

(** Inside a window that has not run out, the counter just goes up. *)
Lemma window_run ip attempts :
  forall c r t,
    t !! ip = Some (RateLimit.mkEntry c r) ->
    Forall (fun a => RateLimit.clientIp (fst a) = ip -> (snd a <= r)%Z) attempts ->
    let n := length (filter (fun a => RateLimit.clientIp (fst a) = ip) attempts) in
    RateLimit.verdictsFor ip attempts t
      = map (fun k => RateLimit.nth_verdict (c + k)) (seq 0 n) /\
    RateLimit.serve attempts t !! ip = Some (RateLimit.mkEntry (c + n) r).
Proof.
  induction attempts as [|[h now] rest IH]; intros c r t Ht Hall; cbv zeta.
  - cbn. now rewrite Nat.add_0_r.
  - apply Forall_cons in Hall as [Hnow Hrest]. cbn [fst snd] in Hnow.
    cbn [RateLimit.verdictsFor RateLimit.serve]. rewrite filter_cons.
    cbn [fst].
    destruct (RateLimit.limiter h now t) as [t1 v] eqn:H1. cbn [fst].
    destruct (decide (RateLimit.clientIp h = ip)) as [Hip|Hne].
    + cbn [length seq map].
      pose proof (limiter_same h now t) as Hs. cbv zeta in Hs.
      rewrite H1, Hip, Ht in Hs. cbn [default from_option id fst snd RateLimit.resetAt RateLimit.count] in Hs.
      assert (Hlt : (r <? now)%Z = false) by (apply Z.ltb_ge; now apply Hnow).
      rewrite Hlt in Hs. destruct Hs as [He Hv].
      destruct (IH (c + 1)%nat r t1 He Hrest) as [IH1 IH2].
      rewrite IH1, IH2, Hv, Nat.add_0_r. split.
      * f_equal. rewrite <- seq_shift, map_map. apply map_ext. intros k.
        f_equal. lia.
      * do 2 f_equal. lia.
    +       apply IH; [|exact Hrest].
      pose proof (limiter_other h now t ip Hne) as Ho.
      rewrite H1 in Ho. cbn [fst] in Ho. now rewrite Ho.
Qed.

(** X20. Twenty connections per window.  From the first connection of an
    address the tracker has not seen, and as long as the following ones
    arrive no later than 60000 ms after it, exactly the first 20
    connections of that address pass and every later one gets
    "Rate limit exceeded", whatever other addresses do in between.  The
    first connection that arrives after those 60000 ms passes again and
    opens a new window. *)
Theorem limiter_quota_per_window :
  forall (ip : option string) (h0 : RateLimit.Handshake) (t0 : Z)
         (rest : list (RateLimit.Handshake * Z)) (t : gmap (option string) RateLimit.Entry),
    t !! ip = None ->
    RateLimit.clientIp h0 = ip ->
    Forall (fun a => RateLimit.clientIp (fst a) = ip -> (snd a <= t0 + 60000)%Z) rest ->
    let attempts := (h0, t0) :: rest in
    let n := length (filter (fun a => RateLimit.clientIp (fst a) = ip) attempts) in
    RateLimit.verdictsFor ip attempts t = map RateLimit.nth_verdict (seq 0 n) /\
    forall h1 t1,
      RateLimit.clientIp h1 = ip -> (t0 + 60000 < t1)%Z ->
      snd (RateLimit.limiter h1 t1 (RateLimit.serve attempts t)) = RateLimit.Next /\
      fst (RateLimit.limiter h1 t1 (RateLimit.serve attempts t)) !! ip
        = Some (RateLimit.mkEntry 1 (t1 + 60000)).
Proof.
  intros ip h0 t0 rest t Hfresh Hip Hall attempts n. subst n attempts.
  cbn [RateLimit.verdictsFor RateLimit.serve]. rewrite filter_cons.
  cbn [fst].
  destruct (RateLimit.limiter h0 t0 t) as [t1 v] eqn:H1. cbn [fst].
  rewrite !decide_True by exact Hip.
  pose proof (limiter_same h0 t0 t) as Hs. cbv zeta in Hs.
  rewrite H1, Hip, Hfresh in Hs. cbn [default from_option id fst snd RateLimit.resetAt RateLimit.count] in Hs.
  assert (Hlt : (t0 + 60000 <? t0)%Z = false) by (apply Z.ltb_ge; lia).
  rewrite Hlt in Hs. destruct Hs as [He Hv]. cbn [Nat.add] in He.
  destruct (window_run ip rest 1 (t0 + 60000)%Z t1 He Hall) as [Hrun Hend].
  cbv zeta in Hrun, Hend. split.
  - rewrite Hrun, Hv. cbn [length seq map]. f_equal.
    rewrite <- seq_shift, map_map. reflexivity.
  - intros h1 t1' Hip1 Hlate.
    pose proof (limiter_same h1 t1' (RateLimit.serve rest t1)) as Hs. cbv zeta in Hs.
    rewrite Hip1, Hend in Hs. cbn [default from_option id RateLimit.resetAt RateLimit.count] in Hs.
    assert (Hlt' : (t0 + 60000 <? t1')%Z = true) by (apply Z.ltb_lt; lia).
    rewrite Hlt' in Hs. destruct Hs as [He' Hv']. now split.
Qed.

Lemma limiter_quota_per_window_witness :
  RateLimit.verdictsFor (Some "10.0.0.1")
    (repeat (RateLimit.mkHandshake RateLimit.Absent (Some "10.0.0.1"), 1000%Z) 22) ∅
  = map RateLimit.nth_verdict (seq 0 22).
Proof.
  exact (proj1 (limiter_quota_per_window (Some "10.0.0.1")
                  (RateLimit.mkHandshake RateLimit.Absent (Some "10.0.0.1")) 1000
                  (repeat (RateLimit.mkHandshake RateLimit.Absent (Some "10.0.0.1"), 1000%Z) 21)
                  ∅ eq_refl eq_refl
                  ltac:(repeat constructor; cbn; lia))).
Defined.

Lemma passes_app vs ws :
  RateLimit.passes (vs ++ ws) = (RateLimit.passes vs + RateLimit.passes ws)%nat.
Proof.
  induction vs as [|[|m] vs IH]; cbn [app RateLimit.passes]; rewrite ?IH; reflexivity.
Qed.

Lemma passes_length vs : (RateLimit.passes vs <= length vs)%nat.
Proof. induction vs as [|[|m] vs IH]; cbn [RateLimit.passes length]; lia. Qed.

(** The number of connections let through in what is left of a window. *)
Lemma passes_window ip attempts :
  forall c r t,
    t !! ip = Some (RateLimit.mkEntry c r) ->
    Forall (fun a => RateLimit.clientIp (fst a) = ip -> (snd a <= r)%Z) attempts ->
    (RateLimit.passes (RateLimit.verdictsFor ip attempts t) <= 20 - c)%nat.
Proof.
  intros c r t Ht Hall.
  destruct (window_run ip attempts c r t Ht Hall) as [-> _]. cbv zeta.
  generalize (length (filter (fun a => RateLimit.clientIp (fst a) = ip) attempts)) as n.
  intros n. clear Ht Hall. revert c.
  induction n as [|n IH]; intros c; [cbn; lia|].
  rewrite seq_S, map_app, passes_app. cbn [map Nat.add].
  specialize (IH c). unfold RateLimit.nth_verdict at 2.
  destruct (Nat.ltb_spec (c + n) 20); cbn [RateLimit.passes].
  - pose proof (passes_length (map (fun k => RateLimit.nth_verdict (c + k)) (seq 0 n))) as Hl.
    rewrite length_map, length_seq in Hl. lia.
  - lia.
Qed.

(** X21. The limit is per fixed window, not per sliding minute: among the
    connections of one address handled at times that all lie within some
    60000 ms span, at most 40 pass whatever the tracker held before, and at
    most 20 when the tracker had not seen the address. *)
Theorem limiter_bound_in_any_minute :
  forall (ip : option string) (a : Z) (attempts : list (RateLimit.Handshake * Z))
         (t : gmap (option string) RateLimit.Entry),
    Forall (fun x => RateLimit.clientIp (fst x) = ip ->
                     (a <= snd x <= a + 60000)%Z) attempts ->
    let through := RateLimit.passes (RateLimit.verdictsFor ip attempts t) in
    (through <= 40)%nat /\ (t !! ip = None -> (through <= 20)%nat).
Proof.
  intros ip a attempts t Hall through. subst through.
  assert (Hgen : forall t,
    (RateLimit.passes (RateLimit.verdictsFor ip attempts t)
     <= match t !! ip with
        | None => 20
        | Some e => (20 - RateLimit.count e) + 20
        end)%nat).
  { clear t. induction attempts as [|[h now] rest IH]; intros t.
    - cbn. destruct (t !! ip); lia.
    - apply Forall_cons in Hall as [Hnow Hrest]. cbn [fst snd] in Hnow.
      specialize (IH Hrest).
      cbn [RateLimit.verdictsFor].
      destruct (RateLimit.limiter h now t) as [t1 v] eqn:H1.
      destruct (decide (RateLimit.clientIp h = ip)) as [Hip|Hne].
      + specialize (Hnow Hip).
        pose proof (limiter_same h now t) as Hs. cbv zeta in Hs.
        rewrite H1, Hip in Hs. cbn [fst snd] in Hs.
        set (e := default (RateLimit.mkEntry 0 (now + 60000)) (t !! ip)) in *.
        destruct Hs as [He Hv].
        destruct (RateLimit.resetAt e <? now)%Z eqn:Hreset.
        * (* a new window opens and covers the rest of the span *)
          assert (Hw : Forall (fun x => RateLimit.clientIp (fst x) = ip ->
                                        (snd x <= now + 60000)%Z) rest).
          { eapply Forall_impl; [exact Hrest|]. cbn. intros x Hx Hxip.
            specialize (Hx Hxip). lia. }
          pose proof (passes_window ip rest _ _ t1 He Hw) as Hb.
          subst v. cbn [RateLimit.nth_verdict Nat.ltb Nat.leb RateLimit.passes].
          destruct (t !! ip) as [e0|]; cbn in Hb |- *; lia.
        * destruct (t !! ip) as [e0|] eqn:Ht; cbn [default from_option id] in e; subst e.
          -- specialize (IH t1). rewrite He in IH.
             cbn [RateLimit.count] in IH. subst v.
             unfold RateLimit.nth_verdict.
             destruct (Nat.ltb_spec (RateLimit.count e0) 20); cbn [RateLimit.passes]; lia.
          -- (* first sight of the address: its window covers the span *)
             cbn [RateLimit.resetAt RateLimit.count] in He, Hv.
             assert (Hw : Forall (fun x => RateLimit.clientIp (fst x) = ip ->
                                           (snd x <= now + 60000)%Z) rest).
             { eapply Forall_impl; [exact Hrest|]. cbn. intros x Hx Hxip.
               specialize (Hx Hxip). lia. }
             pose proof (passes_window ip rest _ _ t1 He Hw) as Hb.
             subst v. cbn [RateLimit.nth_verdict Nat.ltb Nat.leb RateLimit.passes].
             cbn in Hb. lia.
      + pose proof (limiter_other h now t ip Hne) as Ho.
        rewrite H1 in Ho. cbn [fst] in Ho. rewrite <- Ho. apply IH. }
  specialize (Hgen t). split.
  - destruct (t !! ip); lia.
  - intros Hfresh. now rewrite Hfresh in Hgen.
Qed.

Lemma limiter_bound_in_any_minute_witness :
  (RateLimit.passes
     (RateLimit.verdictsFor (Some "10.0.0.1")
        (repeat (RateLimit.mkHandshake RateLimit.Absent (Some "10.0.0.1"), 1000%Z) 25)
        ∅) <= 20)%nat.
Proof.
  exact (proj2 (limiter_bound_in_any_minute (Some "10.0.0.1") 0
                  (repeat (RateLimit.mkHandshake RateLimit.Absent (Some "10.0.0.1"), 1000%Z) 25)
                  ∅ ltac:(repeat constructor; cbn; lia)) eq_refl).
Defined.

(** ** Sanity checks of the rate limiter *)

(** The key is the first hop of the header, trimmed; the socket address is
    the fallback. *)
Example clientIp_samples :
  RateLimit.clientIp
    (RateLimit.mkHandshake (RateLimit.Single " 10.0.0.1 , 10.9.9.9") (Some "127.0.0.1"))
    = Some "10.0.0.1" /\
  RateLimit.clientIp (RateLimit.mkHandshake (RateLimit.Single "") (Some "127.0.0.1"))
    = Some "127.0.0.1" /\
  RateLimit.clientIp (RateLimit.mkHandshake RateLimit.Absent None) = Some "unknown" /\
  RateLimit.clientIp (RateLimit.mkHandshake (RateLimit.Many []) (Some "127.0.0.1")) = None.
Proof. repeat split; vm_compute; reflexivity. Qed.

(** Around the end of a window more than 20 connections do pass within a
    millisecond: 19 at the window's last instant and 20 right after it. *)
Example limiter_boundary_burst :
  let h := RateLimit.mkHandshake RateLimit.Absent (Some "10.0.0.1") in
  RateLimit.passes
    (RateLimit.verdictsFor (Some "10.0.0.1")
       (repeat (h, 60000%Z) 19 ++ repeat (h, 60001%Z) 20)
       (RateLimit.serve [(h, 0%Z)] ∅)) = 39%nat.
Proof. vm_compute. reflexivity. Qed.
